(** * CentTR: the PhoneOSINT class of [main.py], embedded and verified

    The Python class [PhoneOSINT] is embedded shallowly.  Python values are
    an inductive type, the instance is a record of its attributes, and the
    methods are computations in a state-and-exception monad whose state is
    the instance together with the trace of calls that leave the process
    (HTTP requests, search queries, clock and host look-ups).  The
    third-party libraries ([phonenumbers], [requests], [googlesearch],
    [socket], [datetime]) are a record of oracles, [World]; every theorem
    quantifies over it.  The [rich] console widgets ([status], [Progress])
    only draw on the terminal and are modelled as doing nothing.

    The link menu [open_urls_interactively] is embedded as a function of
    the results and of the desk it runs at: the user's answer, the browser
    and what [rich] makes of the markup of a printed line are the desk's
    oracles, and what was shown, asked and opened is a list of events. *)

From Stdlib Require Import List ZArith NArith QArith Bool Ascii String Lia.
From Stdlib Require Import DecimalString.
From Stdlib Require DecimalPos DecimalZ FinFun.
Import ListNotations.

Local Open Scope list_scope.
Local Open Scope N_scope.

(** ** Python's [str]: a sequence of Unicode code points *)

Module Py.

Definition char := N.
Definition str := list char.

(** String literals are written as in the source file, which is UTF-8;
    [lit] decodes the bytes of a Rocq string into code points. *)
Fixpoint utf8_decode (bs : list N) : str :=
  match bs with
  | [] => []
  | b0 :: r0 =>
    if b0 <? 128 then b0 :: utf8_decode r0
    else match r0 with
    | [] => [b0]
    | b1 :: r1 =>
      if b0 <? 224 then ((b0 - 192) * 64 + (b1 - 128)) :: utf8_decode r1
      else match r1 with
      | [] => [b0; b1]
      | b2 :: r2 =>
        if b0 <? 240
        then ((b0 - 224) * 4096 + (b1 - 128) * 64 + (b2 - 128)) :: utf8_decode r2
        else match r2 with
        | [] => [b0; b1; b2]
        | b3 :: r3 =>
          ((b0 - 240) * 262144 + (b1 - 128) * 4096 + (b2 - 128) * 64 + (b3 - 128))
            :: utf8_decode r3
        end
      end
    end
  end.

Definition lit (s : string) : str :=
  utf8_decode (map N_of_ascii (list_ascii_of_string s)).
Arguments lit s%_string.

(** [str.encode('utf-8')], as [urllib.parse.quote] applies it. *)
Definition utf8_encode_char (c : char) : list N :=
  if c <? 128 then [c]
  else if c <? 2048 then [192 + c / 64; 128 + c mod 64]
  else if c <? 65536 then [224 + c / 4096; 128 + (c / 64) mod 64; 128 + c mod 64]
  else [240 + c / 262144; 128 + (c / 4096) mod 64; 128 + (c / 64) mod 64; 128 + c mod 64].

Definition utf8_encode (s : str) : list N := flat_map utf8_encode_char s.

Fixpoint eqb (a b : str) : bool :=
  match a, b with
  | [], [] => true
  | x :: a', y :: b' => (x =? y) && eqb a' b'
  | _, _ => false
  end.

(** [s.startswith(p)] *)
Fixpoint starts_with (p s : str) : bool :=
  match p, s with
  | [], _ => true
  | _ :: _, [] => false
  | x :: p', y :: s' => (x =? y) && starts_with p' s'
  end.

(** [sub in s] for two strings: [sub] occurs somewhere in [s]. *)
Fixpoint contains (sub s : str) : bool :=
  starts_with sub s ||
  match s with
  | [] => false
  | _ :: s' => contains sub s'
  end.

(** [s.replace(old, new)]: the non-overlapping occurrences of [old], from
    the left, are replaced; [skip] counts the characters of a matched
    occurrence still to be dropped. *)
Fixpoint replace_from (old new : str) (skip : nat) (s : str) : str :=
  match s with
  | [] => []
  | c :: s' =>
    match skip with
    | S k => replace_from old new k s'
    | O =>
      if starts_with old s
      then new ++ replace_from old new (List.length old - 1) s'
      else c :: replace_from old new 0 s'
    end
  end.

Definition replace (s old new : str) : str :=
  match old with
  | [] => new ++ flat_map (fun c => c :: new) s
  | _ :: _ => replace_from old new 0 s
  end.

(** Slices [s[:n]] and [s[-n:]] for a positive literal [n]. *)
Definition slice_to (n : nat) (s : str) : str := firstn n s.
Definition slice_last (n : nat) (s : str) : str := skipn (List.length s - n) s.

(** [sep.join(parts)] *)
Fixpoint join (sep : str) (parts : list str) : str :=
  match parts with
  | [] => []
  | [p] => p
  | p :: rest => p ++ sep ++ join sep rest
  end.

(** [str(n)] for an [int]. *)
Definition str_of_int (z : Z) : str :=
  lit (NilZero.string_of_int (Z.to_int z)).

(** [urllib.parse.quote(s)] with its default [safe='/']: letters, digits
    and [_.-~/] stay, every other byte of the UTF-8 encoding becomes
    [%XX] with upper-case hexadecimal digits. *)
Definition is_unreserved (b : N) : bool :=
  ((65 <=? b) && (b <=? 90)) || ((97 <=? b) && (b <=? 122)) ||
  ((48 <=? b) && (b <=? 57)) ||
  (b =? 95) || (b =? 46) || (b =? 45) || (b =? 126) || (b =? 47).

Definition hex_digit (d : N) : char :=
  if d <? 10 then 48 + d else 55 + d.

Definition quote_byte (b : N) : str :=
  if is_unreserved b then [b] else [37; hex_digit (b / 16); hex_digit (b mod 16)].

Definition quote (s : str) : str := flat_map quote_byte (utf8_encode s).

End Py.

Abbreviation pystr := Py.str.
Abbreviation lit := Py.lit.

(** The double-quote character of the search query. *)
Definition dquote : pystr := [34].

(** ** Python values

    What [json.loads] can produce, which is also what the report is made
    of.  A [dict] keeps its items in insertion order. *)

Inductive pyfloat :=
| FNaN
| FInf (negative : bool)
| FFinite (q : Q).

#[local] Set Warnings "-register-all".
Inductive pyval :=
| VNone
| VBool (b : bool)
| VInt (z : Z)
| VFloat (f : pyfloat)
| VStr (s : pystr)
| VList (l : list pyval)
| VDict (d : list (pystr * pyval)).

Abbreviation dict := (list (pystr * pyval)).

(** [bool(v)] *)
Definition truthy (v : pyval) : bool :=
  match v with
  | VNone => false
  | VBool b => b
  | VInt z => negb (z =? 0)%Z
  | VFloat (FFinite q) => negb (Qeq_bool q 0)
  | VFloat _ => true
  | VStr s => match s with [] => false | _ :: _ => true end
  | VList l => match l with [] => false | _ :: _ => true end
  | VDict d => match d with [] => false | _ :: _ => true end
  end.

(** [type(v).__name__], for the messages of [TypeError] and
    [AttributeError]. *)
Definition type_name (v : pyval) : pystr :=
  match v with
  | VNone => lit "NoneType"
  | VBool _ => lit "bool"
  | VInt _ => lit "int"
  | VFloat _ => lit "float"
  | VStr _ => lit "str"
  | VList _ => lit "list"
  | VDict _ => lit "dict"
  end.

(** [d.get(k)], [k in d], and [d[k] = v], which overwrites in place or
    appends a new item at the end. *)
Fixpoint dict_get (k : pystr) (d : dict) : option pyval :=
  match d with
  | [] => None
  | (k', v) :: d' => if Py.eqb k k' then Some v else dict_get k d'
  end.

Definition dict_has (k : pystr) (d : dict) : bool :=
  match dict_get k d with Some _ => true | None => false end.

Fixpoint dict_set (k : pystr) (v : pyval) (d : dict) : dict :=
  match d with
  | [] => [(k, v)]
  | (k', v') :: d' =>
    if Py.eqb k k' then (k', v) :: d' else (k', v') :: dict_set k v d'
  end.

(** A dict display [{k1: v1, ..., kn: vn}]: the items are stored from
    left to right. *)
Definition dict_display (items : list (pystr * pyval)) : dict :=
  fold_left (fun d kv => dict_set (fst kv) (snd kv) d) items [].

Definition dict_keys (d : dict) : list pystr := map fst d.

(** ** Exceptions

    The classes the program raises or names in an [except] clause.
    [RequestsJSONDecodeError] is [requests.exceptions.JSONDecodeError],
    which derives from both [RequestException] and [json.JSONDecodeError];
    [OtherException] stands for any other subclass of [Exception] that a
    library may raise. *)

Inductive exn_class :=
| NumberParseException
| ValueError
| TypeError
| AttributeError
| RequestException
| JSONDecodeError
| RequestsJSONDecodeError
| OtherException.

Record exn := mk_exn { exn_cls : exn_class; exn_str : pystr }.

Definition is_RequestException (e : exn) : bool :=
  match exn_cls e with
  | RequestException | RequestsJSONDecodeError => true
  | _ => false
  end.

Definition is_JSONDecodeError (e : exn) : bool :=
  match exn_cls e with
  | JSONDecodeError | RequestsJSONDecodeError => true
  | _ => false
  end.

Inductive outcome (A : Type) :=
| Return (a : A)
| Raise (e : exn).
Arguments Return {A} a.
Arguments Raise {A} e.

Definition outcome_bind {A B} (c : outcome A) (k : A -> outcome B) : outcome B :=
  match c with
  | Return a => k a
  | Raise e => Raise e
  end.

Notation "'let?' x ':=' c 'in' k" := (outcome_bind c (fun x => k))
  (at level 10, x name, c at level 100, k at level 200).

(** [needle in container] for a [str] needle.  An element of a list equals
    a [str] only if it is that same [str]. *)
Definition str_in (needle : pystr) (container : pyval) : outcome bool :=
  match container with
  | VList l =>
    Return (existsb (fun x => match x with VStr s => Py.eqb needle s | _ => false end) l)
  | VDict d => Return (dict_has needle d)
  | VStr s => Return (Py.contains needle s)
  | _ =>
    Raise (mk_exn TypeError
      (lit "argument of type '" ++ type_name container ++ lit "' is not iterable"))
  end.

(** [obj.get(key, default)]: only a [dict] has the method. *)
Definition py_get (obj : pyval) (key : pystr) (default : pyval) : outcome pyval :=
  match obj with
  | VDict d => Return (match dict_get key d with Some v => v | None => default end)
  | _ =>
    Raise (mk_exn AttributeError
      (lit "'" ++ type_name obj ++ lit "' object has no attribute 'get'"))
  end.

(** [iter(v)]: the items a [for] loop visits. *)
Definition py_iter (v : pyval) : outcome (list pyval) :=
  match v with
  | VList l => Return l
  | VDict d => Return (map (fun kv => VStr (fst kv)) d)
  | VStr s => Return (map (fun c => VStr [c]) s)
  | _ =>
    Raise (mk_exn TypeError (lit "'" ++ type_name v ++ lit "' object is not iterable"))
  end.

(** [a or b] on strings. *)
Definition str_or (a b : pystr) : pystr :=
  match a with [] => b | _ :: _ => a end.

(** ** The libraries the program calls *)

Inductive PhoneNumberFormat := E164 | INTERNATIONAL | NATIONAL | RFC3966.

Inductive PhoneNumberType :=
| FIXED_LINE | MOBILE | FIXED_LINE_OR_MOBILE | TOLL_FREE | PREMIUM_RATE
| SHARED_COST | VOIP | PERSONAL_NUMBER | PAGER | UAN | VOICEMAIL | UNKNOWN.

Definition is_MOBILE (t : PhoneNumberType) : bool :=
  match t with MOBILE => true | _ => false end.

Record PhoneNumber := mk_PhoneNumber {
  country_code : Z;
  national_number : Z;
  extension : option pystr
}.

Record Response := mk_Response {
  status_code : Z;
  text : pystr;
  json : outcome pyval
}.

(** The oracles.  [search] returns the URLs its generator yields and the
    exception that ends it, if one does.  [clock n] is the formatted
    [datetime.now()] at the [n]-th reading.  Validity, possibility, type and
    format of a parsed number are look-ups in the numbering plan and are
    total; the carrier, geocoder and timezone look-ups may raise. *)
Record World := mk_World {
  parse : pystr -> outcome PhoneNumber;
  is_valid_number : PhoneNumber -> bool;
  is_possible_number : PhoneNumber -> bool;
  format_number : PhoneNumber -> PhoneNumberFormat -> pystr;
  number_type : PhoneNumber -> PhoneNumberType;
  name_for_number : PhoneNumber -> outcome pystr;
  description_for_number : PhoneNumber -> outcome pystr;
  time_zones_for_number : PhoneNumber -> outcome (list pystr);
  requests_get : pystr -> dict -> Z -> outcome Response;
  search : pystr -> Z -> Z -> Z -> list pystr * option exn;
  clock : nat -> pystr;
  gethostname : outcome pystr;
  gethostbyname : pystr -> outcome pystr
}.

(** What leaves the process. *)
Inductive event :=
| HttpGet (url : pystr) (headers : dict) (timeout : Z)
| GoogleSearch (query : pystr) (num_results stop pause : Z)
| ClockRead
| HostName
| HostByName (hostname : pystr).

Definition is_network (ev : event) : bool :=
  match ev with
  | HttpGet _ _ _ | GoogleSearch _ _ _ _ => true
  | _ => false
  end.

Definition is_ClockRead (ev : event) : bool :=
  match ev with ClockRead => true | _ => false end.

(** ** The instance and the monad of its methods *)

Record PhoneOSINT := mk_PhoneOSINT {
  console : list pystr;            (* what [console.print] has shown *)
  phone_number : pystr;
  parsed_number : option PhoneNumber;
  basic_info : dict;
  social_media_results : dict;
  breach_results : pyval;
  google_results : list pystr;
  reverse_lookup_results : list pystr
}.

Record machine := mk_machine {
  self : PhoneOSINT;
  trace : list event
}.

Definition M (A : Type) : Type := machine -> outcome A * machine.

Definition ret {A} (a : A) : M A := fun m => (Return a, m).

Definition raise {A} (e : exn) : M A := fun m => (Raise e, m).

Definition bind {A B} (c : M A) (k : A -> M B) : M B :=
  fun m =>
    match c m with
    | (Return a, m') => k a m'
    | (Raise e, m') => (Raise e, m')
    end.

Notation "x <- c ;; k" := (bind c (fun x => k))
  (at level 61, c at next level, right associativity).
Notation "c ;; k" := (bind c (fun _ => k))
  (at level 61, right associativity).

Definition lift {A} (c : outcome A) : M A := fun m => (c, m).

(** [try: body except ...: handler].  The handler answers [None] for an
    exception that no clause matches, which then propagates.  What the body
    changed before it raised stays changed. *)
Definition try_except {A} (body : M A) (handler : exn -> option (M A)) : M A :=
  fun m =>
    match body m with
    | (Return a, m') => (Return a, m')
    | (Raise e, m') =>
      match handler e with
      | Some h => h m'
      | None => (Raise e, m')
      end
    end.

Definition get_self : M PhoneOSINT := fun m => (Return (self m), m).

Definition update_self (f : PhoneOSINT -> PhoneOSINT) : M unit :=
  fun m => (Return tt, mk_machine (f (self m)) (trace m)).

Definition emit (ev : event) : M unit :=
  fun m => (Return tt, mk_machine (self m) (trace m ++ [ev])).

Fixpoint for_each {A} (items : list A) (body : A -> M unit) : M unit :=
  match items with
  | [] => ret tt
  | x :: rest => body x ;; for_each rest body
  end.

Definition console_print (s : pystr) (o : PhoneOSINT) : PhoneOSINT :=
  mk_PhoneOSINT (console o ++ [s]) (phone_number o) (parsed_number o) (basic_info o)
    (social_media_results o) (breach_results o) (google_results o)
    (reverse_lookup_results o).

Definition set_parsed_number (p : option PhoneNumber) (o : PhoneOSINT) : PhoneOSINT :=
  mk_PhoneOSINT (console o) (phone_number o) p (basic_info o)
    (social_media_results o) (breach_results o) (google_results o)
    (reverse_lookup_results o).

Definition set_basic_info (d : dict) (o : PhoneOSINT) : PhoneOSINT :=
  mk_PhoneOSINT (console o) (phone_number o) (parsed_number o) d
    (social_media_results o) (breach_results o) (google_results o)
    (reverse_lookup_results o).

Definition set_social_media_results (d : dict) (o : PhoneOSINT) : PhoneOSINT :=
  mk_PhoneOSINT (console o) (phone_number o) (parsed_number o) (basic_info o)
    d (breach_results o) (google_results o) (reverse_lookup_results o).

Definition set_breach_results (v : pyval) (o : PhoneOSINT) : PhoneOSINT :=
  mk_PhoneOSINT (console o) (phone_number o) (parsed_number o) (basic_info o)
    (social_media_results o) v (google_results o) (reverse_lookup_results o).

Definition set_google_results (l : list pystr) (o : PhoneOSINT) : PhoneOSINT :=
  mk_PhoneOSINT (console o) (phone_number o) (parsed_number o) (basic_info o)
    (social_media_results o) (breach_results o) l (reverse_lookup_results o).

Definition set_reverse_lookup_results (l : list pystr) (o : PhoneOSINT) : PhoneOSINT :=
  mk_PhoneOSINT (console o) (phone_number o) (parsed_number o) (basic_info o)
    (social_media_results o) (breach_results o) (google_results o) l.

(** ** The methods of [PhoneOSINT] *)

(** [_calculate_breach_severity(self, breach)].  It does not touch [self]. *)
Definition _calculate_breach_severity (breach : pyval) : outcome pystr :=
  let severity := lit "Medium" in
  let? is_verified := py_get breach (lit "IsVerified") (VBool false) in
  let severity := if truthy is_verified then lit "High" else severity in
  let? data_classes := py_get breach (lit "DataClasses") (VList []) in
  let? has_password := str_in (lit "Password") data_classes in
  let severity := if has_password then lit "Critical" else severity in
  let? is_sensitive := py_get breach (lit "IsSensitive") (VBool false) in
  let severity := if truthy is_sensitive then lit "Critical" else severity in
  let? is_fabricated := py_get breach (lit "IsFabricated") (VBool false) in
  let severity := if truthy is_fabricated then lit "Low" else severity in
  let? is_retired := py_get breach (lit "IsRetired") (VBool false) in
  let severity := if truthy is_retired then lit "Low" else severity in
  Return severity.

(** [breach['Severity'] = severity] *)
Definition set_item (obj : pyval) (key : pystr) (v : pyval) : outcome pyval :=
  match obj with
  | VDict d => Return (VDict (dict_set key v d))
  | _ =>
    Raise (mk_exn TypeError
      (lit "'" ++ type_name obj ++ lit "' object does not support item assignment"))
  end.

(** The loop [for breach in self.breach_results: breach['Severity'] = ...]
    over the items [todo].  The records are changed in place, so the ones
    visited before an exception keep their tag: the result is the items as
    the loop leaves them and the exception that stopped it, if any. *)
Fixpoint tag_breaches (todo : list pyval) : list pyval * option exn :=
  match todo with
  | [] => ([], None)
  | breach :: rest =>
    match (let? severity := _calculate_breach_severity breach in
           set_item breach (lit "Severity") (VStr severity)) with
    | Raise e => (breach :: rest, Some e)
    | Return breach' =>
      let (rest', failure) := tag_breaches rest in (breach' :: rest', failure)
    end
  end.

(** The same loop over whatever [response.json()] returned.  Tagging
    changes the elements of a list; the keys of a dict and the characters of
    a [str] are fresh strings, on which [get] fails at once. *)
Definition tag_breach_results (results : pyval) : pyval * option exn :=
  match py_iter results with
  | Raise e => (results, Some e)
  | Return items =>
    let (items', failure) := tag_breaches items in
    match results with
    | VList _ => (VList items', failure)
    | _ => (results, failure)
    end
  end.

Section Methods.

Variable w : World.

(** [datetime.datetime.now().strftime(...)] *)
Definition now_strftime : M pystr :=
  fun m =>
    (Return (clock w (List.length (filter is_ClockRead (trace m)))),
     mk_machine (self m) (trace m ++ [ClockRead])).

Definition _parse_number : M unit :=
  try_except
    (o <- get_self ;;
     p <- lift (parse w (phone_number o)) ;;
     update_self (set_parsed_number (Some p)) ;;
     if negb (is_valid_number w p)
     then raise (mk_exn ValueError (lit "Invalid phone number"))
     else ret tt)
    (fun e => Some (update_self (console_print
       (lit "[bold red]Error parsing phone number: " ++ exn_str e ++ lit "[/]")))).

(** [PhoneOSINT(phone_number)]: the attributes as [__init__] sets them,
    then [_parse_number]. *)
Definition __init__ (phone_number : pystr) : outcome unit * machine :=
  _parse_number (mk_machine (mk_PhoneOSINT [] phone_number None [] [] (VDict []) [] []) []).

Definition _get_region_details (location : pystr) : dict :=
  dict_display
    [ (lit "Region", VStr location);
      (lit "Estimated Coordinates", VStr (lit "Not available"));
      (lit "Area Code Info", VStr (lit "Not available")) ].

Definition yes_no (b : bool) : pyval :=
  VStr (if b then lit "✅ Yes" else lit "❌ No").

Definition get_basic_info : M dict :=
  o <- get_self ;;
  match parsed_number o with
  | None => ret (dict_display [(lit "Error", VStr (lit "Invalid phone number"))])
  | Some p =>
    try_except
      (let valid := is_valid_number w p in
       let possible := is_possible_number w p in
       carrier_name <- lift (name_for_number w p) ;;
       let number_carrier := str_or carrier_name (lit "Unknown") in
       description <- lift (description_for_number w p) ;;
       let location := str_or description (lit "Unknown") in
       zones <- lift (time_zones_for_number w p) ;;
       let time_zones := str_or (Py.join (lit ", ") zones) (lit "Unknown") in
       let number_type :=
         if is_MOBILE (number_type w p) then lit "Mobile" else lit "Fixed line" in
       update_self (set_basic_info (dict_display
         [ (lit "International Format", VStr (format_number w p INTERNATIONAL));
           (lit "National Format", VStr (format_number w p NATIONAL));
           (lit "E164 Format", VStr (format_number w p E164));
           (lit "Carrier", VStr number_carrier);
           (lit "Location", VStr location);
           (lit "Time Zone", VStr time_zones);
           (lit "Number Type", VStr number_type);
           (lit "Valid Number", yes_no valid);
           (lit "Possible Number", yes_no possible);
           (lit "Country Code", VInt (country_code p));
           (lit "National Number", VInt (national_number p));
           (lit "Extension",
            VStr (match extension p with
                  | Some e => str_or e (lit "None")
                  | None => lit "None"
                  end)) ])) ;;
       if negb (Py.eqb location (lit "Unknown"))
       then update_self (fun o =>
              set_basic_info
                (dict_set (lit "Region Details") (VDict (_get_region_details location))
                   (basic_info o)) o)
       else ret tt)
      (fun e => Some (update_self (set_basic_info (dict_display
         [(lit "Error", VStr (lit "Failed to get basic info: " ++ exn_str e))])))) ;;
    o <- get_self ;;
    ret (basic_info o)
  end.

(** [self.phone_number.replace("+", "").replace(" ", "")] *)
Definition clean_number (phone_number : pystr) : pystr :=
  Py.replace (Py.replace phone_number (lit "+") (lit "")) (lit " ") (lit "").

Definition social_platforms (clean_number formatted_number : pystr) : dict :=
  dict_display
    [ (lit "📘 Facebook",
       VStr (lit "https://www.facebook.com/search/top/?q=" ++ Py.quote formatted_number));
      (lit "💬 WhatsApp", VStr (lit "https://wa.me/" ++ clean_number));
      (lit "🐦 x",
       VStr (lit "https://x.com/search?q=" ++ Py.quote formatted_number
             ++ lit "&src=typed_query"));
      (lit "📸 Instagram",
       VStr (lit "https://www.instagram.com/search/top/?q=" ++ Py.quote formatted_number));
      (lit "📞 Truecaller",
       VStr (lit "https://www.truecaller.com/search/" ++ Py.quote formatted_number));
      (lit "✈️ Telegram", VStr (lit "https://t.me/" ++ clean_number));
      (lit "📱 Viber", VStr (lit "viber://add?number=" ++ clean_number));
      (lit "👔 LinkedIn",
       VStr (lit "https://www.linkedin.com/search/results/all/?keywords="
             ++ Py.quote formatted_number));
      (lit "📹 TikTok",
       VStr (lit "https://www.tiktok.com/search?q=" ++ Py.quote formatted_number));
      (lit "🔎 Snapchat", VStr (lit "https://www.snapchat.com/add/" ++ clean_number));
      (lit "🎵 WeChat", VStr (lit "weixin://dl/add?" ++ clean_number)) ].

(** The [try] around each assignment of the loop guards only the progress
    bar; the assignment itself cannot raise. *)
Definition search_social_media : M dict :=
  o <- get_self ;;
  match parsed_number o with
  | None => ret (dict_display [(lit "Error", VStr (lit "Invalid phone number"))])
  | Some p =>
    let clean_number := clean_number (phone_number o) in
    let formatted_number := format_number w p E164 in
    for_each (social_platforms clean_number formatted_number)
      (fun item => update_self (fun o =>
         set_social_media_results
           (dict_set (fst item) (snd item) (social_media_results o)) o)) ;;
    o <- get_self ;;
    ret (social_media_results o)
  end.

(** [not hibp_api_key]: [None] and the empty string are both falsy. *)
Definition no_key (hibp_api_key : option pystr) : bool :=
  match hibp_api_key with
  | None | Some [] => true
  | Some (_ :: _) => false
  end.

Definition breach_url (clean_number : pystr) : pystr :=
  lit "https://haveibeenpwned.com/api/v3/breachedaccount/" ++ clean_number
    ++ lit "?truncateResponse=false".

Definition breach_headers (key : pystr) : dict :=
  dict_display
    [ (lit "hibp-api-key", VStr key);
      (lit "user-agent", VStr (lit "Python PhoneOSINT Tool")) ].

(** [response.text[:200] + "..." if len(response.text) > 200 else response.text] *)
Definition details (text : pystr) : pystr :=
  if (200 <? List.length text)%nat then Py.slice_to 200 text ++ lit "..." else text.

Definition check_breaches (hibp_api_key : option pystr) : M pyval :=
  match hibp_api_key with
  | None | Some [] =>
    ret (VDict (dict_display
      [(lit "Status", VStr (lit "Skipped - No HIBP API key provided"))]))
  | Some key =>
    o <- get_self ;;
    let clean_number := clean_number (phone_number o) in
    let url := breach_url clean_number in
    let headers := breach_headers key in
    try_except
      (emit (HttpGet url headers 15) ;;
       response <- lift (requests_get w url headers 15) ;;
       if (status_code response =? 200)%Z then
         body <- lift (json response) ;;
         update_self (set_breach_results body) ;;
         let (tagged, failure) := tag_breach_results body in
         update_self (set_breach_results tagged) ;;
         match failure with
         | Some e => raise e
         | None => ret tt
         end
       else if (status_code response =? 404)%Z then
         update_self (set_breach_results (VDict (dict_display
           [(lit "Status", VStr (lit "✅ Phone number not found in any breaches"))])))
       else
         update_self (set_breach_results (VDict (dict_display
           [ (lit "Error", VStr (lit "HTTP " ++ Py.str_of_int (status_code response)));
             (lit "Details", VStr (details (text response))) ]))))
      (fun e =>
         if is_RequestException e then
           Some (update_self (set_breach_results (VDict (dict_display
             [(lit "Error", VStr (lit "Request failed: " ++ exn_str e))]))))
         else if is_JSONDecodeError e then
           Some (update_self (set_breach_results (VDict (dict_display
             [(lit "Error", VStr (lit "Invalid JSON response"))]))))
         else None) ;;
    o <- get_self ;;
    ret (breach_results o)
  end.

Definition search_query (national_format international_format : pystr) : pystr :=
  lit "intext:" ++ dquote ++ national_format ++ dquote
    ++ lit " OR intext:" ++ dquote ++ international_format ++ dquote.

Definition google_search (num_results : Z) : M (list pystr) :=
  o <- get_self ;;
  match parsed_number o with
  | None => ret [lit "Error: Cannot search - invalid phone number"]
  | Some p =>
    let national_format := format_number w p NATIONAL in
    let international_format := format_number w p INTERNATIONAL in
    let query := search_query national_format international_format in
    try_except
      (update_self (set_google_results []) ;;
       emit (GoogleSearch query num_results num_results 2) ;;
       let (urls, failure) := search w query num_results num_results 2 in
       for_each urls (fun url => update_self (fun o =>
         set_google_results (google_results o ++ [url]) o)) ;;
       match failure with
       | Some e => raise e
       | None => ret tt
       end)
      (fun e => Some (update_self (set_google_results
         [lit "Error: Google search failed - " ++ exn_str e]))) ;;
    o <- get_self ;;
    ret (google_results o)
  end.

Definition reverse_lookup : M (list pystr) :=
  o <- get_self ;;
  match parsed_number o with
  | None => ret [lit "Error: Invalid phone number"]
  | Some p =>
    try_except
      (let national_number := format_number w p NATIONAL in
       update_self (set_reverse_lookup_results
         [ lit "Possible business: " ++ national_number ++ lit " Services";
           lit "Potential contact: John Doe (via public records)";
           lit "Linked profile: user" ++ Py.slice_last 4 national_number
             ++ lit "@example.com" ]))
      (fun e => Some (update_self (set_reverse_lookup_results
         [lit "Error: Reverse lookup failed - " ++ exn_str e]))) ;;
    o <- get_self ;;
    ret (reverse_lookup_results o)
  end.

(** The bare [except:] catches everything. *)
Definition _get_network_info : M dict :=
  try_except
    (emit HostName ;;
     hostname <- lift (gethostname w) ;;
     emit (HostByName hostname) ;;
     ip_address <- lift (gethostbyname w hostname) ;;
     ret (dict_display
       [ (lit "Host", VStr hostname);
         (lit "IP Address", VStr ip_address);
         (lit "Location", VStr (lit "Unknown (would require GeoIP in production)")) ]))
    (fun _ => Some (ret (dict_display
       [(lit "Network Info", VStr (lit "Unavailable"))]))).

Definition run_all_checks (hibp_api_key : option pystr) (google_results : Z) : M dict :=
  basic <- get_basic_info ;;
  social <- search_social_media ;;
  breach <- check_breaches hibp_api_key ;;
  google <- google_search google_results ;;
  lookup <- reverse_lookup ;;
  search_date <- now_strftime ;;
  execution_time <- now_strftime ;;
  network <- _get_network_info ;;
  o <- get_self ;;
  ret (dict_display
    [ (lit "Basic Info", VDict basic);
      (lit "Social Media", VDict social);
      (lit "Breach Check", breach);
      (lit "Google Results", VList (map VStr google));
      (lit "Reverse Lookup", VList (map VStr lookup));
      (lit "Metadata", VDict (dict_display
         [ (lit "Search Date", VStr search_date);
           (lit "Phone Number", VStr (phone_number o));
           (lit "Tool Version", VStr (lit "2.1.0"));
           (lit "Execution Time", VStr execution_time);
           (lit "Network", VDict network) ])) ]).

End Methods.

(** ** The rules as the specification words them *)

(** The severity rules in their fixed order; a rule that fires overrides
    what the earlier ones assigned. *)
Definition severity_rules
    (is_verified has_password is_sensitive is_fabricated is_retired : bool) : pystr :=
  fold_left
    (fun (severity : pystr) (rule : bool * pystr) =>
       if fst rule then snd rule else severity)
    [ (is_verified, lit "High");
      (has_password, lit "Critical");
      (is_sensitive, lit "Critical");
      (is_fabricated, lit "Low");
      (is_retired, lit "Low") ]
    (lit "Medium").

(** The precedence table over the four inputs of the specification's
    sixteen combinations. *)
Definition severity_table
    (is_verified has_password is_sensitive fabricated_or_retired : bool) : pystr :=
  if fabricated_or_retired then lit "Low"
  else if has_password || is_sensitive then lit "Critical"
  else if is_verified then lit "High"
  else lit "Medium".

(** A boolean-like field of a breach record, as [breach.get(key, False)]
    reads it. *)
Definition flag (record : dict) (key : pystr) : bool :=
  truthy (match dict_get key record with Some v => v | None => VBool false end).

Definition data_classes (record : dict) : pyval :=
  match dict_get (lit "DataClasses") record with Some v => v | None => VList [] end.

(** The last four decimal digits of the national number, which the
    specification names as the local-part of the fabricated address. *)
Definition last_four_digits (p : PhoneNumber) : pystr :=
  Py.slice_last 4 (Py.str_of_int (national_number p)).

(** The characters [clean_number] keeps: everything but [+] and space. *)
Definition kept (c : Py.char) : bool := negb (c =? 43) && negb (c =? 32).

(** The six sections of the report. *)
Definition section_keys : list pystr :=
  [ lit "Basic Info"; lit "Social Media"; lit "Breach Check";
    lit "Google Results"; lit "Reverse Lookup"; lit "Metadata" ].

(** The sentinels and placeholders of the sections. *)
Definition skipped : pyval :=
  VDict [(lit "Status", VStr (lit "Skipped - No HIBP API key provided"))].

Definition not_found : pyval :=
  VDict [(lit "Status", VStr (lit "✅ Phone number not found in any breaches"))].

Definition invalid_number : dict :=
  [(lit "Error", VStr (lit "Invalid phone number"))].


Definition is_error_dict (v : pyval) : bool :=
  match v with
  | VDict d => dict_has (lit "Error") d
  | _ => false
  end.

(** ** A sample world

    Three numbers of a numbering plan, with the formats the plan gives
    them; every other string is not a phone number.  The breach service and
    the search provider answer as the parameters say. *)

Definition indonesian : PhoneNumber := mk_PhoneNumber 62 81234567890 None.
Definition french : PhoneNumber := mk_PhoneNumber 33 123456789 None.
Definition too_short : PhoneNumber := mk_PhoneNumber 1 555 None.

Definition sample_parse (s : pystr) : outcome PhoneNumber :=
  if Py.eqb s (lit "+6281234567890") then Return indonesian
  else if Py.eqb s (lit "+62 812-3456-7890") then Return indonesian
  else if Py.eqb s (lit "+33123456789") then Return french
  else if Py.eqb s (lit "+1555") then Return too_short
  else Raise (mk_exn NumberParseException
         (lit "(1) The string supplied did not seem to be a phone number."))%Z.

Definition sample_format (p : PhoneNumber) (f : PhoneNumberFormat) : pystr :=
  if (country_code p =? 62)%Z then
    match f with
    | E164 => lit "+6281234567890"
    | INTERNATIONAL => lit "+62 812-3456-7890"
    | NATIONAL => lit "0812-3456-7890"
    | RFC3966 => lit "tel:+62-812-3456-7890"
    end
  else if (country_code p =? 33)%Z then
    match f with
    | E164 => lit "+33123456789"
    | INTERNATIONAL => lit "+33 1 23 45 67 89"
    | NATIONAL => lit "01 23 45 67 89"
    | RFC3966 => lit "tel:+33-1-23-45-67-89"
    end
  else
    match f with
    | E164 => lit "+1555"
    | INTERNATIONAL => lit "+1 555"
    | NATIONAL => lit "555"
    | RFC3966 => lit "tel:+1-555"
    end.

Definition sample_world (http : outcome Response) (found : list pystr * option exn)
    : World :=
  {| parse := sample_parse;
     is_valid_number := fun p => negb (country_code p =? 1)%Z;
     is_possible_number := fun p => negb (country_code p =? 1)%Z;
     format_number := sample_format;
     number_type := fun p => if (country_code p =? 62)%Z then MOBILE else FIXED_LINE;
     name_for_number := fun p =>
       Return (if (country_code p =? 62)%Z then lit "Telkomsel" else lit "");
     description_for_number := fun p =>
       Return (if (country_code p =? 62)%Z then lit "Indonesia"
               else if (country_code p =? 33)%Z then lit "Paris" else lit "");
     time_zones_for_number := fun p =>
       Return (if (country_code p =? 62)%Z then [lit "Asia/Jakarta"]
               else if (country_code p =? 33)%Z then [lit "Europe/Paris"] else []);
     requests_get := fun _ _ _ => http;
     search := fun _ _ _ _ => found;
     clock := fun _ => lit "2024-01-01 00:00:00";
     gethostname := Return (lit "localhost");
     gethostbyname := fun _ => Return (lit "127.0.0.1") |}.

Definition offline : outcome Response :=
  Raise (mk_exn RequestException (lit "Connection refused")).

Definition no_results : list pystr * option exn := ([], None).

Definition two_results : list pystr * option exn :=
  ([lit "https://example.com/a"; lit "https://example.com/b"], None).



(** A server error whose body is 251 characters long. *)
Definition server_error : Response :=
  mk_Response 500 (repeat 120 251) (Raise (mk_exn JSONDecodeError (lit "Expecting value"))).

Definition missing : Response :=
  mk_Response 404 [] (Raise (mk_exn JSONDecodeError (lit "Expecting value"))).

(** Status 200 with a JSON object, not a list of records, as body. *)
Definition message_body : Response :=
  mk_Response 200 (lit "{}")
    (Return (VDict [(lit "message", VStr (lit "Rate limit exceeded"))])).

(** Status 200 with one record whose [DataClasses] is [null]. *)
Definition null_classes : Response :=
  mk_Response 200 (lit "[]")
    (Return (VList [VDict [(lit "Name", VStr (lit "Acme")); (lit "DataClasses", VNone)]])).

Definition a_key : option pystr := Some (lit "0123456789abcdef").

(** The instance [PhoneOSINT(s)] leaves behind in a world. *)
Definition instance (w : World) (s : pystr) : machine := snd (__init__ w s).

(** The line [_parse_number] prints for an exception. *)
Definition parse_error_line (e : exn) : pystr :=
  lit "[bold red]Error parsing phone number: " ++ exn_str e ++ lit "[/]".

(** A link whose URL contains [needle]. *)
Definition link_has (needle : pystr) (item : pystr * pyval) : bool :=
  match snd item with
  | VStr url => Py.contains needle url
  | _ => false
  end.

(** A breach record as the service documents it: a dict whose
    [DataClasses], when there is one, can be searched with [in]. *)
Definition documented_record (v : pyval) : bool :=
  match v with
  | VDict d =>
    match data_classes d with
    | VList _ | VDict _ | VStr _ => true
    | _ => false
    end
  | _ => false
  end.

(** The exceptions [check_breaches] has a clause for. *)
Definition handled (e : exn) : bool := is_RequestException e || is_JSONDecodeError e.

(** A world whose geocoder data is missing. *)
Definition geocoder_down (w : World) : World :=
  {| parse := parse w;
     is_valid_number := is_valid_number w;
     is_possible_number := is_possible_number w;
     format_number := format_number w;
     number_type := number_type w;
     name_for_number := name_for_number w;
     description_for_number := fun _ =>
       Raise (mk_exn OtherException (lit "geocoder data missing"));
     time_zones_for_number := time_zones_for_number w;
     requests_get := requests_get w;
     search := search w;
     clock := clock w;
     gethostname := gethostname w;
     gethostbyname := gethostbyname w |}.

(** Status 200 with two records as the service documents them. *)
Definition acme_breach : pyval :=
  VDict [ (lit "Name", VStr (lit "Acme"));
          (lit "BreachDate", VStr (lit "2019-03-01"));
          (lit "DataClasses", VList [VStr (lit "Email addresses"); VStr (lit "Passwords")]);
          (lit "IsVerified", VBool true);
          (lit "IsSensitive", VBool false);
          (lit "IsFabricated", VBool false);
          (lit "IsRetired", VBool false) ].

Definition old_breach : pyval :=
  VDict [ (lit "Name", VStr (lit "Oldsite"));
          (lit "DataClasses", VList [VStr (lit "Password")]);
          (lit "IsRetired", VBool true) ].

Definition two_breaches : Response :=
  mk_Response 200 (lit "[]") (Return (VList [acme_breach; old_breach])).

(** Status 200 with a documented record followed by one whose
    [DataClasses] is [null]. *)
Definition second_record_broken : Response :=
  mk_Response 200 (lit "[]")
    (Return (VList [ old_breach;
                     VDict [(lit "Name", VStr (lit "Acme")); (lit "DataClasses", VNone)];
                     acme_breach ])).

(** Status 200 with a body that is not JSON, as [requests] from version
    2.27 and as older versions report it. *)
Definition not_json_new : Response :=
  mk_Response 200 (lit "<html>")
    (Raise (mk_exn RequestsJSONDecodeError (lit "Expecting value: line 1 column 1 (char 0)"))).

Definition not_json_old : Response :=
  mk_Response 200 (lit "<html>")
    (Raise (mk_exn JSONDecodeError (lit "Expecting value: line 1 column 1 (char 0)"))).

(** What identifies an instance, which no method is meant to change after
    construction. *)
Definition same_number (m m' : machine) : Prop :=
  console (self m') = console (self m) /\
  phone_number (self m') = phone_number (self m) /\
  parsed_number (self m') = parsed_number (self m).

(** The outside calls of the breach and search sections. *)
Definition breach_calls (hibp_api_key : option pystr) (m : machine) : list event :=
  match hibp_api_key with
  | Some (c :: key) =>
    [HttpGet (breach_url (clean_number (phone_number (self m))))
       (breach_headers (c :: key)) 15]
  | _ => []
  end.

Definition search_calls (w : World) (num_results : Z) (m : machine) : list event :=
  match parsed_number (self m) with
  | Some p =>
    [GoogleSearch (search_query (format_number w p NATIONAL)
                     (format_number w p INTERNATIONAL)) num_results num_results 2]
  | None => []
  end.

(** The ASCII digits [0] to [9]. *)
Definition is_ascii_digit (c : Py.char) : bool := (48 <=? c) && (c <=? 57).

(** ** The link menu: [open_urls_interactively]

    The function works on the console and the browser of the desk the tool
    runs at.  What it shows, asks, opens and waits for is a list of
    [ui_event]s.  The Unicode tables behind [str.upper] and the pattern
    [\d], [str] of a value that is not a string, and what [rich] makes of
    the markup of a line are oracles like the console and the browser. *)

Inductive ui_event :=
| Printed (line : pystr)
| Asked (prompt : pystr)
| Opened (url : pyval)
| Slept (seconds : Z).

Record Desk := mk_Desk {
  repr : pyval -> pystr;
  unicode_upper : Py.char -> pystr;
  unicode_decimal : Py.char -> bool;
  markup_error : pystr -> option exn;
  console_input : pystr -> outcome pystr;
  webbrowser_open : pyval -> outcome bool
}.

Definition newline : pystr := [10].

(** [s.upper()]: the letters [a] to [z] directly, the rest of Unicode by
    its table. *)
Definition upper (desk : Desk) (s : pystr) : pystr :=
  flat_map (fun c =>
              if c <? 128
              then [if (97 <=? c) && (c <=? 122) then c - 32 else c]
              else unicode_upper desk c) s.

(** A character the pattern [\d] matches. *)
Definition is_decimal (desk : Desk) (c : Py.char) : bool :=
  if c <? 128 then is_ascii_digit c else unicode_decimal desk c.

(** [re.findall(r'\d+', s)]: the maximal runs of decimal characters, from
    the left; [run] is the run being read. *)
Fixpoint digit_runs (is_d : Py.char -> bool) (run s : pystr) : list pystr :=
  match s with
  | [] => match run with [] => [] | _ :: _ => [run] end
  | c :: s' =>
    if is_d c then digit_runs is_d (run ++ [c]) s'
    else match run with
         | [] => digit_runs is_d [] s'
         | _ :: _ => run :: digit_runs is_d [] s'
         end
  end.

Definition findall_digits (desk : Desk) (s : pystr) : list pystr :=
  digit_runs (is_decimal desk) [] s.

(** [f"{v}"] *)
Definition text_of (desk : Desk) (v : pyval) : pystr :=
  match v with
  | VStr s => s
  | _ => repr desk v
  end.

(** [obj.items()] *)
Definition py_items (obj : pyval) : outcome dict :=
  match obj with
  | VDict d => Return d
  | _ =>
    Raise (mk_exn AttributeError
      (lit "'" ++ type_name obj ++ lit "' object has no attribute 'items'"))
  end.

(** [enumerate(l, start)] *)
Fixpoint enumerate {A} (start : Z) (l : list A) : list (Z * A) :=
  match l with
  | [] => []
  | x :: l' => (start, x) :: enumerate (start + 1) l'
  end.

(** A dict whose values are not JSON values, such as [options], which maps
    a menu number to a pair of platform and link. *)
Fixpoint assoc_get {V} (k : pystr) (d : list (pystr * V)) : option V :=
  match d with
  | [] => None
  | (k', v) :: d' => if Py.eqb k k' then Some v else assoc_get k d'
  end.

Fixpoint assoc_set {V} (k : pystr) (v : V) (d : list (pystr * V)) : list (pystr * V) :=
  match d with
  | [] => [(k, v)]
  | (k', v') :: d' =>
    if Py.eqb k k' then (k', v) :: d' else (k', v') :: assoc_set k v d'
  end.

(** [{str(i): (platform, url) for i, (platform, url) in enumerate(items, 1)}] *)
Definition menu_options (items : dict) : list (pystr * (pystr * pyval)) :=
  fold_left (fun d numbered => assoc_set (Py.str_of_int (fst numbered)) (snd numbered) d)
    (enumerate 1 items) [].

(** The character "[", with which every tag of [rich]'s markup starts. *)
Definition has_bracket (s : pystr) : bool := existsb (fun c => c =? 91) s.

(** [console.print(line)], for a line into which the texts [inserted] were
    formatted.  [rich] reads the line as markup before it shows anything,
    and raises [MarkupError] for a closing tag that closes nothing.  A line
    whose inserted texts hold no "[" has only the tags of its format
    string, which are balanced, and is printed; for any other line the
    desk tells what [rich] raises, if it does.  The result is what was
    shown and the exception raised. *)
Definition print_markup (desk : Desk) (inserted : list pystr) (line : pystr)
    : list ui_event * option exn :=
  if existsb has_bracket inserted then
    match markup_error desk line with
    | Some e => ([], Some e)
    | None => ([Printed line], None)
    end
  else ([Printed line], None).

(** A [for] loop whose turns act at the desk and may raise: the turns run
    in order until one raises. *)
Fixpoint in_turn {A} (turn : A -> list ui_event * option exn) (l : list A)
    : list ui_event * option exn :=
  match l with
  | [] => ([], None)
  | x :: rest =>
    match turn x with
    | (done, Some e) => (done, Some e)
    | (done, None) =>
      let (later, failure) := in_turn turn rest in (done ++ later, failure)
    end
  end.

(** One turn of the loop that prints the menu. *)
Definition show_option (desk : Desk) (entry : pystr * (pystr * pyval))
    : list ui_event * option exn :=
  let '(num, (platform, url)) := entry in
  print_markup desk [platform; text_of desk url]
    (num ++ lit ". " ++ platform ++ lit " - [link=" ++ text_of desk url
     ++ lit "]" ++ text_of desk url ++ lit "[/link]").

Definition menu_prompt : pystr := newline ++ lit "[bold cyan] CentTR > [/]".

(** The handler of both loops: [console.print(f"[red]Failed to open
    {platform}[/]")], which runs outside the [try]. *)
Definition report_failure (desk : Desk) (platform : pystr) : list ui_event * option exn :=
  print_markup desk [platform] (lit "[red]Failed to open " ++ platform ++ lit "[/]").

(** One turn of the loop of choice [A]: the bare [except] catches whatever
    the browser raises. *)
Definition open_listed (desk : Desk) (link : pystr * pyval) : list ui_event * option exn :=
  let '(platform, url) := link in
  match webbrowser_open desk url with
  | Return _ => ([Opened url], None)
  | Raise _ =>
    let (said, failure) := report_failure desk platform in (Opened url :: said, failure)
  end.

(** One turn of the loop over the selected numbers: the bare [except]
    catches what the browser raises and what printing "Opened" raises. *)
Definition open_selected (desk : Desk) (options : list (pystr * (pystr * pyval)))
    (sel : pystr) : list ui_event * option exn :=
  match assoc_get sel options with
  | None => ([], None)
  | Some (platform, url) =>
    match webbrowser_open desk url with
    | Return _ =>
      match print_markup desk [platform] (lit "[green]Opened " ++ platform ++ lit "[/]") with
      | (said, None) => (Opened url :: said ++ [Slept 1], None)
      | (_, Some _) =>
        let (said, failure) := report_failure desk platform in (Opened url :: said, failure)
      end
    | Raise _ =>
      let (said, failure) := report_failure desk platform in (Opened url :: said, failure)
    end
  end.

(** [open_urls_interactively(console, results)]: how it ends, and what it
    did at the desk, in order. *)
Definition open_urls_interactively (desk : Desk) (results : dict)
    : outcome unit * list ui_event :=
  match dict_get (lit "Social Media") results with
  | None => (Return tt, [])
  | Some social =>
    let asked :=
      [Printed (newline ++ lit "[bold]Would you like to open any links in your browser?[/]")] in
    match py_items social with
    | Raise e => (Raise e, asked)
    | Return items =>
      let options := menu_options items in
      match in_turn (show_option desk) options with
      | (shown, Some e) => (Raise e, asked ++ shown)
      | (shown, None) =>
        let menu :=
          asked ++ shown
            ++ [ Printed (lit "A. Open all links");
                 Printed (lit "N. None (continue)");
                 Asked menu_prompt ] in
        match console_input desk menu_prompt with
        | Raise e => (Raise e, menu)
        | Return answer =>
          let choice := upper desk answer in
          if Py.eqb choice (lit "A") then
            match in_turn (open_listed desk) (map snd options) with
            | (opened, Some e) => (Raise e, menu ++ opened)
            | (opened, None) =>
              (Return tt,
               menu ++ opened
                 ++ [Printed (lit "[green]All links opened in your default browser[/]")])
            end
          else if Py.eqb choice (lit "N") then (Return tt, menu)
          else
            match in_turn (open_selected desk options) (findall_digits desk choice) with
            | (opened, Some e) => (Raise e, menu ++ opened)
            | (opened, None) => (Return tt, menu ++ opened)
            end
        end
      end
    end
  end.

(** A desk where the user types [answer], the browser cannot open what
    [blocked] marks, the text has no letters or digits beyond ASCII, and
    [rich] rejects a line that holds the closing tag [[/x]]. *)
Definition sample_desk (answer : pystr) (blocked : pyval -> bool) : Desk :=
  {| repr := fun _ => lit "?";
     unicode_upper := fun c => [c];
     unicode_decimal := fun _ => false;
     markup_error := fun line =>
       if Py.contains (lit "[/x]") line
       then Some (mk_exn OtherException
                    (lit "closing tag '[/x]' doesn't match any open tag"))
       else None;
     console_input := fun _ => Return answer;
     webbrowser_open := fun url =>
       if blocked url
       then Raise (mk_exn OtherException (lit "could not locate runnable browser"))
       else Return true |}.

(** The links of a section with the numbers the menu gives them, counted
    from 1, and the menu as it is shown before the user answers. *)
Definition numbered_links (items : dict) : list (pystr * (pystr * pyval)) :=
  map (fun numbered => (Py.str_of_int (fst numbered), snd numbered)) (enumerate 1 items).

Definition option_line (desk : Desk) (entry : pystr * (pystr * pyval)) : ui_event :=
  let '(num, (platform, url)) := entry in
  Printed (num ++ lit ". " ++ platform ++ lit " - [link=" ++ text_of desk url
           ++ lit "]" ++ text_of desk url ++ lit "[/link]").

Definition menu_shown (desk : Desk) (items : dict) : list ui_event :=
  [Printed (newline ++ lit "[bold]Would you like to open any links in your browser?[/]")]
    ++ map (option_line desk) (numbered_links items)
    ++ [ Printed (lit "A. Open all links");
         Printed (lit "N. None (continue)");
         Asked menu_prompt ].

(** What was handed to the browser, in order. *)
Definition opened_urls (events : list ui_event) : list pyval :=
  flat_map (fun ev => match ev with Opened url => [url] | _ => [] end) events.

(** A link, and a section, whose platform name and whose link, as text,
    hold no "[": such text adds no tag to the line it is put into. *)
Definition plain_link (desk : Desk) (link : pystr * pyval) : bool :=
  negb (has_bracket (fst link)) && negb (has_bracket (text_of desk (snd link))).

Definition plain_text (desk : Desk) (items : dict) : bool :=
  forallb (plain_link desk) items.

(** What the desk sees of one link of the whole list, and of one selected
    number, when the lines about them are printed. *)
Definition listed_events (desk : Desk) (link : pystr * pyval) : list ui_event :=
  Opened (snd link) ::
  match webbrowser_open desk (snd link) with
  | Return _ => []
  | Raise _ => [Printed (lit "[red]Failed to open " ++ fst link ++ lit "[/]")]
  end.

Definition selected_events (desk : Desk) (options : list (pystr * (pystr * pyval)))
    (sel : pystr) : list ui_event :=
  match assoc_get sel options with
  | None => []
  | Some (platform, url) =>
    Opened url ::
    match webbrowser_open desk url with
    | Return _ => [Printed (lit "[green]Opened " ++ platform ++ lit "[/]"); Slept 1]
    | Raise _ => [Printed (lit "[red]Failed to open " ++ platform ++ lit "[/]")]
    end
  end.

(** * Verification *)

(** ** Strings and dicts *)

Lemma eqb_eq (a b : pystr) : Py.eqb a b = true <-> a = b.
Proof.
  revert b; induction a as [|x a IH]; intros [|y b]; simpl; split;
    try congruence; try reflexivity.
  - intros H. apply andb_true_iff in H as [Hx Hab].
    apply N.eqb_eq in Hx. apply IH in Hab. congruence.
  - intros H. injection H as -> ->. rewrite N.eqb_refl. simpl. now apply IH.
Qed.

Lemma eqb_refl (a : pystr) : Py.eqb a a = true.
Proof. now apply eqb_eq. Qed.

Lemma eqb_neq (a b : pystr) : Py.eqb a b = false <-> a <> b.
Proof.
  split.
  - intros H E. apply eqb_eq in E. congruence.
  - intros H. destruct (Py.eqb a b) eqn:E; [apply eqb_eq in E; contradiction | reflexivity].
Qed.

(** Reading a key after an assignment. *)
Lemma dict_get_set (k k' : pystr) (v : pyval) (d : dict) :
  dict_get k (dict_set k' v d) = if Py.eqb k k' then Some v else dict_get k d.
Proof.
  induction d as [|[k0 v0] d IH]; simpl.
  - destruct (Py.eqb k k'); reflexivity.
  - destruct (Py.eqb k' k0) eqn:E0; simpl.
    + apply eqb_eq in E0; subst k0. destruct (Py.eqb k k'); reflexivity.
    + destruct (Py.eqb k k0) eqn:E1.
      * apply eqb_eq in E1; subst k0.
        destruct (Py.eqb k k') eqn:E2; [|reflexivity].
        apply eqb_eq in E2; subst k'. rewrite eqb_refl in E0. discriminate.
      * exact IH.
Qed.

(** Removing one character is a filter. *)
Lemma replace_char_filter (c : Py.char) (s : pystr) :
  Py.replace s [c] [] = filter (fun x => negb (x =? c)) s.
Proof.
  unfold Py.replace. induction s as [|x s IH]; simpl; [reflexivity|].
  rewrite N.eqb_sym. destruct (x =? c); simpl.
  - exact IH.
  - now rewrite IH.
Qed.

Lemma clean_number_filter (s : pystr) : clean_number s = filter kept s.
Proof.
  unfold clean_number.
  change (lit "+") with [43]. change (lit " ") with [32]. change (lit "") with (@nil Py.char).
  rewrite !replace_char_filter.
  induction s as [|x s IH]; simpl; [reflexivity|].
  unfold kept at 1. destruct (x =? 43); simpl; [exact IH|].
  destruct (x =? 32); simpl; [exact IH|]. now rewrite IH.
Qed.

(** The string functions on the values the program meets. *)
Example lit_decodes_utf8 :
  lit "📘 x" = [128216; 32; 120] /\ lit "✈️" = [9992; 65039] /\ lit "✅" = [9989].
Proof. repeat apply conj; vm_compute; reflexivity. Qed.

Example quote_e164 :
  Py.quote (lit "+6281234567890") = lit "%2B6281234567890" /\
  Py.quote (lit "a b/c~é") = lit "a%20b/c~%C3%A9".
Proof. repeat apply conj; vm_compute; reflexivity. Qed.

Example replace_examples :
  Py.replace (lit "aaa") (lit "aa") (lit "b") = lit "ba" /\
  Py.replace (lit "abc") (lit "") (lit "-") = lit "-a-b-c-" /\
  clean_number (lit "+1 (650) 253-0000") = lit "1(650)253-0000".
Proof. repeat apply conj; vm_compute; reflexivity. Qed.

Example str_of_int_examples :
  Py.str_of_int 500 = lit "500" /\ Py.str_of_int (-7) = lit "-7" /\
  Py.str_of_int 0 = lit "0".
Proof. repeat apply conj; vm_compute; reflexivity. Qed.

Example slice_examples :
  Py.slice_last 4 (lit "01 23 45 67 89") = lit "7 89" /\
  Py.slice_last 4 (lit "555") = lit "555" /\
  Py.slice_to 3 (lit "abcdef") = lit "abc".
Proof. repeat apply conj; vm_compute; reflexivity. Qed.

(** ** C1: the severity tag *)

Lemma severity_of_record (record : dict) :
  _calculate_breach_severity (VDict record) =
  (let? has_password := str_in (lit "Password") (data_classes record) in
   Return (severity_rules (flag record (lit "IsVerified")) has_password
             (flag record (lit "IsSensitive")) (flag record (lit "IsFabricated"))
             (flag record (lit "IsRetired")))).
Proof.
  unfold _calculate_breach_severity, py_get, flag, data_classes, severity_rules.
  cbn [outcome_bind fold_left fst snd].
  destruct (str_in _ _) as [has_password|e]; cbn [outcome_bind]; [|reflexivity].
  reflexivity.
Qed.

(** C1.  The severity of a breach record is the outcome of the five rules
    applied in their fixed order to IsVerified, "Password" in DataClasses,
    IsSensitive, IsFabricated and IsRetired, a later rule overriding the
    earlier ones; it depends on the last two only through their
    disjunction, which gives the table of sixteen combinations: verified
    and retired is "Low", sensitive alone is "Critical", nothing set is
    "Medium".  Each of the five inputs can change the tag. *)
Theorem severity_follows_rule_order :
  (forall record : dict,
     _calculate_breach_severity (VDict record) =
     (let? has_password := str_in (lit "Password") (data_classes record) in
      Return (severity_rules (flag record (lit "IsVerified")) has_password
                (flag record (lit "IsSensitive")) (flag record (lit "IsFabricated"))
                (flag record (lit "IsRetired"))))) /\
  (forall v p s f r : bool,
     severity_rules v p s f r = severity_table v p s (f || r)) /\
  (forall p s f : bool, severity_rules true p s f true = lit "Low") /\
  severity_rules false false true false false = lit "Critical" /\
  severity_rules false false false false false = lit "Medium" /\
  severity_rules true false false false false = lit "High" /\
  severity_rules false true false false false = lit "Critical" /\
  severity_rules false false false true false = lit "Low" /\
  severity_rules false false false false true = lit "Low".
Proof.
  split; [exact severity_of_record|].
  split; [intros [] [] [] [] []; reflexivity|].
  split; [intros [] [] []; reflexivity|].
  repeat split; reflexivity.
Qed.

(** For a record shaped as the service documents it, with a list as
    DataClasses or none at all, the tag always exists. *)
Lemma severity_of_listed_record (record : dict) (classes : list pyval) :
  data_classes record = VList classes ->
  exists tag, _calculate_breach_severity (VDict record) = Return tag.
Proof.
  intros H. rewrite severity_of_record, H. cbn [str_in outcome_bind]. eauto.
Qed.

(** ** C4 and C3: the breach checker *)

Ltac run :=
  cbv [bind ret raise lift get_self update_self emit try_except];
  cbn [self trace fst snd console phone_number parsed_number].

(** Reads the attributes of an instance that the setters have written. *)
Ltac fields :=
  cbv [console_print set_parsed_number set_basic_info set_social_media_results
       set_breach_results set_google_results set_reverse_lookup_results
       parse_error_line];
  cbn [self trace fst snd console phone_number parsed_number basic_info
       social_media_results breach_results google_results reverse_lookup_results app].

(** C4.  Called without an API key ([None] or the empty string),
    check_breaches returns the "skipped" sentinel and leaves the instance
    and the trace of outside calls as they were: no request is issued. *)
Theorem no_key_skips (w : World) (hibp_api_key : option pystr) (m : machine) :
  no_key hibp_api_key = true ->
  check_breaches w hibp_api_key m = (Return skipped, m) /\
  trace (snd (check_breaches w hibp_api_key m)) = trace m.
Proof.
  intros H. destruct hibp_api_key as [[|c key]|]; try discriminate H; split; reflexivity.
Qed.

Lemma no_key_skips_witness :
  no_key None = true /\
  check_breaches (sample_world offline no_results) None
    (instance (sample_world offline no_results) (lit "+6281234567890"))
  = (Return skipped, instance (sample_world offline no_results) (lit "+6281234567890")).
Proof.
  split; [reflexivity|].
  apply (no_key_skips (sample_world offline no_results) None
           (instance (sample_world offline no_results) (lit "+6281234567890"))).
  reflexivity.
Defined.

(** C3.  With a key, when the service answers 404 the result is the "not
    found" sentinel; when it answers any status other than 200 and 404 the
    result is an error entry carrying "HTTP <status>" and an excerpt of
    the body: its first 200 characters followed by "..." when the body is
    longer than 200 characters, the whole body otherwise. *)
Theorem breach_status_mapping
    (w : World) (key : pystr) (m : machine) (response : Response) :
  key <> [] ->
  requests_get w (breach_url (clean_number (phone_number (self m))))
    (breach_headers key) 15 = Return response ->
  (status_code response = 404%Z ->
   fst (check_breaches w (Some key) m) = Return not_found) /\
  (status_code response <> 200%Z -> status_code response <> 404%Z ->
   exists excerpt : pystr,
     fst (check_breaches w (Some key) m) =
       Return (VDict
         [ (lit "Error", VStr (lit "HTTP " ++ Py.str_of_int (status_code response)));
           (lit "Details", VStr excerpt) ]) /\
     ((200 < List.length (text response))%nat ->
      excerpt = firstn 200 (text response) ++ lit "...") /\
     ((List.length (text response) <= 200)%nat -> excerpt = text response)).
Proof.
  intros Hkey Hget. destruct key as [|c key]; [contradiction|].
  unfold check_breaches. run. rewrite Hget. split.
  - intros H404. rewrite H404. reflexivity.
  - intros H200 H404.
    apply Z.eqb_neq in H200, H404. rewrite H200, H404. cbn [self trace fst snd].
    exists (details (text response)). split; [reflexivity|]. unfold details, Py.slice_to.
    split; intros Hlen.
    + apply Nat.ltb_lt in Hlen. now rewrite Hlen.
    + destruct (Nat.ltb_spec 200 (List.length (text response))); [lia|reflexivity].
Qed.

Lemma breach_status_mapping_witness :
  fst (check_breaches (sample_world (Return server_error) no_results) a_key
         (instance (sample_world (Return server_error) no_results) (lit "+6281234567890")))
  = Return (VDict [ (lit "Error", VStr (lit "HTTP 500"));
                    (lit "Details", VStr (repeat 120 200 ++ lit "...")) ]).
Proof.
  destruct (breach_status_mapping (sample_world (Return server_error) no_results)
              (lit "0123456789abcdef")
              (instance (sample_world (Return server_error) no_results)
                 (lit "+6281234567890"))
              server_error) as [_ H].
  - discriminate.
  - reflexivity.
  - destruct H as [excerpt [H [Hlong _]]].
    + discriminate.
    + discriminate.
    + unfold a_key. rewrite H. rewrite Hlong; [reflexivity|]. vm_compute. lia.
Defined.

(** ** Loops that only update the instance *)

Lemma update_self_run (f : PhoneOSINT -> PhoneOSINT) (m : machine) :
  update_self f m = (Return tt, mk_machine (f (self m)) (trace m)).
Proof. reflexivity. Qed.

Lemma for_each_update {A} (items : list A) (f : A -> PhoneOSINT -> PhoneOSINT)
    (m : machine) :
  for_each items (fun x => update_self (f x)) m =
  (Return tt, mk_machine (fold_left (fun o x => f x o) items (self m)) (trace m)).
Proof.
  revert m; induction items as [|x items IH]; intros m; simpl.
  - destruct m; reflexivity.
  - unfold bind. rewrite update_self_run, IH. reflexivity.
Qed.

(** Runs a method whose loops only update the instance: the loop bodies
    stay folded until [for_each_update] has summed them up. *)
Ltac run_loops :=
  cbv beta iota delta [bind ret raise lift get_self emit try_except];
  cbn [self trace fst snd];
  repeat (first [rewrite update_self_run | rewrite for_each_update];
          cbv beta iota; cbn [self trace fst snd]).

Lemma append_urls (urls : list pystr) (o : PhoneOSINT) :
  fold_left (fun o url => set_google_results (google_results o ++ [url]) o) urls o =
  set_google_results (google_results o ++ urls) o.
Proof.
  revert o; induction urls as [|url urls IH]; intros o; simpl.
  - rewrite app_nil_r. destruct o; reflexivity.
  - rewrite IH. unfold set_google_results; simpl. now rewrite <- app_assoc.
Qed.

(** ** C7: the web search collector *)

Lemma google_search_unparsed (w : World) (num_results : Z) (m : machine) :
  parsed_number (self m) = None ->
  google_search w num_results m =
  (Return [lit "Error: Cannot search - invalid phone number"], m).
Proof. intros H. unfold google_search. run. rewrite H. reflexivity. Qed.

Lemma google_search_parsed (w : World) (num_results : Z) (m : machine) (p : PhoneNumber) :
  parsed_number (self m) = Some p ->
  let query :=
    search_query (format_number w p NATIONAL) (format_number w p INTERNATIONAL) in
  let provided := search w query num_results num_results 2 in
  fst (google_search w num_results m) =
    Return (match snd provided with
            | None => fst provided
            | Some e => [lit "Error: Google search failed - " ++ exn_str e]
            end) /\
  trace (snd (google_search w num_results m)) =
    trace m ++ [GoogleSearch query num_results num_results 2].
Proof.
  intros H query provided. unfold google_search. run_loops. rewrite H.
  fold query. fold provided. destruct provided as [urls failure].
  run_loops. rewrite append_urls.
  destruct failure as [e|]; run_loops; split; reflexivity.
Qed.




(** ** C8: the reverse-lookup stub *)

Lemma reverse_lookup_unparsed (w : World) (m : machine) :
  parsed_number (self m) = None ->
  reverse_lookup w m = (Return [lit "Error: Invalid phone number"], m).
Proof. intros H. unfold reverse_lookup. run. rewrite H. reflexivity. Qed.

Lemma slice_last_suffix (n : nat) (front back : pystr) :
  List.length back = n -> Py.slice_last n (front ++ back) = back.
Proof.
  intros H. unfold Py.slice_last. rewrite length_app, H.
  replace (List.length front + n - n)%nat with (List.length front + 0)%nat by lia.
  now rewrite skipn_app, Nat.add_0_r, skipn_all, Nat.sub_diag.
Qed.

Lemma reverse_lookup_parsed (w : World) (m : machine) (p : PhoneNumber) :
  parsed_number (self m) = Some p ->
  fst (reverse_lookup w m) =
    Return [ lit "Possible business: " ++ format_number w p NATIONAL ++ lit " Services";
             lit "Potential contact: John Doe (via public records)";
             lit "Linked profile: user" ++ Py.slice_last 4 (format_number w p NATIONAL)
               ++ lit "@example.com" ] /\
  trace (snd (reverse_lookup w m)) = trace m.
Proof.
  intros H. unfold reverse_lookup. run. rewrite H. cbn [self trace fst snd].
  split; reflexivity.
Qed.

(** C8, as the code has it.  On an instance holding a parsed number,
    reverse_lookup returns three strings and calls nothing outside: the
    business guess around the NATIONAL format of the number, the fixed
    contact line, and the address "user<tail>@example.com" whose <tail> is
    the last four characters of the NATIONAL format (all of it when it is
    shorter), whatever they are. *)
Theorem reverse_lookup_three_strings (w : World) (m : machine) (p : PhoneNumber) :
  parsed_number (self m) = Some p ->
  let national := format_number w p NATIONAL in
  fst (reverse_lookup w m) =
    Return [ lit "Possible business: " ++ national ++ lit " Services";
             lit "Potential contact: John Doe (via public records)";
             lit "Linked profile: user"
               ++ skipn (List.length national - 4) national ++ lit "@example.com" ] /\
  trace (snd (reverse_lookup w m)) = trace m /\
  (forall front back : pystr,
     national = front ++ back -> List.length back = 4%nat ->
     skipn (List.length national - 4) national = back).
Proof.
  intros H national. destruct (reverse_lookup_parsed w m p H) as [Hres Htrace].
  split; [exact Hres|]. split; [exact Htrace|].
  intros front back Hnat Hlen. rewrite Hnat.
  now apply (slice_last_suffix 4 front back).
Qed.

Lemma reverse_lookup_three_strings_witness :
  fst (reverse_lookup (sample_world offline no_results)
         (instance (sample_world offline no_results) (lit "+6281234567890")))
  = Return [ lit "Possible business: 0812-3456-7890 Services";
             lit "Potential contact: John Doe (via public records)";
             lit "Linked profile: user7890@example.com" ].
Proof.
  destruct (reverse_lookup_three_strings (sample_world offline no_results)
              (instance (sample_world offline no_results) (lit "+6281234567890"))
              indonesian) as [H _].
  - vm_compute; reflexivity.
  - rewrite H. vm_compute; reflexivity.
Defined.

(** C8, as the specification words it, fails on a French number: its NATIONAL
    format is "01 23 45 67 89", so the address is built from "7 89" and not
    from the last four digits "6789" of the national number. *)
Lemma reverse_lookup_not_last_four_digits :
  parsed_number (self (instance (sample_world offline no_results) (lit "+33123456789")))
    = Some french /\
  last_four_digits french = lit "6789" /\
  fst (reverse_lookup (sample_world offline no_results)
         (instance (sample_world offline no_results) (lit "+33123456789")))
    = Return [ lit "Possible business: 01 23 45 67 89 Services";
               lit "Potential contact: John Doe (via public records)";
               lit "Linked profile: user7 89@example.com" ] /\
  fst (reverse_lookup (sample_world offline no_results)
         (instance (sample_world offline no_results) (lit "+33123456789")))
    <> Return [ lit "Possible business: 01 23 45 67 89 Services";
                lit "Potential contact: John Doe (via public records)";
                lit "Linked profile: user" ++ last_four_digits french
                  ++ lit "@example.com" ].
Proof.
  repeat apply conj; try (vm_compute; reflexivity).
  vm_compute. intros H. discriminate H.
Qed.

(** ** Construction, and the sections of an instance without a parsed number *)

Lemma init_parse_error (w : World) (s : pystr) (e : exn) :
  parse w s = Raise e ->
  __init__ w s =
  (Return tt,
   mk_machine (mk_PhoneOSINT [parse_error_line e] s None [] [] (VDict []) [] []) []).
Proof.
  intros H. unfold __init__, _parse_number. run. rewrite H. fields. reflexivity.
Qed.

Lemma init_parsed (w : World) (s : pystr) (p : PhoneNumber) :
  parse w s = Return p ->
  __init__ w s =
  (Return tt,
   mk_machine
     (mk_PhoneOSINT
        (if is_valid_number w p then []
         else [parse_error_line (mk_exn ValueError (lit "Invalid phone number"))])
        s (Some p) [] [] (VDict []) [] []) []).
Proof.
  intros H. unfold __init__, _parse_number. run. rewrite H. fields.
  destruct (is_valid_number w p); fields; reflexivity.
Qed.

Lemma get_basic_info_unparsed (w : World) (m : machine) :
  parsed_number (self m) = None ->
  get_basic_info w m = (Return invalid_number, m).
Proof. intros H. unfold get_basic_info. run. rewrite H. reflexivity. Qed.

Lemma search_social_media_unparsed (w : World) (m : machine) :
  parsed_number (self m) = None ->
  search_social_media w m = (Return invalid_number, m).
Proof. intros H. unfold search_social_media. run. rewrite H. reflexivity. Qed.

Lemma get_basic_info_parsed (w : World) (m : machine) (p : PhoneNumber) :
  parsed_number (self m) = Some p ->
  exists info : dict,
    fst (get_basic_info w m) = Return info /\
    trace (snd (get_basic_info w m)) = trace m /\
    ((exists e, info =
        [(lit "Error", VStr (lit "Failed to get basic info: " ++ exn_str e))]) \/
     dict_get (lit "Valid Number") info = Some (yes_no (is_valid_number w p))).
Proof.
  intros H. unfold get_basic_info. run. rewrite H.
  destruct (name_for_number w p) as [carrier_name|e]; cbn [self trace fst snd];
    [|eexists; split; [reflexivity|split; [reflexivity|left; eexists; reflexivity]]].
  destruct (description_for_number w p) as [description|e]; cbn [self trace fst snd];
    [|eexists; split; [reflexivity|split; [reflexivity|left; eexists; reflexivity]]].
  destruct (time_zones_for_number w p) as [zones|e]; cbn [self trace fst snd];
    [|eexists; split; [reflexivity|split; [reflexivity|left; eexists; reflexivity]]].
  destruct (negb (Py.eqb (str_or description (lit "Unknown")) (lit "Unknown")));
    cbn [self trace fst snd basic_info set_basic_info];
    (eexists; split; [reflexivity|split; [reflexivity|right]]).
  - rewrite dict_get_set. vm_compute. reflexivity.
  - vm_compute. reflexivity.
Qed.

(** ** C9: construction and the instance without a parsed number *)

(** C9, as the code has it.  Constructing PhoneOSINT never raises.  When
    the parse raises, parsed_number stays None; when it returns, it is kept
    as parsed_number whether or not the number is valid, the ValueError
    for an invalid one being caught after the assignment.  On an instance
    whose parsed_number is None, get_basic_info, search_social_media,
    google_search and reverse_lookup return their error placeholders and
    change nothing; check_breaches does not look at parsed_number, and
    without a key it returns the skipped sentinel. *)
Theorem construction_never_raises (w : World) (s : pystr) :
  fst (__init__ w s) = Return tt /\
  (forall e, parse w s = Raise e -> parsed_number (self (instance w s)) = None) /\
  (forall p, parse w s = Return p -> parsed_number (self (instance w s)) = Some p) /\
  (forall m : machine,
     parsed_number (self m) = None ->
     get_basic_info w m = (Return invalid_number, m) /\
     search_social_media w m = (Return invalid_number, m) /\
     (forall n, google_search w n m =
                (Return [lit "Error: Cannot search - invalid phone number"], m)) /\
     reverse_lookup w m = (Return [lit "Error: Invalid phone number"], m) /\
     (forall key, no_key key = true -> check_breaches w key m = (Return skipped, m))).
Proof.
  split; [|split; [|split]].
  - destruct (parse w s) as [p|e] eqn:H.
    + now rewrite (init_parsed w s p H).
    + now rewrite (init_parse_error w s e H).
  - intros e H. unfold instance. now rewrite (init_parse_error w s e H).
  - intros p H. unfold instance. now rewrite (init_parsed w s p H).
  - intros m H. repeat split.
    + now apply get_basic_info_unparsed.
    + now apply search_social_media_unparsed.
    + intros n. now apply google_search_unparsed.
    + now apply reverse_lookup_unparsed.
    + intros [[|c key]|] Hkey; try discriminate Hkey; reflexivity.
Qed.

Lemma construction_never_raises_witness :
  parsed_number (self (instance (sample_world offline no_results) (lit "abc"))) = None /\
  parsed_number (self (instance (sample_world offline no_results) (lit "+1555")))
    = Some too_short /\
  reverse_lookup (sample_world offline no_results)
    (instance (sample_world offline no_results) (lit "abc"))
  = (Return [lit "Error: Invalid phone number"],
     instance (sample_world offline no_results) (lit "abc")).
Proof.
  destruct (construction_never_raises (sample_world offline no_results) (lit "abc"))
    as [_ [Hnone [_ Hmethods]]].
  destruct (construction_never_raises (sample_world offline no_results) (lit "+1555"))
    as [_ [_ [Hsome _]]].
  assert (Habc : parsed_number
            (self (instance (sample_world offline no_results) (lit "abc"))) = None).
  { apply (Hnone (mk_exn NumberParseException
       (lit "(1) The string supplied did not seem to be a phone number."))).
    vm_compute; reflexivity. }
  split; [exact Habc|]. split.
  - apply Hsome. vm_compute; reflexivity.
  - apply (Hmethods _ Habc).
Defined.

(** C9, as the specification words it, fails for check_breaches: on an instance
    whose number did not parse it still sends the request, and returns
    the "not found" sentinel, which is no error placeholder, when the
    service answers 404; when the service answers 200 with a JSON object
    it raises. *)
Lemma check_breaches_ignores_parse :
  parsed_number (self (instance (sample_world (Return missing) no_results) (lit "abc")))
    = None /\
  fst (check_breaches (sample_world (Return missing) no_results) a_key
         (instance (sample_world (Return missing) no_results) (lit "abc")))
    = Return not_found /\
  is_error_dict not_found = false /\
  trace (snd (check_breaches (sample_world (Return missing) no_results) a_key
                (instance (sample_world (Return missing) no_results) (lit "abc"))))
    = [HttpGet (lit "https://haveibeenpwned.com/api/v3/breachedaccount/abc?truncateResponse=false")
         (breach_headers (lit "0123456789abcdef")) 15] /\
  fst (check_breaches (sample_world (Return message_body) no_results) a_key
         (instance (sample_world (Return message_body) no_results) (lit "abc")))
    = Raise (mk_exn AttributeError (lit "'str' object has no attribute 'get'")).
Proof. repeat apply conj; vm_compute; reflexivity. Qed.

(** With a key, check_breaches sends exactly one request, whatever
    happens to the answer. *)
Lemma check_breaches_request (w : World) (key : pystr) (m : machine) :
  key <> [] ->
  trace (snd (check_breaches w (Some key) m)) =
  trace m ++ [HttpGet (breach_url (clean_number (phone_number (self m))))
                (breach_headers key) 15].
Proof.
  intros Hkey. destruct key as [|c key]; [contradiction|].
  unfold check_breaches. run.
  destruct (requests_get w _ _ 15) as [response|e]; cbn [self trace fst snd].
  - destruct (status_code response =? 200)%Z.
    + destruct (json response) as [body|e]; cbn [self trace fst snd].
      * destruct (tag_breach_results body) as [tagged [e|]]; cbn [self trace fst snd];
          [|reflexivity].
        destruct (is_RequestException e); [reflexivity|].
        destruct (is_JSONDecodeError e); reflexivity.
      * destruct (is_RequestException e); [reflexivity|].
        destruct (is_JSONDecodeError e); reflexivity.
    + destruct (status_code response =? 404)%Z; reflexivity.
  - destruct (is_RequestException e); [reflexivity|].
    destruct (is_JSONDecodeError e); reflexivity.
Qed.

(** ** C6 and C10: the link builder *)

Lemma dict_get_app (k : pystr) (d d' : dict) :
  dict_get k (d ++ d') =
  match dict_get k d with Some v => Some v | None => dict_get k d' end.
Proof.
  induction d as [|[k0 v0] d IH]; simpl; [reflexivity|].
  destruct (Py.eqb k k0); [reflexivity|exact IH].
Qed.

(** After a run of assignments, a key holds what the last assignment to it
    stored, or what it held before. *)
Lemma dict_get_assignments (k : pystr) (items : list (pystr * pyval)) (d : dict) :
  dict_get k (fold_left (fun d kv => dict_set (fst kv) (snd kv) d) items d) =
  match dict_get k (rev items) with Some v => Some v | None => dict_get k d end.
Proof.
  revert d; induction items as [|[k0 v0] items IH]; intros d; simpl; [reflexivity|].
  rewrite IH, dict_get_app, dict_get_set. simpl.
  destruct (dict_get k (rev items)); [reflexivity|].
  destruct (Py.eqb k k0); reflexivity.
Qed.

Lemma social_assignments (items : list (pystr * pyval)) (o : PhoneOSINT) :
  fold_left
    (fun o item =>
       set_social_media_results (dict_set (fst item) (snd item) (social_media_results o)) o)
    items o =
  set_social_media_results
    (fold_left (fun d kv => dict_set (fst kv) (snd kv) d) items (social_media_results o)) o.
Proof.
  revert o; induction items as [|item items IH]; intros o; simpl.
  - destruct o; reflexivity.
  - rewrite IH. reflexivity.
Qed.

Lemma search_social_media_parsed (w : World) (m : machine) (p : PhoneNumber) :
  parsed_number (self m) = Some p ->
  fst (search_social_media w m) =
    Return (fold_left (fun d kv => dict_set (fst kv) (snd kv) d)
              (social_platforms (clean_number (phone_number (self m)))
                 (format_number w p E164))
              (social_media_results (self m))) /\
  trace (snd (search_social_media w m)) = trace m.
Proof.
  intros H. unfold search_social_media. run_loops. rewrite H. run_loops.
  rewrite social_assignments. fields. split; reflexivity.
Qed.

(** Assigning a key that is not there appends it, so a display with
    distinct keys is the list of its items. *)
Lemma dict_set_fresh (k : pystr) (v : pyval) (d : dict) :
  ~ In k (dict_keys d) -> dict_set k v d = d ++ [(k, v)].
Proof.
  induction d as [|[k0 v0] d IH]; simpl; intros H; [reflexivity|].
  destruct (Py.eqb k k0) eqn:E.
  - apply eqb_eq in E. subst k0. tauto.
  - rewrite IH; tauto.
Qed.

Lemma assignments_distinct (items : list (pystr * pyval)) (d : dict) :
  NoDup (dict_keys (d ++ items)) ->
  fold_left (fun d kv => dict_set (fst kv) (snd kv) d) items d = d ++ items.
Proof.
  revert d; induction items as [|[k v] items IH]; intros d H; simpl.
  - now rewrite app_nil_r.
  - unfold dict_keys in H. rewrite map_app in H. simpl in H.
    pose proof (NoDup_remove_2 _ _ _ H) as Hfresh.
    rewrite dict_set_fresh.
    + rewrite IH; [now rewrite <- app_assoc|].
      unfold dict_keys. rewrite <- app_assoc, map_app. exact H.
    + intros Hin. apply Hfresh. apply in_or_app. now left.
Qed.

Lemma dict_display_distinct (items : list (pystr * pyval)) :
  NoDup (dict_keys items) -> dict_display items = items.
Proof. intros H. unfold dict_display. now rewrite assignments_distinct. Qed.

(** The display of [social_platforms] has eleven distinct keys. *)
Lemma social_platforms_items (clean formatted : pystr) :
  social_platforms clean formatted =
  [ (lit "📘 Facebook",
     VStr (lit "https://www.facebook.com/search/top/?q=" ++ Py.quote formatted));
    (lit "💬 WhatsApp", VStr (lit "https://wa.me/" ++ clean));
    (lit "🐦 x",
     VStr (lit "https://x.com/search?q=" ++ Py.quote formatted ++ lit "&src=typed_query"));
    (lit "📸 Instagram",
     VStr (lit "https://www.instagram.com/search/top/?q=" ++ Py.quote formatted));
    (lit "📞 Truecaller",
     VStr (lit "https://www.truecaller.com/search/" ++ Py.quote formatted));
    (lit "✈️ Telegram", VStr (lit "https://t.me/" ++ clean));
    (lit "📱 Viber", VStr (lit "viber://add?number=" ++ clean));
    (lit "👔 LinkedIn",
     VStr (lit "https://www.linkedin.com/search/results/all/?keywords="
           ++ Py.quote formatted));
    (lit "📹 TikTok", VStr (lit "https://www.tiktok.com/search?q=" ++ Py.quote formatted));
    (lit "🔎 Snapchat", VStr (lit "https://www.snapchat.com/add/" ++ clean));
    (lit "🎵 WeChat", VStr (lit "weixin://dl/add?" ++ clean)) ].
Proof.
  unfold social_platforms. apply dict_display_distinct.
  unfold dict_keys. cbn [map fst]. vm_compute.
  repeat (constructor; [simpl; intuition discriminate|]). constructor.
Qed.

(** C6.  For the input +6281234567890, in a world where it parses and its
    E164 format is +6281234567890, the link builder returns these eleven
    platforms in this order.  Each URL is its template with the digits
    6281234567890, or the percent-encoded E164 form %2B6281234567890, at
    the place of the number. *)
Theorem social_links_of_sample_number (w : World) (p : PhoneNumber) :
  parse w (lit "+6281234567890") = Return p ->
  format_number w p E164 = lit "+6281234567890" ->
  exists links : dict,
    fst (search_social_media w (instance w (lit "+6281234567890"))) = Return links /\
    links =
      [ (lit "📘 Facebook",
         VStr (lit "https://www.facebook.com/search/top/?q=%2B6281234567890"));
        (lit "💬 WhatsApp", VStr (lit "https://wa.me/6281234567890"));
        (lit "🐦 x",
         VStr (lit "https://x.com/search?q=%2B6281234567890&src=typed_query"));
        (lit "📸 Instagram",
         VStr (lit "https://www.instagram.com/search/top/?q=%2B6281234567890"));
        (lit "📞 Truecaller",
         VStr (lit "https://www.truecaller.com/search/%2B6281234567890"));
        (lit "✈️ Telegram", VStr (lit "https://t.me/6281234567890"));
        (lit "📱 Viber", VStr (lit "viber://add?number=6281234567890"));
        (lit "👔 LinkedIn",
         VStr (lit "https://www.linkedin.com/search/results/all/?keywords=%2B6281234567890"));
        (lit "📹 TikTok", VStr (lit "https://www.tiktok.com/search?q=%2B6281234567890"));
        (lit "🔎 Snapchat", VStr (lit "https://www.snapchat.com/add/6281234567890"));
        (lit "🎵 WeChat", VStr (lit "weixin://dl/add?6281234567890")) ] /\
    List.length links = 11%nat /\
    NoDup (dict_keys links) /\
    forallb (fun item => link_has (lit "6281234567890") item
                         || link_has (lit "%2B6281234567890") item) links = true.
Proof.
  intros Hparse Hformat.
  assert (Hsome : parsed_number (self (instance w (lit "+6281234567890"))) = Some p).
  { unfold instance. now rewrite (init_parsed w _ p Hparse). }
  destruct (search_social_media_parsed w _ p Hsome) as [Hres _].
  rewrite Hformat in Hres.
  replace (phone_number (self (instance w (lit "+6281234567890"))))
    with (lit "+6281234567890") in Hres
    by (unfold instance; now rewrite (init_parsed w _ p Hparse)).
  replace (social_media_results (self (instance w (lit "+6281234567890"))))
    with (@nil (pystr * pyval)) in Hres
    by (unfold instance; now rewrite (init_parsed w _ p Hparse)).
  eexists. split; [exact Hres|].
  split; [vm_compute; reflexivity|].
  split; [vm_compute; reflexivity|].
  split; [|vm_compute; reflexivity].
  vm_compute.
  repeat (constructor; [simpl; intuition discriminate|]). constructor.
Qed.

Lemma social_links_of_sample_number_witness :
  exists links : dict,
    fst (search_social_media (sample_world offline no_results)
           (instance (sample_world offline no_results) (lit "+6281234567890")))
      = Return links /\
    List.length links = 11%nat.
Proof.
  destruct (social_links_of_sample_number (sample_world offline no_results) indonesian)
    as [links [Hres [_ [Hlen _]]]].
  - vm_compute; reflexivity.
  - vm_compute; reflexivity.
  - exists links. split; [exact Hres|exact Hlen].
Defined.

Lemma dict_get_listed (k : pystr) (v : pyval) (d : dict) :
  NoDup (dict_keys d) -> In (k, v) d -> dict_get k d = Some v.
Proof.
  induction d as [|[k0 v0] d IH]; simpl; intros Hnd Hin; [contradiction|].
  inversion Hnd as [|? ? Hfresh Hnd']; subst.
  destruct Hin as [Heq|Hin].
  - injection Heq as -> ->. now rewrite eqb_refl.
  - destruct (Py.eqb k k0) eqn:E; [|now apply IH].
    apply eqb_eq in E. subst k0. exfalso. apply Hfresh.
    unfold dict_keys. change k with (fst (k, v)). now apply in_map.
Qed.

(** What a key holds after a display with distinct keys has been assigned
    item by item. *)
Lemma dict_get_assigned (k : pystr) (v : pyval) (items : list (pystr * pyval)) (d : dict) :
  NoDup (dict_keys items) -> In (k, v) items ->
  dict_get k (fold_left (fun d kv => dict_set (fst kv) (snd kv) d) items d) = Some v.
Proof.
  intros Hnd Hin. rewrite dict_get_assignments.
  rewrite (dict_get_listed k v (rev items)); [reflexivity| |now apply in_rev in Hin].
  unfold dict_keys. rewrite map_rev. now apply NoDup_rev.
Qed.

Lemma social_platforms_distinct (clean formatted : pystr) :
  NoDup (dict_keys (social_platforms clean formatted)).
Proof.
  rewrite social_platforms_items. unfold dict_keys. cbn [map fst]. vm_compute.
  repeat (constructor; [simpl; intuition discriminate|]). constructor.
Qed.

(** C10.  The number put into the breach URL and into the WhatsApp,
    Telegram, Viber, Snapchat and WeChat links is the raw input string
    without its "+" and space characters and nothing else: every other
    character of the input, digit or not, is in it, in order, and so in
    those URLs. *)
Theorem clean_number_keeps_other_characters (w : World) (m : machine) :
  clean_number (phone_number (self m)) = filter kept (phone_number (self m)) /\
  (forall c : Py.char,
     In c (phone_number (self m)) -> c <> 43 -> c <> 32 ->
     In c (clean_number (phone_number (self m)))) /\
  (forall p, parsed_number (self m) = Some p ->
     exists links : dict,
       fst (search_social_media w m) = Return links /\
       dict_get (lit "💬 WhatsApp") links =
         Some (VStr (lit "https://wa.me/" ++ clean_number (phone_number (self m)))) /\
       dict_get (lit "✈️ Telegram") links =
         Some (VStr (lit "https://t.me/" ++ clean_number (phone_number (self m)))) /\
       dict_get (lit "📱 Viber") links =
         Some (VStr (lit "viber://add?number=" ++ clean_number (phone_number (self m)))) /\
       dict_get (lit "🔎 Snapchat") links =
         Some (VStr (lit "https://www.snapchat.com/add/"
                     ++ clean_number (phone_number (self m)))) /\
       dict_get (lit "🎵 WeChat") links =
         Some (VStr (lit "weixin://dl/add?" ++ clean_number (phone_number (self m))))) /\
  (forall key : pystr, key <> [] ->
     trace (snd (check_breaches w (Some key) m)) =
     trace m ++
     [HttpGet (lit "https://haveibeenpwned.com/api/v3/breachedaccount/"
               ++ clean_number (phone_number (self m))
               ++ lit "?truncateResponse=false")
        (breach_headers key) 15]).
Proof.
  split; [apply clean_number_filter|]. split; [|split].
  - intros c Hin H43 H32. rewrite clean_number_filter. apply filter_In.
    split; [exact Hin|]. unfold kept.
    apply N.eqb_neq in H43, H32. now rewrite H43, H32.
  - intros p Hp. destruct (search_social_media_parsed w m p Hp) as [Hres _].
    eexists. split; [exact Hres|].
    pose proof (social_platforms_distinct (clean_number (phone_number (self m)))
                  (format_number w p E164)) as Hnd.
    repeat apply conj; apply dict_get_assigned; try exact Hnd;
      rewrite social_platforms_items.
    + do 1 right; left; reflexivity.
    + do 5 right; left; reflexivity.
    + do 6 right; left; reflexivity.
    + do 9 right; left; reflexivity.
    + do 10 right; left; reflexivity.
  - intros key Hkey. rewrite (check_breaches_request w key m Hkey).
    unfold breach_url. reflexivity.
Qed.

Lemma clean_number_keeps_other_characters_witness :
  exists links : dict,
    fst (search_social_media (sample_world offline no_results)
           (instance (sample_world offline no_results) (lit "+62 812-3456-7890")))
      = Return links /\
    dict_get (lit "💬 WhatsApp") links = Some (VStr (lit "https://wa.me/62812-3456-7890")) /\
    trace (snd (check_breaches (sample_world offline no_results) a_key
                  (instance (sample_world offline no_results) (lit "+62 812-3456-7890"))))
    = [HttpGet
         (lit "https://haveibeenpwned.com/api/v3/breachedaccount/62812-3456-7890?truncateResponse=false")
         (breach_headers (lit "0123456789abcdef")) 15].
Proof.
  destruct (clean_number_keeps_other_characters (sample_world offline no_results)
              (instance (sample_world offline no_results) (lit "+62 812-3456-7890")))
    as [_ [_ [Hlinks Hurl]]].
  destruct (Hlinks indonesian) as [links [Hres [Hwa _]]].
  - vm_compute; reflexivity.
  - exists links. split; [exact Hres|]. split.
    + rewrite Hwa. vm_compute; reflexivity.
    + unfold a_key. rewrite Hurl; [vm_compute; reflexivity|discriminate].
Defined.

(** ** C5: the report aggregator *)

Lemma returns_pair {A} (x : outcome A * machine) (a : A) :
  fst x = Return a -> exists m', x = (Return a, m').
Proof. destruct x as [o m']; simpl; intros ->. now exists m'. Qed.

Lemma get_basic_info_returns (w : World) (m : machine) :
  exists info m', get_basic_info w m = (Return info, m').
Proof.
  destruct (parsed_number (self m)) as [p|] eqn:H.
  - destruct (get_basic_info_parsed w m p H) as [info [Hi _]].
    exists info. now apply returns_pair.
  - exists invalid_number, m. now apply get_basic_info_unparsed.
Qed.

Lemma search_social_media_returns (w : World) (m : machine) :
  exists links m', search_social_media w m = (Return links, m').
Proof.
  destruct (parsed_number (self m)) as [p|] eqn:H.
  - destruct (search_social_media_parsed w m p H) as [Hl _].
    eexists. apply returns_pair. exact Hl.
  - exists invalid_number, m. now apply search_social_media_unparsed.
Qed.

Lemma google_search_returns (w : World) (n : Z) (m : machine) :
  exists found m', google_search w n m = (Return found, m').
Proof.
  destruct (parsed_number (self m)) as [p|] eqn:H.
  - destruct (google_search_parsed w n m p H) as [Hf _].
    eexists. apply returns_pair. exact Hf.
  - eexists. exists m. now apply google_search_unparsed.
Qed.

Lemma reverse_lookup_returns (w : World) (m : machine) :
  exists lines m', reverse_lookup w m = (Return lines, m').
Proof.
  destruct (parsed_number (self m)) as [p|] eqn:H.
  - destruct (reverse_lookup_parsed w m p H) as [Hl _].
    eexists. apply returns_pair. exact Hl.
  - eexists. exists m. now apply reverse_lookup_unparsed.
Qed.

Lemma get_network_info_returns (w : World) (m : machine) :
  exists info m', _get_network_info w m = (Return info, m').
Proof.
  unfold _get_network_info. run.
  destruct (gethostname w) as [hostname|e]; cbn [self trace fst snd];
    [|eexists; eexists; reflexivity].
  destruct (gethostbyname w hostname) as [ip_address|e]; cbn [self trace fst snd];
    eexists; eexists; reflexivity.
Qed.

(** Whenever the breach section returns, the report has its six sections,
    in order: no other section, and no failure of the clock or of the host
    look-up, can abort the run. *)
Lemma run_all_checks_sections
    (w : World) (hibp_api_key : option pystr) (google_results : Z) (m : machine) :
  (forall m', exists breach, fst (check_breaches w hibp_api_key m') = Return breach) ->
  exists report : dict,
    fst (run_all_checks w hibp_api_key google_results m) = Return report /\
    dict_keys report = section_keys.
Proof.
  intros Hbreach. unfold run_all_checks. cbv beta iota delta [bind].
  destruct (get_basic_info_returns w m) as (basic & m1 & E1). rewrite E1.
  destruct (search_social_media_returns w m1) as (social & m2 & E2). rewrite E2.
  destruct (Hbreach m2) as [breach Hb].
  destruct (returns_pair _ _ Hb) as [m3 E3]. rewrite E3.
  destruct (google_search_returns w google_results m3) as (found & m4 & E4). rewrite E4.
  destruct (reverse_lookup_returns w m4) as (lines & m5 & E5). rewrite E5.
  unfold now_strftime at 1 2. cbv beta iota.
  match goal with
  | |- context [_get_network_info w ?m6] =>
    destruct (get_network_info_returns w m6) as (network & m7 & E7); rewrite E7
  end.
  cbv beta iota delta [get_self ret]. cbn [fst].
  eexists. split; [reflexivity|].
  rewrite dict_display_distinct; [reflexivity|].
  unfold dict_keys. cbn [map fst]. vm_compute.
  repeat (constructor; [simpl; intuition discriminate|]). constructor.
Qed.

Lemma run_all_checks_without_key (w : World) (google_results : Z) (m : machine) :
  exists report : dict,
    fst (run_all_checks w None google_results m) = Return report /\
    dict_keys report = section_keys.
Proof.
  apply run_all_checks_sections. intros m'. exists skipped. reflexivity.
Qed.

Lemma tag_breaches_documented (records : list pyval) :
  forallb documented_record records = true ->
  exists tagged, tag_breaches records = (tagged, None).
Proof.
  induction records as [|record records IH]; simpl; intros H; [eauto|].
  apply andb_true_iff in H as [Hrec Hrest].
  destruct (IH Hrest) as [tagged Ht]. rewrite Ht.
  destruct record as [| | | | |l|d]; try discriminate Hrec.
  rewrite severity_of_record. simpl in Hrec.
  destruct (data_classes d) as [| | | |s|l|d']; try discriminate Hrec;
    cbn [str_in outcome_bind set_item]; eauto.
Qed.

(** check_breaches returns whenever the libraries raise only what it has
    a clause for and a 200 body is a list of documented records. *)
Lemma check_breaches_returns (w : World) (hibp_api_key : option pystr) (m : machine) :
  (forall url headers e, requests_get w url headers 15 = Raise e -> handled e = true) ->
  (forall url headers response,
     requests_get w url headers 15 = Return response ->
     status_code response = 200%Z ->
     match json response with
     | Raise e => handled e = true
     | Return (VList records) => forallb documented_record records = true
     | Return _ => False
     end) ->
  exists breach, fst (check_breaches w hibp_api_key m) = Return breach.
Proof.
  intros Hraise Hbody. destruct hibp_api_key as [[|c key]|];
    [eexists; reflexivity| |eexists; reflexivity].
  unfold check_breaches. run.
  destruct (requests_get w _ _ 15) as [response|e] eqn:Hget; cbn [self trace fst snd].
  - destruct (status_code response =? 200)%Z eqn:H200.
    + apply Z.eqb_eq in H200. specialize (Hbody _ _ _ Hget H200).
      destruct (json response) as [body|e]; cbn [self trace fst snd].
      * destruct body as [| | | | |records|d]; try contradiction.
        unfold tag_breach_results. cbn [py_iter].
        destruct (tag_breaches_documented records Hbody) as [tagged Ht]. rewrite Ht.
        cbn [self trace fst snd]. eexists; reflexivity.
      * unfold handled in Hbody. destruct (is_RequestException e);
          [eexists; reflexivity|]. simpl in Hbody. rewrite Hbody. eexists; reflexivity.
    + destruct (status_code response =? 404)%Z; eexists; reflexivity.
  - specialize (Hraise _ _ _ Hget). unfold handled in Hraise.
    destruct (is_RequestException e); [eexists; reflexivity|].
    simpl in Hraise. rewrite Hraise. eexists; reflexivity.
Qed.

Lemma run_all_checks_on_documented_answers
    (w : World) (hibp_api_key : option pystr) (google_results : Z) (m : machine) :
  (forall url headers e, requests_get w url headers 15 = Raise e -> handled e = true) ->
  (forall url headers response,
     requests_get w url headers 15 = Return response ->
     status_code response = 200%Z ->
     match json response with
     | Raise e => handled e = true
     | Return (VList records) => forallb documented_record records = true
     | Return _ => False
     end) ->
  exists report : dict,
    fst (run_all_checks w hibp_api_key google_results m) = Return report /\
    dict_keys report = section_keys.
Proof.
  intros Hraise Hbody. apply run_all_checks_sections.
  intros m'. now apply check_breaches_returns.
Qed.

(** C5 fails on the code.  When the breach service answers 200 with a
    JSON object instead of a list of records, or with a record whose
    DataClasses is null, the exception raised while tagging is none of
    those check_breaches catches: it leaves run_all_checks, and no report
    is returned. *)
Theorem run_all_checks_aborts_on_unexpected_body :
  fst (run_all_checks (sample_world (Return message_body) two_results) a_key 5
         (instance (sample_world (Return message_body) two_results)
            (lit "+6281234567890")))
    = Raise (mk_exn AttributeError (lit "'str' object has no attribute 'get'")) /\
  fst (run_all_checks (sample_world (Return null_classes) two_results) a_key 5
         (instance (sample_world (Return null_classes) two_results)
            (lit "+6281234567890")))
    = Raise (mk_exn TypeError (lit "argument of type 'NoneType' is not iterable")).
Proof. split; vm_compute; reflexivity. Qed.

(** ** C2: inputs that fail validation *)

Lemma get_basic_info_success
    (w : World) (m : machine) (p : PhoneNumber) (carrier description : pystr)
    (zones : list pystr) :
  parsed_number (self m) = Some p ->
  name_for_number w p = Return carrier ->
  description_for_number w p = Return description ->
  time_zones_for_number w p = Return zones ->
  let info :=
    [ (lit "International Format", VStr (format_number w p INTERNATIONAL));
      (lit "National Format", VStr (format_number w p NATIONAL));
      (lit "E164 Format", VStr (format_number w p E164));
      (lit "Carrier", VStr (str_or carrier (lit "Unknown")));
      (lit "Location", VStr (str_or description (lit "Unknown")));
      (lit "Time Zone", VStr (str_or (Py.join (lit ", ") zones) (lit "Unknown")));
      (lit "Number Type",
       VStr (if is_MOBILE (number_type w p) then lit "Mobile" else lit "Fixed line"));
      (lit "Valid Number", yes_no (is_valid_number w p));
      (lit "Possible Number", yes_no (is_possible_number w p));
      (lit "Country Code", VInt (country_code p));
      (lit "National Number", VInt (national_number p));
      (lit "Extension",
       VStr (match extension p with
             | Some e => str_or e (lit "None")
             | None => lit "None"
             end)) ]
    ++ (if Py.eqb (str_or description (lit "Unknown")) (lit "Unknown") then []
        else [ (lit "Region Details",
                VDict [ (lit "Region", VStr (str_or description (lit "Unknown")));
                        (lit "Estimated Coordinates", VStr (lit "Not available"));
                        (lit "Area Code Info", VStr (lit "Not available")) ]) ]) in
  get_basic_info w m =
  (Return info, mk_machine (set_basic_info info (self m)) (trace m)).
Proof.
  intros Hp Hc Hd Hz info. unfold get_basic_info. run. rewrite Hp, Hc.
  cbn [self trace fst snd]. rewrite Hd. cbn [self trace fst snd]. rewrite Hz.
  cbn [self trace fst snd]. subst info.
  rewrite dict_display_distinct.
  2:{ unfold dict_keys. cbn [map fst]. vm_compute.
      repeat (constructor; [simpl; intuition discriminate|]). constructor. }
  destruct (Py.eqb (str_or description (lit "Unknown")) (lit "Unknown"));
    cbn [negb]; fields.
  - reflexivity.
  - unfold _get_region_details. rewrite dict_display_distinct.
    2:{ unfold dict_keys. cbn [map fst]. vm_compute.
        repeat (constructor; [simpl; intuition discriminate|]). constructor. }
    rewrite dict_set_fresh.
    2:{ unfold dict_keys. cbn [map fst]. vm_compute. intuition discriminate. }
    cbn [app]. reflexivity.
Qed.

Lemma get_basic_info_failure
    (w : World) (m : machine) (p : PhoneNumber) (e : exn) :
  parsed_number (self m) = Some p ->
  name_for_number w p = Raise e \/
  (exists carrier, name_for_number w p = Return carrier /\
     (description_for_number w p = Raise e \/
      exists description, description_for_number w p = Return description /\
        time_zones_for_number w p = Raise e)) ->
  let info := [(lit "Error", VStr (lit "Failed to get basic info: " ++ exn_str e))] in
  get_basic_info w m =
  (Return info, mk_machine (set_basic_info info (self m)) (trace m)).
Proof.
  intros Hp H info. subst info. unfold get_basic_info. run. rewrite Hp.
  destruct H as [Hc|[carrier [Hc [Hd|[description [Hd Hz]]]]]].
  - rewrite Hc. cbn [self trace fst snd]. reflexivity.
  - rewrite Hc. cbn [self trace fst snd]. rewrite Hd. cbn [self trace fst snd].
    reflexivity.
  - rewrite Hc. cbn [self trace fst snd]. rewrite Hd. cbn [self trace fst snd].
    rewrite Hz. cbn [self trace fst snd]. reflexivity.
Qed.

Lemma dict_get_fresh (k : pystr) (d : dict) :
  ~ In k (dict_keys d) -> dict_get k d = None.
Proof.
  unfold dict_keys. induction d as [|[k0 v0] d IH]; simpl; intros H; [reflexivity|].
  destruct (Py.eqb k k0) eqn:E.
  - apply eqb_eq in E. subst k0. exfalso. apply H. now left.
  - apply IH. intros Hin. apply H. now right.
Qed.

(** C2, as the code has it.  An input whose parse raises leaves no parsed
    number: BasicInfo is the "Invalid phone number" entry, and Google
    Search and Reverse Lookup return their invalid-number placeholders
    without doing anything.  An input that parses but is not a valid number
    stays parsed: when the carrier, geocoder and timezone look-ups return,
    BasicInfo is the report of the number and holds "Valid Number" as
    "No"; when one of them raises, BasicInfo is the single entry "Failed to
    get basic info: <message>" of the first that raised.  Breach Check has
    no invalid-input placeholder: it depends on the key alone, returning
    the skipped sentinel without one and sending its request with one. *)
Theorem invalid_input_sections (w : World) (s : pystr) :
  (forall e, parse w s = Raise e ->
     get_basic_info w (instance w s) = (Return invalid_number, instance w s) /\
     (forall n, google_search w n (instance w s) =
        (Return [lit "Error: Cannot search - invalid phone number"], instance w s)) /\
     reverse_lookup w (instance w s) =
       (Return [lit "Error: Invalid phone number"], instance w s)) /\
  (forall p, parse w s = Return p -> is_valid_number w p = false ->
     parsed_number (self (instance w s)) = Some p /\
     (forall carrier description zones,
        name_for_number w p = Return carrier ->
        description_for_number w p = Return description ->
        time_zones_for_number w p = Return zones ->
        exists info : dict,
          fst (get_basic_info w (instance w s)) = Return info /\
          dict_get (lit "Valid Number") info = Some (VStr (lit "❌ No")) /\
          dict_get (lit "Error") info = None) /\
     (forall e,
        name_for_number w p = Raise e \/
        (exists carrier, name_for_number w p = Return carrier /\
           (description_for_number w p = Raise e \/
            exists description, description_for_number w p = Return description /\
              time_zones_for_number w p = Raise e)) ->
        fst (get_basic_info w (instance w s)) =
        Return [(lit "Error", VStr (lit "Failed to get basic info: " ++ exn_str e))])) /\
  (forall key, no_key key = true ->
     check_breaches w key (instance w s) = (Return skipped, instance w s)) /\
  (forall key : pystr, key <> [] ->
     trace (snd (check_breaches w (Some key) (instance w s))) =
     [HttpGet (breach_url (clean_number s)) (breach_headers key) 15]).
Proof.
  split; [|split; [|split]].
  - intros e H.
    assert (Hnone : parsed_number (self (instance w s)) = None).
    { unfold instance. now rewrite (init_parse_error w s e H). }
    split; [now apply get_basic_info_unparsed|].
    split; [intros n; now apply google_search_unparsed|].
    now apply reverse_lookup_unparsed.
  - intros p H Hinvalid.
    assert (Hsome : parsed_number (self (instance w s)) = Some p).
    { unfold instance. now rewrite (init_parsed w s p H). }
    split; [exact Hsome|]. split.
    + intros carrier description zones Hc Hd Hz.
      rewrite (get_basic_info_success w (instance w s) p carrier description zones
                 Hsome Hc Hd Hz).
      cbn [fst]. eexists. split; [reflexivity|]. rewrite !dict_get_app.
      assert (Hkeys : NoDup (dict_keys
        [ (lit "International Format", VStr (format_number w p INTERNATIONAL));
          (lit "National Format", VStr (format_number w p NATIONAL));
          (lit "E164 Format", VStr (format_number w p E164));
          (lit "Carrier", VStr (str_or carrier (lit "Unknown")));
          (lit "Location", VStr (str_or description (lit "Unknown")));
          (lit "Time Zone", VStr (str_or (Py.join (lit ", ") zones) (lit "Unknown")));
          (lit "Number Type",
           VStr (if is_MOBILE (number_type w p) then lit "Mobile" else lit "Fixed line"));
          (lit "Valid Number", yes_no (is_valid_number w p));
          (lit "Possible Number", yes_no (is_possible_number w p));
          (lit "Country Code", VInt (country_code p));
          (lit "National Number", VInt (national_number p));
          (lit "Extension",
           VStr (match extension p with
                 | Some e => str_or e (lit "None")
                 | None => lit "None"
                 end)) ])).
      { unfold dict_keys. cbn [map fst]. vm_compute.
        repeat (constructor; [simpl; intuition discriminate|]). constructor. }
      split.
      * rewrite (dict_get_listed (lit "Valid Number") (yes_no (is_valid_number w p)) _ Hkeys).
        -- rewrite Hinvalid. reflexivity.
        -- do 7 right. left. reflexivity.
      * rewrite dict_get_fresh.
        -- destruct (Py.eqb (str_or description (lit "Unknown")) (lit "Unknown"));
             vm_compute; reflexivity.
        -- unfold dict_keys. cbn [map fst]. vm_compute. intuition discriminate.
    + intros e He.
      now rewrite (get_basic_info_failure w (instance w s) p e Hsome He).
  - intros [[|c key]|] Hkey; try discriminate Hkey; reflexivity.
  - intros key Hkey. rewrite (check_breaches_request w key (instance w s) Hkey).
    unfold instance. destruct (parse w s) as [p|e] eqn:H.
    + now rewrite (init_parsed w s p H).
    + now rewrite (init_parse_error w s e H).
Qed.

Lemma invalid_input_sections_witness :
  (exists info : dict,
     fst (get_basic_info (sample_world offline two_results)
            (instance (sample_world offline two_results) (lit "+1555"))) = Return info /\
     dict_get (lit "Valid Number") info = Some (VStr (lit "❌ No")) /\
     dict_get (lit "Error") info = None) /\
  fst (get_basic_info (geocoder_down (sample_world offline two_results))
         (instance (geocoder_down (sample_world offline two_results)) (lit "+1555")))
  = Return [(lit "Error", VStr (lit "Failed to get basic info: geocoder data missing"))] /\
  reverse_lookup (sample_world offline two_results)
    (instance (sample_world offline two_results) (lit "abc"))
  = (Return [lit "Error: Invalid phone number"],
     instance (sample_world offline two_results) (lit "abc")) /\
  check_breaches (sample_world offline two_results) None
    (instance (sample_world offline two_results) (lit "+1555"))
  = (Return skipped, instance (sample_world offline two_results) (lit "+1555")) /\
  trace (snd (check_breaches (sample_world offline two_results)
                (Some (lit "0123456789abcdef"))
                (instance (sample_world offline two_results) (lit "+1555"))))
  = [HttpGet (breach_url (clean_number (lit "+1555")))
       (breach_headers (lit "0123456789abcdef")) 15].
Proof.
  destruct (invalid_input_sections (sample_world offline two_results) (lit "+1555"))
    as [_ [Hinvalid [Hskip Hsent]]].
  destruct (invalid_input_sections (geocoder_down (sample_world offline two_results))
              (lit "+1555")) as [_ [Hdown _]].
  destruct (invalid_input_sections (sample_world offline two_results) (lit "abc"))
    as [Hraise _].
  split; [|split; [|split; [|split]]].
  - destruct (Hinvalid too_short) as [_ [Hinfo _]].
    + vm_compute; reflexivity.
    + vm_compute; reflexivity.
    + apply (Hinfo (lit "") (lit "") []); vm_compute; reflexivity.
  - destruct (Hdown too_short) as [_ [_ Hfailed]].
    + vm_compute; reflexivity.
    + vm_compute; reflexivity.
    + rewrite (Hfailed (mk_exn OtherException (lit "geocoder data missing"))).
      * vm_compute. reflexivity.
      * right. exists (lit ""). split; [vm_compute; reflexivity|].
        left. vm_compute; reflexivity.
  - destruct (Hraise (mk_exn NumberParseException
       (lit "(1) The string supplied did not seem to be a phone number.")))
      as [_ [_ Hrev]].
    + vm_compute; reflexivity.
    + exact Hrev.
  - apply Hskip. reflexivity.
  - apply Hsent. discriminate.
Defined.

(** C2, as the specification words it, fails on "+1555", which parses and is not
    a valid number: Google Search sends its query and returns what the
    provider found, Reverse Lookup fabricates its three strings, and with
    a key Breach Check sends its request. *)
Lemma invalid_number_is_still_searched :
  parse (sample_world (Return missing) two_results) (lit "+1555") = Return too_short /\
  is_valid_number (sample_world (Return missing) two_results) too_short = false /\
  fst (google_search (sample_world (Return missing) two_results) 5
         (instance (sample_world (Return missing) two_results) (lit "+1555")))
    = Return [lit "https://example.com/a"; lit "https://example.com/b"] /\
  fst (google_search (sample_world (Return missing) two_results) 5
         (instance (sample_world (Return missing) two_results) (lit "+1555")))
    <> Return [lit "Error: Cannot search - invalid phone number"] /\
  fst (reverse_lookup (sample_world (Return missing) two_results)
         (instance (sample_world (Return missing) two_results) (lit "+1555")))
    = Return [ lit "Possible business: 555 Services";
               lit "Potential contact: John Doe (via public records)";
               lit "Linked profile: user555@example.com" ] /\
  fst (check_breaches (sample_world (Return missing) two_results) a_key
         (instance (sample_world (Return missing) two_results) (lit "+1555")))
    = Return not_found.
Proof.
  repeat apply conj; try (vm_compute; reflexivity).
  vm_compute. intros H. discriminate H.
Qed.

(** * Further properties of the class *)

(** ** Construction *)

(** X1.  Constructing an instance calls nothing outside and leaves every
    result attribute empty.  It prints at most one line: none for a valid
    number, "Error parsing phone number: Invalid phone number" for a number
    that parses but is not valid, and the parser's own message when the
    parse raises. *)
Theorem construction_prints_one_line (w : World) (s : pystr) :
  trace (instance w s) = [] /\
  phone_number (self (instance w s)) = s /\
  basic_info (self (instance w s)) = [] /\
  social_media_results (self (instance w s)) = [] /\
  breach_results (self (instance w s)) = VDict [] /\
  google_results (self (instance w s)) = [] /\
  reverse_lookup_results (self (instance w s)) = [] /\
  console (self (instance w s)) =
    match parse w s with
    | Raise e =>
      [lit "[bold red]Error parsing phone number: " ++ exn_str e ++ lit "[/]"]
    | Return p =>
      if is_valid_number w p then []
      else [lit "[bold red]Error parsing phone number: Invalid phone number[/]"]
    end.
Proof.
  unfold instance. destruct (parse w s) as [p|e] eqn:H.
  - rewrite (init_parsed w s p H). cbn [snd self trace].
    repeat apply conj; reflexivity.
  - rewrite (init_parse_error w s e H). cbn [snd self trace].
    repeat apply conj; reflexivity.
Qed.

(** ** Basic information *)

(** X2.  On an instance with a parsed number whose carrier, geocoder and
    timezone look-ups return, get_basic_info returns twelve fields in this
    order and stores them in basic_info.  An empty carrier, description or
    timezone list reads "Unknown", a missing or empty extension reads
    "None", and every line type other than MOBILE reads "Fixed line".  A
    thirteenth field, Region Details, follows exactly when the description is
    neither empty nor the word "Unknown".  Nothing outside is called. *)
Theorem basic_info_fields
    (w : World) (m : machine) (p : PhoneNumber) (carrier description : pystr)
    (zones : list pystr) :
  parsed_number (self m) = Some p ->
  name_for_number w p = Return carrier ->
  description_for_number w p = Return description ->
  time_zones_for_number w p = Return zones ->
  exists info : dict,
    fst (get_basic_info w m) = Return info /\
    basic_info (self (snd (get_basic_info w m))) = info /\
    trace (snd (get_basic_info w m)) = trace m /\
    firstn 12 info =
      [ (lit "International Format", VStr (format_number w p INTERNATIONAL));
        (lit "National Format", VStr (format_number w p NATIONAL));
        (lit "E164 Format", VStr (format_number w p E164));
        (lit "Carrier", VStr (match carrier with [] => lit "Unknown" | _ => carrier end));
        (lit "Location",
         VStr (match description with [] => lit "Unknown" | _ => description end));
        (lit "Time Zone",
         VStr (match Py.join (lit ", ") zones with
               | [] => lit "Unknown"
               | _ => Py.join (lit ", ") zones
               end));
        (lit "Number Type",
         VStr (match number_type w p with
               | MOBILE => lit "Mobile"
               | _ => lit "Fixed line"
               end));
        (lit "Valid Number",
         VStr (if is_valid_number w p then lit "✅ Yes" else lit "❌ No"));
        (lit "Possible Number",
         VStr (if is_possible_number w p then lit "✅ Yes" else lit "❌ No"));
        (lit "Country Code", VInt (country_code p));
        (lit "National Number", VInt (national_number p));
        (lit "Extension",
         VStr (match extension p with
               | None | Some [] => lit "None"
               | Some e => e
               end)) ] /\
    skipn 12 info =
      (if (match description with [] => true | _ => false end)
          || Py.eqb description (lit "Unknown")
       then []
       else [ (lit "Region Details",
               VDict [ (lit "Region", VStr description);
                       (lit "Estimated Coordinates", VStr (lit "Not available"));
                       (lit "Area Code Info", VStr (lit "Not available")) ]) ]).
Proof.
  intros Hp Hc Hd Hz.
  pose proof (get_basic_info_success w m p carrier description zones Hp Hc Hd Hz) as H.
  cbv zeta in H. rewrite H. cbn [fst snd self trace].
  eexists. split; [reflexivity|]. split; [reflexivity|]. split; [reflexivity|].
  split.
  - cbn [firstn app]. unfold str_or, yes_no, is_MOBILE.
    destruct (number_type w p); reflexivity.
  - cbn [skipn app]. destruct description as [|c description].
    + cbn [str_or orb]. replace (Py.eqb (lit "Unknown") (lit "Unknown")) with true
        by (vm_compute; reflexivity). reflexivity.
    + cbn [str_or orb]. destruct (Py.eqb (c :: description) (lit "Unknown")); reflexivity.
Qed.

Lemma basic_info_fields_witness :
  exists info : dict,
    fst (get_basic_info (sample_world offline no_results)
           (instance (sample_world offline no_results) (lit "+6281234567890")))
      = Return info /\
    List.length info = 13%nat.
Proof.
  destruct (basic_info_fields (sample_world offline no_results)
              (instance (sample_world offline no_results) (lit "+6281234567890"))
              indonesian (lit "Telkomsel") (lit "Indonesia") [lit "Asia/Jakarta"])
    as [info [Hres [_ [_ [Hfirst Hrest]]]]]; try (vm_compute; reflexivity).
  exists info. split; [exact Hres|].
  rewrite <- (firstn_skipn 12 info), Hfirst, Hrest. vm_compute; reflexivity.
Defined.

(** X3.  When a look-up of get_basic_info raises, the exception does not
    leave the method: the result is the single entry
    "Error" : "Failed to get basic info: <message>", it replaces what
    basic_info held, and the first look-up to raise, in the order carrier,
    geocoder, timezone, decides the message. *)
Theorem basic_info_lookup_failure
    (w : World) (m : machine) (p : PhoneNumber) (e : exn) :
  parsed_number (self m) = Some p ->
  name_for_number w p = Raise e \/
  (exists carrier, name_for_number w p = Return carrier /\
     (description_for_number w p = Raise e \/
      exists description, description_for_number w p = Return description /\
        time_zones_for_number w p = Raise e)) ->
  fst (get_basic_info w m) =
    Return [(lit "Error", VStr (lit "Failed to get basic info: " ++ exn_str e))] /\
  basic_info (self (snd (get_basic_info w m))) =
    [(lit "Error", VStr (lit "Failed to get basic info: " ++ exn_str e))] /\
  trace (snd (get_basic_info w m)) = trace m.
Proof.
  intros Hp H. pose proof (get_basic_info_failure w m p e Hp H) as Hf.
  cbv zeta in Hf. rewrite Hf. repeat apply conj; reflexivity.
Qed.

Lemma basic_info_lookup_failure_witness :
  fst (get_basic_info (geocoder_down (sample_world offline no_results))
         (instance (geocoder_down (sample_world offline no_results))
            (lit "+6281234567890")))
  = Return [(lit "Error", VStr (lit "Failed to get basic info: geocoder data missing"))].
Proof.
  destruct (basic_info_lookup_failure (geocoder_down (sample_world offline no_results))
              (instance (geocoder_down (sample_world offline no_results))
                 (lit "+6281234567890"))
              indonesian (mk_exn OtherException (lit "geocoder data missing")))
    as [H _].
  - vm_compute; reflexivity.
  - right. exists (lit "Telkomsel"). split; [vm_compute; reflexivity|].
    left. vm_compute; reflexivity.
  - rewrite H. vm_compute; reflexivity.
Defined.

(** ** Network information *)

(** X4.  _get_network_info never raises and does not touch the instance.
    It asks for the host name, and for its address only when the name was
    found.  When both answer, the result holds them with a fixed
    "Location" note; when either raises, whatever the exception, the
    result is the single entry "Network Info" : "Unavailable". *)
Theorem network_info_or_unavailable (w : World) (m : machine) :
  self (snd (_get_network_info w m)) = self m /\
  match gethostname w with
  | Raise _ =>
    fst (_get_network_info w m) =
      Return [(lit "Network Info", VStr (lit "Unavailable"))] /\
    trace (snd (_get_network_info w m)) = trace m ++ [HostName]
  | Return hostname =>
    trace (snd (_get_network_info w m)) = trace m ++ [HostName; HostByName hostname] /\
    fst (_get_network_info w m) =
      match gethostbyname w hostname with
      | Raise _ => Return [(lit "Network Info", VStr (lit "Unavailable"))]
      | Return ip_address =>
        Return [ (lit "Host", VStr hostname);
                 (lit "IP Address", VStr ip_address);
                 (lit "Location",
                  VStr (lit "Unknown (would require GeoIP in production)")) ]
      end
  end.
Proof.
  unfold _get_network_info. run.
  destruct (gethostname w) as [hostname|e]; cbn [self trace fst snd].
  - destruct (gethostbyname w hostname) as [ip_address|e]; cbn [self trace fst snd];
      rewrite <- app_assoc; cbn [app]; repeat apply conj; reflexivity.
  - repeat apply conj; reflexivity.
Qed.

(** ** The breach checker: tagging and failures *)

Lemma set_breach_results_twice (a b : pyval) (o : PhoneOSINT) :
  set_breach_results b (set_breach_results a o) = set_breach_results b o.
Proof. reflexivity. Qed.

(** What check_breaches does once the service has answered 200 with a
    body that decodes. *)
Lemma check_breaches_body
    (w : World) (key : pystr) (m : machine) (response : Response) (body : pyval) :
  key <> [] ->
  requests_get w (breach_url (clean_number (phone_number (self m))))
    (breach_headers key) 15 = Return response ->
  status_code response = 200%Z ->
  json response = Return body ->
  check_breaches w (Some key) m =
  (match snd (tag_breach_results body) with
   | None => Return (fst (tag_breach_results body))
   | Some e =>
     if is_RequestException e then
       Return (VDict [(lit "Error", VStr (lit "Request failed: " ++ exn_str e))])
     else if is_JSONDecodeError e then
       Return (VDict [(lit "Error", VStr (lit "Invalid JSON response"))])
     else Raise e
   end,
   mk_machine
     (set_breach_results
        (match snd (tag_breach_results body) with
         | None => fst (tag_breach_results body)
         | Some e =>
           if is_RequestException e then
             VDict [(lit "Error", VStr (lit "Request failed: " ++ exn_str e))]
           else if is_JSONDecodeError e then
             VDict [(lit "Error", VStr (lit "Invalid JSON response"))]
           else fst (tag_breach_results body)
         end) (self m))
     (trace m ++ [HttpGet (breach_url (clean_number (phone_number (self m))))
                    (breach_headers key) 15])).
Proof.
  intros Hkey Hget H200 Hjson. destruct key as [|c key]; [contradiction|].
  unfold check_breaches. run. rewrite Hget. cbn [self trace fst snd].
  rewrite H200. cbn [Z.eqb Pos.eqb]. rewrite Hjson. cbn [self trace fst snd].
  destruct (tag_breach_results body) as [tagged [e|]]; cbn [self trace fst snd].
  - destruct (is_RequestException e); cbn [self trace fst snd]; [reflexivity|].
    destruct (is_JSONDecodeError e); cbn [self trace fst snd]; reflexivity.
  - reflexivity.
Qed.

(** What check_breaches does when the request, or the decoding of a 200
    body, raises. *)
Lemma check_breaches_raised (w : World) (key : pystr) (m : machine) (e : exn) :
  key <> [] ->
  requests_get w (breach_url (clean_number (phone_number (self m))))
    (breach_headers key) 15 = Raise e \/
  (exists response,
     requests_get w (breach_url (clean_number (phone_number (self m))))
       (breach_headers key) 15 = Return response /\
     status_code response = 200%Z /\ json response = Raise e) ->
  check_breaches w (Some key) m =
  (if is_RequestException e then
     Return (VDict [(lit "Error", VStr (lit "Request failed: " ++ exn_str e))])
   else if is_JSONDecodeError e then
     Return (VDict [(lit "Error", VStr (lit "Invalid JSON response"))])
   else Raise e,
   mk_machine
     (if is_RequestException e then
        set_breach_results
          (VDict [(lit "Error", VStr (lit "Request failed: " ++ exn_str e))]) (self m)
      else if is_JSONDecodeError e then
        set_breach_results
          (VDict [(lit "Error", VStr (lit "Invalid JSON response"))]) (self m)
      else self m)
     (trace m ++ [HttpGet (breach_url (clean_number (phone_number (self m))))
                    (breach_headers key) 15])).
Proof.
  intros Hkey H. destruct key as [|c key]; [contradiction|].
  unfold check_breaches. run.
  destruct H as [Hget|[response [Hget [H200 Hjson]]]]; rewrite Hget;
    cbn [self trace fst snd].
  - destruct (is_RequestException e); cbn [self trace fst snd]; [reflexivity|].
    destruct (is_JSONDecodeError e); cbn [self trace fst snd]; [reflexivity|].
    destruct m; reflexivity.
  - rewrite H200. cbn [Z.eqb Pos.eqb]. rewrite Hjson. cbn [self trace fst snd].
    destruct (is_RequestException e); cbn [self trace fst snd]; [reflexivity|].
    destruct (is_JSONDecodeError e); cbn [self trace fst snd]; [reflexivity|].
    destruct m; reflexivity.
Qed.

Lemma tag_breaches_each (records : list pyval) :
  forallb documented_record records = true ->
  exists tagged,
    tag_breaches records = (tagged, None) /\
    Forall2
      (fun record after =>
         exists d tag,
           record = VDict d /\
           _calculate_breach_severity record = Return tag /\
           after = VDict (dict_set (lit "Severity") (VStr tag) d))
      records tagged.
Proof.
  induction records as [|record records IH]; intros H.
  - exists []. split; [reflexivity|constructor].
  - simpl in H. apply andb_true_iff in H as [Hrec Hrest].
    destruct (IH Hrest) as [tagged [Ht Hall]].
    destruct record as [| | | | |l|d]; try discriminate Hrec.
    assert (Htag : exists tag, _calculate_breach_severity (VDict d) = Return tag).
    { rewrite severity_of_record. simpl in Hrec.
      destruct (data_classes d); try discriminate Hrec;
        cbn [str_in outcome_bind]; eauto. }
    destruct Htag as [tag Htag].
    exists (VDict (dict_set (lit "Severity") (VStr tag) d) :: tagged). split.
    + cbn [tag_breaches]. rewrite Htag. cbn [outcome_bind set_item]. now rewrite Ht.
    + constructor; [|exact Hall]. exists d, tag. repeat apply conj; trivial.
Qed.

(** X5.  When the service answers 200 with a list of records, each a dict
    whose DataClasses (if any) is a list, a dict or a string, check_breaches
    returns the list with every record tagged, in the same order and of the
    same length, and stores it in breach_results.  A tagged record reads
    its computed severity under "Severity" and reads every other key as
    before. *)
Theorem breaches_are_tagged_in_place
    (w : World) (key : pystr) (m : machine) (response : Response)
    (records : list pyval) :
  key <> [] ->
  requests_get w (breach_url (clean_number (phone_number (self m))))
    (breach_headers key) 15 = Return response ->
  status_code response = 200%Z ->
  json response = Return (VList records) ->
  forallb documented_record records = true ->
  exists tagged : list pyval,
    fst (check_breaches w (Some key) m) = Return (VList tagged) /\
    breach_results (self (snd (check_breaches w (Some key) m))) = VList tagged /\
    List.length tagged = List.length records /\
    Forall2
      (fun record after =>
         exists d d' tag,
           record = VDict d /\ after = VDict d' /\
           _calculate_breach_severity record = Return tag /\
           dict_get (lit "Severity") d' = Some (VStr tag) /\
           forall k, k <> lit "Severity" -> dict_get k d' = dict_get k d)
      records tagged.
Proof.
  intros Hkey Hget H200 Hjson Hdoc.
  destruct (tag_breaches_each records Hdoc) as [tagged [Ht Hall]].
  rewrite (check_breaches_body w key m response (VList records) Hkey Hget H200 Hjson).
  unfold tag_breach_results. cbn [py_iter]. rewrite Ht. cbn [fst snd self].
  exists tagged. split; [reflexivity|]. split; [reflexivity|].
  split; [symmetry; exact (Forall2_length Hall)|].
  eapply Forall2_impl; [|exact Hall]. cbv beta. intros record after H.
  destruct H as [d [tag [-> [Htag ->]]]].
  exists d, (dict_set (lit "Severity") (VStr tag) d), tag.
  repeat apply conj; trivial.
  - rewrite dict_get_set. now rewrite eqb_refl.
  - intros k Hk. rewrite dict_get_set. apply eqb_neq in Hk. now rewrite Hk.
Qed.

Lemma breaches_are_tagged_in_place_witness :
  fst (check_breaches (sample_world (Return two_breaches) no_results) a_key
         (instance (sample_world (Return two_breaches) no_results) (lit "+6281234567890")))
  = Return (VList
      [ VDict [ (lit "Name", VStr (lit "Acme"));
                (lit "BreachDate", VStr (lit "2019-03-01"));
                (lit "DataClasses",
                 VList [VStr (lit "Email addresses"); VStr (lit "Passwords")]);
                (lit "IsVerified", VBool true);
                (lit "IsSensitive", VBool false);
                (lit "IsFabricated", VBool false);
                (lit "IsRetired", VBool false);
                (lit "Severity", VStr (lit "High")) ];
        VDict [ (lit "Name", VStr (lit "Oldsite"));
                (lit "DataClasses", VList [VStr (lit "Password")]);
                (lit "IsRetired", VBool true);
                (lit "Severity", VStr (lit "Low")) ] ]).
Proof.
  destruct (breaches_are_tagged_in_place
              (sample_world (Return two_breaches) no_results) (lit "0123456789abcdef")
              (instance (sample_world (Return two_breaches) no_results)
                 (lit "+6281234567890"))
              two_breaches [acme_breach; old_breach])
    as [tagged [Hres _]]; try discriminate; try (vm_compute; reflexivity).
Defined.

(** X6.  With a key, an exception raised by the request or by decoding a
    200 body is reported by its class.  A RequestException, which includes
    the JSON error of the requests library itself since that derives from
    both classes, gives "Request failed: <message>"; a JSONDecodeError that
    is no RequestException gives "Invalid JSON response"; both replace
    breach_results.  An exception of any other class leaves check_breaches,
    and breach_results stays as it was.  The request is sent once in every
    case. *)
Theorem breach_failures_by_class (w : World) (key : pystr) (m : machine) (e : exn) :
  key <> [] ->
  requests_get w (breach_url (clean_number (phone_number (self m))))
    (breach_headers key) 15 = Raise e \/
  (exists response,
     requests_get w (breach_url (clean_number (phone_number (self m))))
       (breach_headers key) 15 = Return response /\
     status_code response = 200%Z /\ json response = Raise e) ->
  (is_RequestException e = true ->
   fst (check_breaches w (Some key) m) =
     Return (VDict [(lit "Error", VStr (lit "Request failed: " ++ exn_str e))]) /\
   breach_results (self (snd (check_breaches w (Some key) m))) =
     VDict [(lit "Error", VStr (lit "Request failed: " ++ exn_str e))]) /\
  (is_RequestException e = false -> is_JSONDecodeError e = true ->
   fst (check_breaches w (Some key) m) =
     Return (VDict [(lit "Error", VStr (lit "Invalid JSON response"))]) /\
   breach_results (self (snd (check_breaches w (Some key) m))) =
     VDict [(lit "Error", VStr (lit "Invalid JSON response"))]) /\
  (is_RequestException e = false -> is_JSONDecodeError e = false ->
   fst (check_breaches w (Some key) m) = Raise e /\
   self (snd (check_breaches w (Some key) m)) = self m) /\
  trace (snd (check_breaches w (Some key) m)) =
    trace m ++ [HttpGet (breach_url (clean_number (phone_number (self m))))
                  (breach_headers key) 15].
Proof.
  intros Hkey H. rewrite (check_breaches_raised w key m e Hkey H).
  cbn [fst snd self trace]. repeat apply conj.
  - intros ->. split; reflexivity.
  - intros -> ->. split; reflexivity.
  - intros -> ->. split; reflexivity.
  - reflexivity.
Qed.

Lemma breach_failures_by_class_witness :
  fst (check_breaches (sample_world (Return not_json_new) no_results) a_key
         (instance (sample_world (Return not_json_new) no_results) (lit "+6281234567890")))
  = Return (VDict [(lit "Error",
       VStr (lit "Request failed: Expecting value: line 1 column 1 (char 0)"))]) /\
  fst (check_breaches (sample_world (Return not_json_old) no_results) a_key
         (instance (sample_world (Return not_json_old) no_results) (lit "+6281234567890")))
  = Return (VDict [(lit "Error", VStr (lit "Invalid JSON response"))]).
Proof.
  split.
  - destruct (breach_failures_by_class
                (sample_world (Return not_json_new) no_results) (lit "0123456789abcdef")
                (instance (sample_world (Return not_json_new) no_results)
                   (lit "+6281234567890"))
                (mk_exn RequestsJSONDecodeError
                   (lit "Expecting value: line 1 column 1 (char 0)")))
      as [H _].
    + discriminate.
    + right. exists not_json_new. repeat apply conj; vm_compute; reflexivity.
    + destruct H as [H _]; [reflexivity|]. unfold a_key. rewrite H.
      vm_compute; reflexivity.
  - destruct (breach_failures_by_class
                (sample_world (Return not_json_old) no_results) (lit "0123456789abcdef")
                (instance (sample_world (Return not_json_old) no_results)
                   (lit "+6281234567890"))
                (mk_exn JSONDecodeError
                   (lit "Expecting value: line 1 column 1 (char 0)")))
      as [_ [H _]].
    + discriminate.
    + right. exists not_json_old. repeat apply conj; vm_compute; reflexivity.
    + destruct H as [H _]; [reflexivity|reflexivity|]. unfold a_key. rewrite H.
      reflexivity.
Defined.

Lemma severity_exception_class (record : pyval) (e : exn) :
  _calculate_breach_severity record = Raise e ->
  exn_cls e = TypeError \/ exn_cls e = AttributeError.
Proof.
  destruct record as [| | | | |l|d]; try (intros H; injection H as <-; now right).
  rewrite severity_of_record.
  destruct (data_classes d); cbn [str_in outcome_bind]; intros H;
    try discriminate H; injection H as <-; now left.
Qed.

Lemma tag_breaches_stops (good : list pyval) (bad : pyval) (rest : list pyval) (e : exn) :
  forallb documented_record good = true ->
  _calculate_breach_severity bad = Raise e ->
  tag_breaches (good ++ bad :: rest) =
  (fst (tag_breaches good) ++ bad :: rest, Some e).
Proof.
  intros Hgood Hbad. induction good as [|record good IH].
  - cbn [app tag_breaches fst]. rewrite Hbad. reflexivity.
  - simpl in Hgood. apply andb_true_iff in Hgood as [Hrec Hgood].
    destruct (tag_breaches_each [record]) as [tagged [Ht _]].
    { simpl. now rewrite Hrec. }
    cbn [tag_breaches] in Ht. cbn [app tag_breaches].
    destruct (outcome_bind (_calculate_breach_severity record) _) as [record'|e'];
      [|discriminate Ht].
    rewrite (IH Hgood). destruct (tag_breaches good) as [tagged_good failure].
    reflexivity.
Qed.

(** X7.  When the service answers 200 with a list in which some record
    cannot be tagged (it is no dict, or its DataClasses is null, a number
    or a boolean) and the records before it can, check_breaches raises the
    TypeError or AttributeError of that record: no clause catches it.
    breach_results then holds the list with the records before the bad one
    tagged and the bad one and all after it untouched. *)
Theorem tagging_stops_at_bad_record
    (w : World) (key : pystr) (m : machine) (response : Response)
    (good : list pyval) (bad : pyval) (rest : list pyval) (e : exn) :
  key <> [] ->
  requests_get w (breach_url (clean_number (phone_number (self m))))
    (breach_headers key) 15 = Return response ->
  status_code response = 200%Z ->
  json response = Return (VList (good ++ bad :: rest)) ->
  forallb documented_record good = true ->
  _calculate_breach_severity bad = Raise e ->
  fst (check_breaches w (Some key) m) = Raise e /\
  (exn_cls e = TypeError \/ exn_cls e = AttributeError) /\
  exists tagged : list pyval,
    tag_breaches good = (tagged, None) /\
    breach_results (self (snd (check_breaches w (Some key) m))) =
      VList (tagged ++ bad :: rest).
Proof.
  intros Hkey Hget H200 Hjson Hgood Hbad.
  pose proof (severity_exception_class bad e Hbad) as Hcls.
  rewrite (check_breaches_body w key m response _ Hkey Hget H200 Hjson).
  unfold tag_breach_results. cbn [py_iter].
  rewrite (tag_breaches_stops good bad rest e Hgood Hbad). cbn [fst snd self].
  assert (Hreq : is_RequestException e = false).
  { unfold is_RequestException. destruct Hcls as [-> | ->]; reflexivity. }
  assert (Hjs : is_JSONDecodeError e = false).
  { unfold is_JSONDecodeError. destruct Hcls as [-> | ->]; reflexivity. }
  rewrite Hreq, Hjs. split; [reflexivity|]. split; [exact Hcls|].
  destruct (tag_breaches_each good Hgood) as [tagged [Ht _]].
  exists tagged. split; [exact Ht|]. rewrite Ht. reflexivity.
Qed.

Lemma tagging_stops_at_bad_record_witness :
  fst (check_breaches (sample_world (Return second_record_broken) no_results) a_key
         (instance (sample_world (Return second_record_broken) no_results)
            (lit "+6281234567890")))
  = Raise (mk_exn TypeError (lit "argument of type 'NoneType' is not iterable")).
Proof.
  destruct (tagging_stops_at_bad_record
              (sample_world (Return second_record_broken) no_results)
              (lit "0123456789abcdef")
              (instance (sample_world (Return second_record_broken) no_results)
                 (lit "+6281234567890"))
              second_record_broken [old_breach]
              (VDict [(lit "Name", VStr (lit "Acme")); (lit "DataClasses", VNone)])
              [acme_breach]
              (mk_exn TypeError (lit "argument of type 'NoneType' is not iterable")))
    as [H _]; try discriminate; try (vm_compute; reflexivity).
Defined.

(** ** The password rule *)

Lemma exact_element (needle : pystr) (l : list pyval) :
  existsb (fun x => match x with VStr s => Py.eqb needle s | _ => false end) l = true
  <-> In (VStr needle) l.
Proof.
  rewrite existsb_exists. split.
  - intros [x [Hin Hx]]. destruct x; try discriminate Hx.
    apply eqb_eq in Hx. now subst.
  - intros Hin. exists (VStr needle). split; [exact Hin|apply eqb_refl].
Qed.

(** X8.  For a record whose DataClasses is a list, the password rule fires
    exactly when one element of the list is the string "Password" itself:
    the tag is that of the five rules with this test as their second
    input.  An element such as "Passwords" does not count. *)
Theorem password_rule_needs_exact_element (record : dict) (classes : list pyval) :
  data_classes record = VList classes ->
  exists has_password : bool,
    (has_password = true <-> In (VStr (lit "Password")) classes) /\
    _calculate_breach_severity (VDict record) =
      Return (severity_rules (flag record (lit "IsVerified")) has_password
                (flag record (lit "IsSensitive")) (flag record (lit "IsFabricated"))
                (flag record (lit "IsRetired"))).
Proof.
  intros H. rewrite severity_of_record, H. cbn [str_in outcome_bind].
  eexists. split; [apply exact_element|reflexivity].
Qed.

Lemma password_rule_needs_exact_element_witness :
  _calculate_breach_severity
    (VDict [ (lit "DataClasses",
              VList [VStr (lit "Email addresses"); VStr (lit "Passwords")]) ])
  = Return (lit "Medium").
Proof.
  destruct (password_rule_needs_exact_element
              [ (lit "DataClasses",
                 VList [VStr (lit "Email addresses"); VStr (lit "Passwords")]) ]
              [VStr (lit "Email addresses"); VStr (lit "Passwords")])
    as [has_password [Hiff Hres]].
  - vm_compute; reflexivity.
  - rewrite Hres. destruct has_password.
    + exfalso. destruct (proj1 Hiff eq_refl) as [H|[H|[]]];
        vm_compute in H; discriminate H.
    + vm_compute; reflexivity.
Defined.

(** ** What each method leaves alone *)

Lemma get_basic_info_frame (w : World) (m : machine) :
  same_number m (snd (get_basic_info w m)) /\
  trace (snd (get_basic_info w m)) = trace m /\
  social_media_results (self (snd (get_basic_info w m))) = social_media_results (self m) /\
  breach_results (self (snd (get_basic_info w m))) = breach_results (self m) /\
  google_results (self (snd (get_basic_info w m))) = google_results (self m) /\
  reverse_lookup_results (self (snd (get_basic_info w m)))
    = reverse_lookup_results (self m).
Proof.
  unfold same_number. destruct (parsed_number (self m)) as [p|] eqn:Hp.
  - destruct (name_for_number w p) as [carrier|e] eqn:Hc.
    + destruct (description_for_number w p) as [description|e] eqn:Hd.
      * destruct (time_zones_for_number w p) as [zones|e] eqn:Hz.
        -- pose proof (get_basic_info_success w m p _ _ _ Hp Hc Hd Hz) as H.
           cbv zeta in H. rewrite H. fields. rewrite Hp.
           repeat apply conj; reflexivity.
        -- rewrite (get_basic_info_failure w m p e Hp); [|eauto 8].
           fields. rewrite Hp. repeat apply conj; reflexivity.
      * rewrite (get_basic_info_failure w m p e Hp); [|eauto 8].
        fields. rewrite Hp. repeat apply conj; reflexivity.
    + rewrite (get_basic_info_failure w m p e Hp); [|eauto 8].
      fields. rewrite Hp. repeat apply conj; reflexivity.
  - rewrite (get_basic_info_unparsed w m Hp). cbn [snd]. rewrite Hp.
    repeat apply conj; reflexivity.
Qed.

Lemma search_social_media_frame (w : World) (m : machine) :
  same_number m (snd (search_social_media w m)) /\
  trace (snd (search_social_media w m)) = trace m /\
  basic_info (self (snd (search_social_media w m))) = basic_info (self m) /\
  breach_results (self (snd (search_social_media w m))) = breach_results (self m) /\
  google_results (self (snd (search_social_media w m))) = google_results (self m) /\
  reverse_lookup_results (self (snd (search_social_media w m)))
    = reverse_lookup_results (self m).
Proof.
  unfold same_number. destruct (parsed_number (self m)) as [p|] eqn:Hp.
  - unfold search_social_media. run_loops. rewrite Hp. run_loops.
    rewrite social_assignments. fields. rewrite Hp. repeat apply conj; reflexivity.
  - rewrite (search_social_media_unparsed w m Hp). cbn [snd]. rewrite Hp.
    repeat apply conj; reflexivity.
Qed.

Lemma google_search_frame (w : World) (n : Z) (m : machine) :
  same_number m (snd (google_search w n m)) /\
  trace (snd (google_search w n m)) = trace m ++ search_calls w n m /\
  basic_info (self (snd (google_search w n m))) = basic_info (self m) /\
  social_media_results (self (snd (google_search w n m))) = social_media_results (self m) /\
  breach_results (self (snd (google_search w n m))) = breach_results (self m) /\
  reverse_lookup_results (self (snd (google_search w n m)))
    = reverse_lookup_results (self m).
Proof.
  unfold same_number, search_calls. destruct (parsed_number (self m)) as [p|] eqn:Hp.
  - unfold google_search. run_loops. rewrite Hp.
    destruct (search w _ n n 2) as [urls failure]. run_loops. rewrite append_urls.
    destruct failure as [e|]; run_loops; fields; rewrite Hp;
      repeat apply conj; reflexivity.
  - rewrite (google_search_unparsed w n m Hp). cbn [snd]. rewrite Hp, app_nil_r.
    repeat apply conj; reflexivity.
Qed.

Lemma reverse_lookup_frame (w : World) (m : machine) :
  same_number m (snd (reverse_lookup w m)) /\
  trace (snd (reverse_lookup w m)) = trace m /\
  basic_info (self (snd (reverse_lookup w m))) = basic_info (self m) /\
  social_media_results (self (snd (reverse_lookup w m))) = social_media_results (self m) /\
  breach_results (self (snd (reverse_lookup w m))) = breach_results (self m) /\
  google_results (self (snd (reverse_lookup w m))) = google_results (self m).
Proof.
  unfold same_number. destruct (parsed_number (self m)) as [p|] eqn:Hp.
  - unfold reverse_lookup. run. rewrite Hp. fields. rewrite Hp.
    repeat apply conj; reflexivity.
  - rewrite (reverse_lookup_unparsed w m Hp). cbn [snd]. rewrite Hp.
    repeat apply conj; reflexivity.
Qed.

Lemma check_breaches_frame (w : World) (hibp_api_key : option pystr) (m : machine) :
  same_number m (snd (check_breaches w hibp_api_key m)) /\
  trace (snd (check_breaches w hibp_api_key m)) = trace m ++ breach_calls hibp_api_key m /\
  basic_info (self (snd (check_breaches w hibp_api_key m))) = basic_info (self m) /\
  social_media_results (self (snd (check_breaches w hibp_api_key m)))
    = social_media_results (self m) /\
  google_results (self (snd (check_breaches w hibp_api_key m))) = google_results (self m) /\
  reverse_lookup_results (self (snd (check_breaches w hibp_api_key m)))
    = reverse_lookup_results (self m).
Proof.
  unfold same_number, breach_calls.
  destruct hibp_api_key as [[|c key]|];
    [cbn [check_breaches ret snd]; rewrite app_nil_r; repeat apply conj; reflexivity|
    |cbn [check_breaches ret snd]; rewrite app_nil_r; repeat apply conj; reflexivity].
  unfold check_breaches. run.
  destruct (requests_get w _ _ 15) as [response|e]; cbn [self trace fst snd].
  - destruct (status_code response =? 200)%Z.
    + destruct (json response) as [body|e]; cbn [self trace fst snd].
      * destruct (tag_breach_results body) as [tagged [e|]]; cbn [self trace fst snd].
        -- destruct (is_RequestException e); cbn [self trace fst snd];
             [fields; repeat apply conj; reflexivity|].
           destruct (is_JSONDecodeError e); cbn [self trace fst snd];
             fields; repeat apply conj; reflexivity.
        -- fields; repeat apply conj; reflexivity.
      * destruct (is_RequestException e); cbn [self trace fst snd];
          [fields; repeat apply conj; reflexivity|].
        destruct (is_JSONDecodeError e); cbn [self trace fst snd];
          fields; repeat apply conj; reflexivity.
    + destruct (status_code response =? 404)%Z; cbn [self trace fst snd];
        fields; repeat apply conj; reflexivity.
  - destruct (is_RequestException e); cbn [self trace fst snd];
      [fields; repeat apply conj; reflexivity|].
    destruct (is_JSONDecodeError e); cbn [self trace fst snd];
      fields; repeat apply conj; reflexivity.
Qed.

(** X9.  After construction no method changes the raw number, the parsed
    number or what the console has shown, and each of the five section
    methods writes at most its own result attribute: the other four are as
    they were. *)
Theorem methods_write_their_own_attribute
    (w : World) (hibp_api_key : option pystr) (n : Z) (m : machine) :
  (same_number m (snd (get_basic_info w m)) /\
   social_media_results (self (snd (get_basic_info w m))) = social_media_results (self m) /\
   breach_results (self (snd (get_basic_info w m))) = breach_results (self m) /\
   google_results (self (snd (get_basic_info w m))) = google_results (self m) /\
   reverse_lookup_results (self (snd (get_basic_info w m)))
     = reverse_lookup_results (self m)) /\
  (same_number m (snd (search_social_media w m)) /\
   basic_info (self (snd (search_social_media w m))) = basic_info (self m) /\
   breach_results (self (snd (search_social_media w m))) = breach_results (self m) /\
   google_results (self (snd (search_social_media w m))) = google_results (self m) /\
   reverse_lookup_results (self (snd (search_social_media w m)))
     = reverse_lookup_results (self m)) /\
  (same_number m (snd (check_breaches w hibp_api_key m)) /\
   basic_info (self (snd (check_breaches w hibp_api_key m))) = basic_info (self m) /\
   social_media_results (self (snd (check_breaches w hibp_api_key m)))
     = social_media_results (self m) /\
   google_results (self (snd (check_breaches w hibp_api_key m))) = google_results (self m) /\
   reverse_lookup_results (self (snd (check_breaches w hibp_api_key m)))
     = reverse_lookup_results (self m)) /\
  (same_number m (snd (google_search w n m)) /\
   basic_info (self (snd (google_search w n m))) = basic_info (self m) /\
   social_media_results (self (snd (google_search w n m))) = social_media_results (self m) /\
   breach_results (self (snd (google_search w n m))) = breach_results (self m) /\
   reverse_lookup_results (self (snd (google_search w n m)))
     = reverse_lookup_results (self m)) /\
  (same_number m (snd (reverse_lookup w m)) /\
   basic_info (self (snd (reverse_lookup w m))) = basic_info (self m) /\
   social_media_results (self (snd (reverse_lookup w m))) = social_media_results (self m) /\
   breach_results (self (snd (reverse_lookup w m))) = breach_results (self m) /\
   google_results (self (snd (reverse_lookup w m))) = google_results (self m)).
Proof.
  pose proof (get_basic_info_frame w m) as Hb.
  pose proof (search_social_media_frame w m) as Hs.
  pose proof (check_breaches_frame w hibp_api_key m) as Hc.
  pose proof (google_search_frame w n m) as Hg.
  pose proof (reverse_lookup_frame w m) as Hr.
  intuition.
Qed.

(** ** Calling a method again *)

Lemma google_search_result (w : World) (n : Z) (m : machine) :
  fst (google_search w n m) =
  Return (match parsed_number (self m) with
          | None => [lit "Error: Cannot search - invalid phone number"]
          | Some p =>
            match snd (search w (search_query (format_number w p NATIONAL)
                                   (format_number w p INTERNATIONAL)) n n 2) with
            | None =>
              fst (search w (search_query (format_number w p NATIONAL)
                               (format_number w p INTERNATIONAL)) n n 2)
            | Some e => [lit "Error: Google search failed - " ++ exn_str e]
            end
          end).
Proof.
  destruct (parsed_number (self m)) as [p|] eqn:Hp.
  - now destruct (google_search_parsed w n m p Hp).
  - now rewrite (google_search_unparsed w n m Hp).
Qed.

Lemma google_search_stored (w : World) (n : Z) (m : machine) (p : PhoneNumber) :
  parsed_number (self m) = Some p ->
  Return (google_results (self (snd (google_search w n m)))) = fst (google_search w n m).
Proof.
  intros Hp. unfold google_search. run_loops. rewrite Hp.
  destruct (search w _ n n 2) as [urls failure]. run_loops. rewrite append_urls.
  destruct failure as [e|]; run_loops; fields; reflexivity.
Qed.

(** X10.  google_search does not accumulate.  Its result depends on the
    parsed number and on what the provider answers, not on what
    google_results or any other attribute held before; on an instance with
    a parsed number it stores the list it returns in google_results, in
    place of the old one. *)
Theorem google_search_starts_afresh (w : World) (n : Z) (m m' : machine) :
  parsed_number (self m') = parsed_number (self m) ->
  fst (google_search w n m') = fst (google_search w n m) /\
  (forall p, parsed_number (self m) = Some p ->
     Return (google_results (self (snd (google_search w n m)))) =
     fst (google_search w n m)).
Proof.
  intros Hsame. split; [|apply google_search_stored].
  rewrite !google_search_result. now rewrite Hsame.
Qed.

Lemma google_search_starts_afresh_witness :
  fst (google_search (sample_world offline two_results) 5
         (snd (google_search (sample_world offline two_results) 5
                 (instance (sample_world offline two_results) (lit "+6281234567890")))))
  = Return [lit "https://example.com/a"; lit "https://example.com/b"].
Proof.
  destruct (google_search_starts_afresh (sample_world offline two_results) 5
              (instance (sample_world offline two_results) (lit "+6281234567890"))
              (snd (google_search (sample_world offline two_results) 5
                      (instance (sample_world offline two_results)
                         (lit "+6281234567890")))))
    as [H _].
  - vm_compute; reflexivity.
  - rewrite H. vm_compute; reflexivity.
Defined.

Lemma dict_set_same (k : pystr) (v : pyval) (d : dict) :
  dict_get k d = Some v -> dict_set k v d = d.
Proof.
  induction d as [|[k0 v0] d IH]; simpl; [discriminate|].
  destruct (Py.eqb k k0); intros H.
  - now injection H as ->.
  - now rewrite IH.
Qed.

Lemma assignments_again (items : list (pystr * pyval)) (d : dict) :
  Forall (fun kv => dict_get (fst kv) d = Some (snd kv)) items ->
  fold_left (fun d kv => dict_set (fst kv) (snd kv) d) items d = d.
Proof.
  induction 1 as [|[k v] items Hkv Hall IH]; simpl; [reflexivity|].
  simpl in Hkv. now rewrite (dict_set_same k v d Hkv).
Qed.

(** X11.  For every instance with a parsed number, search_social_media
    returns a mapping in which each of the eleven platforms holds its link
    for this number, and stores it in social_media_results.  Starting from
    an empty attribute the mapping is exactly the catalogue, in order.
    Calling the method again returns the same mapping: a link is overwritten
    in place and never listed twice. *)
Theorem social_links_are_stable (w : World) (m : machine) (p : PhoneNumber) :
  parsed_number (self m) = Some p ->
  exists links : dict,
    fst (search_social_media w m) = Return links /\
    social_media_results (self (snd (search_social_media w m))) = links /\
    Forall (fun item => dict_get (fst item) links = Some (snd item))
      (social_platforms (clean_number (phone_number (self m))) (format_number w p E164)) /\
    (social_media_results (self m) = [] ->
     links = social_platforms (clean_number (phone_number (self m)))
               (format_number w p E164) /\
     List.length links = 11%nat) /\
    fst (search_social_media w (snd (search_social_media w m))) = Return links.
Proof.
  intros Hp. destruct (search_social_media_parsed w m p Hp) as [Hres _].
  pose proof (social_platforms_distinct (clean_number (phone_number (self m)))
                (format_number w p E164)) as Hnd.
  set (items := social_platforms (clean_number (phone_number (self m)))
                  (format_number w p E164)) in *.
  set (links := fold_left (fun d kv => dict_set (fst kv) (snd kv) d) items
                  (social_media_results (self m))) in *.
  assert (Hall : Forall (fun item => dict_get (fst item) links = Some (snd item)) items).
  { apply Forall_forall. intros [k v] Hin. apply dict_get_assigned; assumption. }
  assert (Hstored : social_media_results (self (snd (search_social_media w m))) = links).
  { unfold search_social_media. run_loops. rewrite Hp. run_loops.
    rewrite social_assignments. fields. reflexivity. }
  exists links. split; [exact Hres|]. split; [exact Hstored|]. split; [exact Hall|].
  split.
  - intros Hempty. subst links. rewrite Hempty, assignments_distinct by exact Hnd.
    split; [reflexivity|]. subst items. rewrite social_platforms_items. reflexivity.
  - destruct (search_social_media_frame w m) as [[_ [Hphone Hparsed]] _].
    rewrite Hp in Hparsed.
    destruct (search_social_media_parsed w _ p Hparsed) as [Hres2 _].
    rewrite Hres2, Hphone, Hstored. fold items. now rewrite assignments_again.
Qed.

Lemma social_links_are_stable_witness :
  exists links : dict,
    fst (search_social_media (sample_world offline no_results)
           (snd (search_social_media (sample_world offline no_results)
                   (instance (sample_world offline no_results) (lit "+33123456789")))))
      = Return links /\
    dict_get (lit "📱 Viber") links = Some (VStr (lit "viber://add?number=33123456789")).
Proof.
  destruct (social_links_are_stable (sample_world offline no_results)
              (instance (sample_world offline no_results) (lit "+33123456789")) french)
    as [links [_ [_ [_ [_ Hagain]]]]].
  - vm_compute; reflexivity.
  - eexists. split; [vm_compute; reflexivity|vm_compute; reflexivity].
Defined.

(** ** The order of the run *)

Lemma now_strftime_run (w : World) (m : machine) :
  now_strftime w m =
  (Return (clock w (List.length (filter is_ClockRead (trace m)))),
   mk_machine (self m) (trace m ++ [ClockRead])).
Proof. reflexivity. Qed.

Lemma get_network_info_trace (w : World) (m : machine) :
  exists info,
    fst (_get_network_info w m) = Return info /\
    self (snd (_get_network_info w m)) = self m /\
    trace (snd (_get_network_info w m)) =
      trace m ++ HostName ::
      match gethostname w with
      | Return hostname => [HostByName hostname]
      | Raise _ => []
      end.
Proof.
  unfold _get_network_info. run.
  destruct (gethostname w) as [hostname|e]; cbn [self trace fst snd].
  - destruct (gethostbyname w hostname) as [ip_address|e]; cbn [self trace fst snd];
      rewrite <- app_assoc; cbn [app]; eexists; repeat apply conj; reflexivity.
  - eexists; repeat apply conj; reflexivity.
Qed.

(** X12.  A run that returns its report has called the outside in this
    order and no other: the breach request if a key was given, the search
    query if the number parsed, the clock twice, the host name, and the
    host's address if the name was found.  A run that raises, which only
    its breach section can make it do, has stopped there: it has sent the
    breach request, if a key was given, and nothing after it.  Either way
    the instance keeps its number. *)
Theorem run_calls_in_order
    (w : World) (hibp_api_key : option pystr) (google_results : Z) (m : machine) :
  (forall report,
     fst (run_all_checks w hibp_api_key google_results m) = Return report ->
     trace (snd (run_all_checks w hibp_api_key google_results m)) =
       trace m ++ breach_calls hibp_api_key m ++ search_calls w google_results m
         ++ [ClockRead; ClockRead; HostName]
         ++ match gethostname w with
            | Return hostname => [HostByName hostname]
            | Raise _ => []
            end) /\
  (forall e,
     fst (run_all_checks w hibp_api_key google_results m) = Raise e ->
     trace (snd (run_all_checks w hibp_api_key google_results m)) =
       trace m ++ breach_calls hibp_api_key m) /\
  same_number m (snd (run_all_checks w hibp_api_key google_results m)).
Proof.
  unfold run_all_checks. cbv beta iota delta [bind].
  destruct (get_basic_info_returns w m) as (basic & m1 & E1).
  pose proof (get_basic_info_frame w m) as (N1 & T1 & _).
  rewrite E1 in *. cbn [snd] in N1, T1.
  destruct (search_social_media_returns w m1) as (social & m2 & E2).
  pose proof (search_social_media_frame w m1) as (N2 & T2 & _).
  rewrite E2 in *. cbn [snd] in N2, T2.
  pose proof (check_breaches_frame w hibp_api_key m2) as (N3 & T3 & _).
  destruct (check_breaches w hibp_api_key m2) as [[breach|e3] m3] eqn:E3;
    cbn [snd] in N3, T3.
  - destruct (google_search_returns w google_results m3) as (found & m4 & E4).
    pose proof (google_search_frame w google_results m3) as (N4 & T4 & _).
    rewrite E4 in *. cbn [snd] in N4, T4.
    destruct (reverse_lookup_returns w m4) as (lines & m5 & E5).
    pose proof (reverse_lookup_frame w m4) as (N5 & T5 & _).
    rewrite E5 in *. cbn [snd] in N5, T5.
    rewrite !now_strftime_run. cbv beta iota.
    match goal with
    | |- context [_get_network_info w ?m6] =>
      destruct (get_network_info_trace w m6) as (network & F7 & S7 & T7);
      destruct (returns_pair _ _ F7) as [m7 E7]; rewrite E7 in *
    end.
    cbn [snd self trace] in S7, T7. cbv beta iota delta [get_self ret]. cbn [fst snd].
    unfold same_number in *. unfold breach_calls, search_calls in *.
    destruct N1 as (C1 & P1 & Q1). destruct N2 as (C2 & P2 & Q2).
    destruct N3 as (C3 & P3 & Q3). destruct N4 as (C4 & P4 & Q4).
    destruct N5 as (C5 & P5 & Q5).
    rewrite S7. split; [|split].
    + intros _ _. rewrite T7, T5, T4, T3, T2, T1. rewrite Q3, Q2, Q1, P2, P1.
      rewrite <- !app_assoc. reflexivity.
    + intros e He. discriminate He.
    + repeat apply conj; congruence.
  - cbn [fst snd].
    unfold same_number in *. unfold breach_calls in *.
    destruct N1 as (C1 & P1 & Q1). destruct N2 as (C2 & P2 & Q2).
    destruct N3 as (C3 & P3 & Q3).
    split; [|split].
    + intros report H. discriminate H.
    + intros _ _. rewrite T3, T2, T1. rewrite P2, P1. reflexivity.
    + repeat apply conj; congruence.
Qed.

Lemma run_calls_in_order_witness :
  trace (snd (run_all_checks (sample_world (Return missing) two_results) a_key 5
                (instance (sample_world (Return missing) two_results)
                   (lit "+6281234567890"))))
  = [ HttpGet
        (lit "https://haveibeenpwned.com/api/v3/breachedaccount/6281234567890?truncateResponse=false")
        (breach_headers (lit "0123456789abcdef")) 15;
      GoogleSearch (lit "intext:" ++ dquote ++ lit "0812-3456-7890" ++ dquote
                    ++ lit " OR intext:" ++ dquote ++ lit "+62 812-3456-7890" ++ dquote)
        5 5 2;
      ClockRead; ClockRead; HostName; HostByName (lit "localhost") ] /\
  trace (snd (run_all_checks (sample_world (Return message_body) two_results) a_key 5
                (instance (sample_world (Return message_body) two_results)
                   (lit "+6281234567890"))))
  = [ HttpGet
        (lit "https://haveibeenpwned.com/api/v3/breachedaccount/6281234567890?truncateResponse=false")
        (breach_headers (lit "0123456789abcdef")) 15 ].
Proof.
  destruct (run_calls_in_order (sample_world (Return missing) two_results) a_key 5
              (instance (sample_world (Return missing) two_results)
                 (lit "+6281234567890"))) as [Hreturned _].
  destruct (run_calls_in_order (sample_world (Return message_body) two_results) a_key 5
              (instance (sample_world (Return message_body) two_results)
                 (lit "+6281234567890"))) as [_ [Hraised _]].
  split.
  - erewrite Hreturned; [vm_compute; reflexivity|].
    vm_compute. reflexivity.
  - rewrite (Hraised (mk_exn AttributeError (lit "'str' object has no attribute 'get'")));
      vm_compute; reflexivity.
Defined.

(** X13.  On an instance whose number did not parse, a run without a key
    sends no request and no query.  Its report is fixed but for the
    Metadata: the two "Invalid phone number" entries, the skipped sentinel
    and the two one-line error lists, followed by Metadata with the raw
    input, the version 2.1.0, the host entry and two time stamps read from
    the clock one after the other.  The instance is left as it was. *)
Theorem unparsed_run_without_key
    (w : World) (hibp_api_key : option pystr) (google_results : Z) (m : machine) :
  parsed_number (self m) = None ->
  no_key hibp_api_key = true ->
  exists network : dict,
    fst (_get_network_info w m) = Return network /\
    fst (run_all_checks w hibp_api_key google_results m) =
      Return
        [ (lit "Basic Info", VDict [(lit "Error", VStr (lit "Invalid phone number"))]);
          (lit "Social Media", VDict [(lit "Error", VStr (lit "Invalid phone number"))]);
          (lit "Breach Check",
           VDict [(lit "Status", VStr (lit "Skipped - No HIBP API key provided"))]);
          (lit "Google Results",
           VList [VStr (lit "Error: Cannot search - invalid phone number")]);
          (lit "Reverse Lookup", VList [VStr (lit "Error: Invalid phone number")]);
          (lit "Metadata",
           VDict
             [ (lit "Search Date",
                VStr (clock w (List.length (filter is_ClockRead (trace m)))));
               (lit "Phone Number", VStr (phone_number (self m)));
               (lit "Tool Version", VStr (lit "2.1.0"));
               (lit "Execution Time",
                VStr (clock w (S (List.length (filter is_ClockRead (trace m))))));
               (lit "Network", VDict network) ]) ] /\
    self (snd (run_all_checks w hibp_api_key google_results m)) = self m /\
    filter is_network (trace (snd (run_all_checks w hibp_api_key google_results m)))
      = filter is_network (trace m).
Proof.
  intros Hp Hkey.
  assert (Hskip : check_breaches w hibp_api_key m = (Return skipped, m)).
  { destruct hibp_api_key as [[|c key]|]; try discriminate Hkey; reflexivity. }
  unfold run_all_checks. cbv beta iota delta [bind].
  rewrite (get_basic_info_unparsed w m Hp), (search_social_media_unparsed w m Hp), Hskip,
    (google_search_unparsed w google_results m Hp), (reverse_lookup_unparsed w m Hp).
  rewrite !now_strftime_run. cbv beta iota. cbn [self trace].
  assert (Hnet : forall m1 m2, self m1 = self m2 ->
            fst (_get_network_info w m1) = fst (_get_network_info w m2)).
  { intros m1 m2 _. unfold _get_network_info. run.
    destruct (gethostname w) as [hostname|e]; cbn [self trace fst snd]; [|reflexivity].
    destruct (gethostbyname w hostname); reflexivity. }
  pose proof (Hnet m (mk_machine (self m) ((trace m ++ [ClockRead]) ++ [ClockRead]))
                eq_refl) as Hsame.
  destruct (get_network_info_trace w
              (mk_machine (self m) ((trace m ++ [ClockRead]) ++ [ClockRead])))
    as (network & F7 & S7 & T7).
  destruct (returns_pair _ _ F7) as [m7 E7]. rewrite E7 in Hsame, S7, T7 |- *.
  cbn [fst snd self trace] in S7, T7, Hsame.
  exists network. split; [exact Hsame|].
  cbv beta iota delta [get_self ret]. cbn [fst snd]. rewrite S7.
  split; [|split; [reflexivity|]].
  - rewrite dict_display_distinct.
    2:{ unfold dict_keys. cbn [map fst]. vm_compute.
        repeat (constructor; [simpl; intuition discriminate|]). constructor. }
    rewrite dict_display_distinct.
    2:{ unfold dict_keys. cbn [map fst]. vm_compute.
        repeat (constructor; [simpl; intuition discriminate|]). constructor. }
    rewrite filter_app, length_app. cbn [filter is_ClockRead List.length map].
    rewrite Nat.add_1_r. reflexivity.
  - rewrite T7. rewrite !filter_app. cbn [filter is_network].
    destruct (gethostname w); cbn [filter is_network app]; now rewrite !app_nil_r.
Qed.

Lemma unparsed_run_without_key_witness :
  filter is_network
    (trace (snd (run_all_checks (sample_world offline two_results) None 5
                   (instance (sample_world offline two_results) (lit "abc")))))
  = [].
Proof.
  destruct (unparsed_run_without_key (sample_world offline two_results) None 5
              (instance (sample_world offline two_results) (lit "abc")))
    as [network [_ [_ [_ H]]]].
  - vm_compute; reflexivity.
  - reflexivity.
  - rewrite H. vm_compute; reflexivity.
Defined.

(** ** The cleaned number *)

(** X14.  clean_number never leaves a "+" or a space in its result, and
    cleaning twice changes nothing more.  When the raw input is made of
    ASCII digits, "+" and spaces only, the result is made of digits only. *)
Theorem clean_number_digits (s : pystr) :
  ~ In 43 (clean_number s) /\
  ~ In 32 (clean_number s) /\
  clean_number (clean_number s) = clean_number s /\
  (forallb (fun c => is_ascii_digit c || (c =? 43) || (c =? 32)) s = true ->
   forallb is_ascii_digit (clean_number s) = true).
Proof.
  rewrite !clean_number_filter. repeat apply conj.
  - intros H. apply filter_In in H as [_ H]. discriminate H.
  - intros H. apply filter_In in H as [_ H]. discriminate H.
  - induction s as [|c s IH]; simpl; [reflexivity|].
    destruct (kept c) eqn:E; simpl; [rewrite E, IH; reflexivity|exact IH].
  - induction s as [|c s IH]; simpl; [reflexivity|].
    intros H. apply andb_true_iff in H as [Hc Hs]. specialize (IH Hs).
    unfold kept at 1. destruct (c =? 43); simpl; [exact IH|].
    destruct (c =? 32); simpl; [exact IH|].
    rewrite !orb_false_r in Hc. now rewrite Hc, IH.
Qed.

Lemma clean_number_digits_witness :
  forallb is_ascii_digit (clean_number (lit "+62 812 3456 7890")) = true.
Proof.
  destruct (clean_number_digits (lit "+62 812 3456 7890")) as [_ [_ [_ H]]].
  apply H. vm_compute; reflexivity.
Defined.

(** ** The link menu *)

Lemma utf8_decode_ascii (bs : list N) :
  Forall (fun b => b < 128) bs -> Py.utf8_decode bs = bs.
Proof.
  induction 1 as [|b bs Hb _ IH]; [reflexivity|].
  cbn [Py.utf8_decode]. apply N.ltb_lt in Hb. rewrite Hb. now rewrite IH.
Qed.

Lemma uint_string_ascii (d : Decimal.uint) :
  Forall (fun b => b < 128)
    (map N_of_ascii (list_ascii_of_string (NilEmpty.string_of_uint d))).
Proof. induction d; simpl; constructor; trivial; reflexivity. Qed.

Lemma int_string_ascii (d : Decimal.int) :
  Forall (fun b => b < 128)
    (map N_of_ascii (list_ascii_of_string (NilZero.string_of_int d))).
Proof.
  assert (Hu : forall u, Forall (fun b => b < 128)
            (map N_of_ascii (list_ascii_of_string (NilZero.string_of_uint u)))).
  { intros u. destruct u; try apply uint_string_ascii.
    simpl. constructor; [reflexivity|constructor]. }
  destruct d; simpl; [apply Hu|]. constructor; [reflexivity|apply Hu].
Qed.

Lemma to_int_proper (z : Z) :
  Z.to_int z <> Decimal.Pos Decimal.Nil /\ Z.to_int z <> Decimal.Neg Decimal.Nil.
Proof.
  destruct z; simpl; split; try discriminate; intros H; injection H;
    apply DecimalPos.Unsigned.to_uint_nonnil.
Qed.

Lemma ascii_round_trip (l : list ascii) :
  map (fun a => ascii_of_N (N_of_ascii a)) l = l.
Proof.
  induction l as [|a l IH]; simpl; [reflexivity|].
  now rewrite ascii_N_embedding, IH.
Qed.

(** [str] of an integer determines the integer. *)
Lemma str_of_int_inj (a b : Z) : Py.str_of_int a = Py.str_of_int b -> a = b.
Proof.
  unfold Py.str_of_int, Py.lit. intros H.
  rewrite !utf8_decode_ascii in H by apply int_string_ascii.
  apply (f_equal (map ascii_of_N)) in H. rewrite !map_map in H.
  rewrite !ascii_round_trip in H.
  apply (f_equal string_of_list_ascii) in H.
  rewrite !string_of_list_ascii_of_string in H.
  apply (f_equal NilZero.int_of_string) in H.
  destruct (to_int_proper a) as [Ha1 Ha2]. destruct (to_int_proper b) as [Hb1 Hb2].
  rewrite !NilZero.isi in H by assumption.
  injection H as H. now apply DecimalZ.to_int_inj.
Qed.

Lemma assoc_set_fresh {V} (k : pystr) (v : V) (d : list (pystr * V)) :
  ~ In k (map fst d) -> assoc_set k v d = d ++ [(k, v)].
Proof.
  induction d as [|[k0 v0] d IH]; simpl; intros H; [reflexivity|].
  destruct (Py.eqb k k0) eqn:E.
  - apply eqb_eq in E. subst k0. tauto.
  - rewrite IH; tauto.
Qed.

Lemma assoc_assignments_distinct {V} (items d : list (pystr * V)) :
  NoDup (map fst (d ++ items)) ->
  fold_left (fun d kv => assoc_set (fst kv) (snd kv) d) items d = d ++ items.
Proof.
  revert d; induction items as [|[k v] items IH]; intros d H; simpl.
  - now rewrite app_nil_r.
  - rewrite map_app in H. simpl in H.
    pose proof (NoDup_remove_2 _ _ _ H) as Hfresh.
    rewrite assoc_set_fresh.
    + rewrite IH; [now rewrite <- app_assoc|].
      rewrite <- app_assoc, map_app. exact H.
    + intros Hin. apply Hfresh. apply in_or_app. now left.
Qed.

Lemma enumerate_numbers {A} (start : Z) (l : list A) :
  map fst (enumerate start l)
  = map (fun i => (start + Z.of_nat i)%Z) (seq 0 (List.length l)).
Proof.
  revert start; induction l as [|x l IH]; intros start; [reflexivity|].
  cbn [enumerate map fst List.length seq]. rewrite IH, Z.add_0_r. f_equal.
  rewrite <- seq_shift, map_map. apply map_ext. intros i. lia.
Qed.

Lemma enumerate_items {A} (start : Z) (l : list A) :
  map snd (enumerate start l) = l.
Proof.
  revert start; induction l as [|x l IH]; intros start; [reflexivity|].
  cbn [enumerate map snd]. now rewrite IH.
Qed.

Lemma assoc_assignments_map {A V} (f : A -> pystr) (g : A -> V) (l : list A)
    (d : list (pystr * V)) :
  fold_left (fun d x => assoc_set (f x) (g x) d) l d
  = fold_left (fun d kv => assoc_set (fst kv) (snd kv) d)
      (map (fun x => (f x, g x)) l) d.
Proof.
  revert d; induction l as [|x l IH]; intros d; [reflexivity|].
  cbn [map fold_left fst snd]. apply IH.
Qed.

(** The menu numbers are distinct, so the menu lists every link once, in
    the order of the section. *)
Lemma menu_options_listed (items : dict) :
  menu_options items
  = map (fun numbered => (Py.str_of_int (fst numbered), snd numbered))
      (enumerate 1 items).
Proof.
  unfold menu_options.
  rewrite (assoc_assignments_map (fun numbered => Py.str_of_int (fst numbered))
             (fun numbered : Z * (pystr * pyval) => snd numbered)).
  rewrite assoc_assignments_distinct; [reflexivity|].
  cbn [app].
  - rewrite map_map. cbn [fst].
    rewrite <- (map_map fst Py.str_of_int).
    apply Finite.Injective_map_NoDup; [intros a b; apply str_of_int_inj|].
    rewrite enumerate_numbers.
    apply Finite.Injective_map_NoDup; [intros a b; lia|apply seq_NoDup].
Qed.

Lemma opened_urls_app (a b : list ui_event) :
  opened_urls (a ++ b) = opened_urls a ++ opened_urls b.
Proof. unfold opened_urls. apply flat_map_app. Qed.

Lemma menu_opens_nothing (desk : Desk) (items : dict) :
  opened_urls (menu_shown desk items) = [].
Proof.
  unfold menu_shown. rewrite !opened_urls_app. cbn [opened_urls flat_map app].
  rewrite app_nil_r.
  induction (numbered_links items) as [|[num [platform url]] rest IH]; [reflexivity|].
  cbn [map option_line opened_urls flat_map app]. exact IH.
Qed.

Lemma numbered_links_items (items : dict) : map snd (numbered_links items) = items.
Proof.
  unfold numbered_links. rewrite map_map. cbn [snd]. apply enumerate_items.
Qed.

Lemma assoc_get_listed {V} (k : pystr) (v : V) (d : list (pystr * V)) :
  assoc_get k d = Some v -> exists k', In (k', v) d.
Proof.
  induction d as [|[k0 v0] d IH]; simpl; [discriminate|].
  destruct (Py.eqb k k0); intros H.
  - injection H as ->. eauto.
  - destruct (IH H) as [k' Hin]. eauto.
Qed.

Lemma numbered_link_is_listed (items : dict) (num : pystr) (link : pystr * pyval) :
  In (num, link) (numbered_links items) -> In link items.
Proof.
  intros H. rewrite <- (numbered_links_items items).
  change link with (snd (num, link)). now apply in_map.
Qed.

(** *** Printing and the loops *)

Lemma print_markup_plain (desk : Desk) (inserted : list pystr) (line : pystr) :
  existsb has_bracket inserted = false ->
  print_markup desk inserted line = ([Printed line], None).
Proof. intros H. unfold print_markup. now rewrite H. Qed.

Lemma print_markup_opens_nothing (desk : Desk) (inserted : list pystr) (line : pystr) :
  opened_urls (fst (print_markup desk inserted line)) = [].
Proof.
  unfold print_markup.
  destruct (existsb has_bracket inserted); [destruct (markup_error desk line)|];
    reflexivity.
Qed.

Lemma in_turn_all {A} (turn : A -> list ui_event * option exn) (f : A -> list ui_event)
    (l : list A) :
  (forall x, In x l -> turn x = (f x, None)) ->
  in_turn turn l = (flat_map f l, None).
Proof.
  induction l as [|x l IH]; intros H; [reflexivity|].
  cbn [in_turn flat_map]. rewrite (H x (or_introl eq_refl)), IH; [reflexivity|].
  intros y Hy. apply H. now right.
Qed.

Lemma in_turn_app {A} (turn : A -> list ui_event * option exn) (a b : list A) :
  in_turn turn (a ++ b) =
  match in_turn turn a with
  | (done, Some e) => (done, Some e)
  | (done, None) => let (later, failure) := in_turn turn b in (done ++ later, failure)
  end.
Proof.
  induction a as [|x a IH]; cbn [app in_turn].
  - destruct (in_turn turn b); reflexivity.
  - destruct (turn x) as [done [e|]]; [reflexivity|]. rewrite IH.
    destruct (in_turn turn a) as [later [e|]]; [reflexivity|].
    destruct (in_turn turn b) as [last failure]. now rewrite app_assoc.
Qed.

Lemma in_turn_opened {A} (turn : A -> list ui_event * option exn) (l : list A)
    (url : pyval) :
  In url (opened_urls (fst (in_turn turn l))) ->
  exists x, In x l /\ In url (opened_urls (fst (turn x))).
Proof.
  induction l as [|x l IH]; cbn [in_turn]; [intros []|].
  destruct (turn x) as [done [e|]] eqn:E.
  - cbn [fst]. intros H. exists x. split; [now left|]. now rewrite E.
  - destruct (in_turn turn l) as [later failure]. cbn [fst] in *.
    rewrite opened_urls_app. intros H. apply in_app_or in H as [H|H].
    + exists x. split; [now left|]. now rewrite E.
    + destruct (IH H) as [y [Hy Hurl]]. exists y. split; [now right|exact Hurl].
Qed.

Lemma flat_map_single {A B} (f : A -> B) (l : list A) :
  flat_map (fun x => [f x]) l = map f l.
Proof. induction l as [|x l IH]; [reflexivity|]. cbn [flat_map map app]. now rewrite IH. Qed.

Lemma plain_link_texts (desk : Desk) (platform : pystr) (url : pyval) :
  plain_link desk (platform, url) = true ->
  has_bracket platform = false /\ has_bracket (text_of desk url) = false.
Proof.
  unfold plain_link. cbn [fst snd]. intros H. apply andb_true_iff in H as [H1 H2].
  now apply negb_true_iff in H1, H2.
Qed.

Lemma plain_text_link (desk : Desk) (items : dict) (link : pystr * pyval) :
  plain_text desk items = true -> In link items -> plain_link desk link = true.
Proof. unfold plain_text. rewrite forallb_forall. auto. Qed.

Lemma show_option_plain (desk : Desk) (entry : pystr * (pystr * pyval)) :
  plain_link desk (snd entry) = true ->
  show_option desk entry = ([option_line desk entry], None).
Proof.
  destruct entry as [num [platform url]]. cbn [snd]. intros H.
  apply plain_link_texts in H as [Hp Hu]. unfold show_option, option_line.
  apply print_markup_plain. cbn [existsb]. now rewrite Hp, Hu.
Qed.

Lemma show_option_opens_nothing (desk : Desk) (entries : list (pystr * (pystr * pyval))) :
  opened_urls (fst (in_turn (show_option desk) entries)) = [].
Proof.
  destruct (opened_urls (fst (in_turn (show_option desk) entries))) as [|url rest] eqn:E;
    [reflexivity|].
  destruct (in_turn_opened (show_option desk) entries url) as [[num [platform url']] [_ H]].
  - rewrite E. now left.
  - unfold show_option in H. rewrite print_markup_opens_nothing in H. destruct H.
Qed.

(** When the texts of a section hold no "[", the menu is printed whole. *)
Lemma menu_prints (desk : Desk) (items : dict) :
  plain_text desk items = true ->
  in_turn (show_option desk) (numbered_links items)
  = (map (option_line desk) (numbered_links items), None).
Proof.
  intros H. rewrite <- flat_map_single. apply in_turn_all.
  intros [num link] Hin. apply show_option_plain. cbn [snd].
  apply (plain_text_link desk items link H).
  now apply (numbered_link_is_listed items num).
Qed.

Lemma open_listed_plain (desk : Desk) (link : pystr * pyval) :
  plain_link desk link = true ->
  open_listed desk link = (listed_events desk link, None).
Proof.
  destruct link as [platform url]. intros H. apply plain_link_texts in H as [Hp _].
  unfold open_listed, listed_events, report_failure. cbn [fst snd].
  destruct (webbrowser_open desk url); [reflexivity|].
  rewrite print_markup_plain; [reflexivity|]. cbn [existsb]. now rewrite Hp.
Qed.

Lemma open_selected_plain (desk : Desk) (options : list (pystr * (pystr * pyval)))
    (sel : pystr) :
  (forall link, assoc_get sel options = Some link -> plain_link desk link = true) ->
  open_selected desk options sel = (selected_events desk options sel, None).
Proof.
  intros H. unfold open_selected, selected_events, report_failure.
  destruct (assoc_get sel options) as [[platform url]|]; [|reflexivity].
  destruct (plain_link_texts desk platform url (H _ eq_refl)) as [Hp _].
  rewrite !print_markup_plain by (cbn [existsb]; now rewrite Hp).
  destruct (webbrowser_open desk url); reflexivity.
Qed.

Lemma open_listed_opened (desk : Desk) (link : pystr * pyval) :
  opened_urls (fst (open_listed desk link)) = [snd link].
Proof.
  destruct link as [platform url]. unfold open_listed, report_failure. cbn [snd].
  destruct (webbrowser_open desk url); [reflexivity|].
  pose proof (print_markup_opens_nothing desk [platform]
                (lit "[red]Failed to open " ++ platform ++ lit "[/]")) as H.
  destruct (print_markup desk [platform] _) as [said failure]. cbn [fst] in *.
  change (opened_urls (Opened url :: said)) with (url :: opened_urls said).
  now rewrite H.
Qed.

Lemma open_selected_opened (desk : Desk) (options : list (pystr * (pystr * pyval)))
    (sel : pystr) :
  opened_urls (fst (open_selected desk options sel)) =
  match assoc_get sel options with
  | Some link => [snd link]
  | None => []
  end.
Proof.
  unfold open_selected, report_failure.
  destruct (assoc_get sel options) as [[platform url]|]; [|reflexivity]. cbn [snd].
  pose proof (print_markup_opens_nothing desk [platform]
                (lit "[red]Failed to open " ++ platform ++ lit "[/]")) as Hfailed.
  pose proof (print_markup_opens_nothing desk [platform]
                (lit "[green]Opened " ++ platform ++ lit "[/]")) as Hopened.
  destruct (print_markup desk [platform]
              (lit "[red]Failed to open " ++ platform ++ lit "[/]")) as [said failure].
  destruct (print_markup desk [platform]
              (lit "[green]Opened " ++ platform ++ lit "[/]")) as [said' [e|]].
  - destruct (webbrowser_open desk url); cbn [fst] in *;
      change (opened_urls (Opened url :: said)) with (url :: opened_urls said);
      now rewrite Hfailed.
  - destruct (webbrowser_open desk url); cbn [fst] in *.
    + change (opened_urls (Opened url :: said' ++ [Slept 1]))
        with (url :: opened_urls (said' ++ [Slept 1])).
      rewrite opened_urls_app, Hopened. reflexivity.
    + change (opened_urls (Opened url :: said)) with (url :: opened_urls said).
      now rewrite Hfailed.
Qed.

Lemma listed_events_urls (desk : Desk) (links : dict) :
  opened_urls (flat_map (listed_events desk) links) = map snd links.
Proof.
  induction links as [|[platform url] rest IH]; [reflexivity|].
  cbn [flat_map map snd]. rewrite opened_urls_app, IH. unfold listed_events. cbn [snd].
  destruct (webbrowser_open desk url); reflexivity.
Qed.

Lemma selected_events_urls (desk : Desk) (options : list (pystr * (pystr * pyval)))
    (selections : list pystr) :
  opened_urls (flat_map (selected_events desk options) selections)
  = flat_map (fun sel => match assoc_get sel options with
                         | Some link => [snd link]
                         | None => []
                         end) selections.
Proof.
  induction selections as [|sel rest IH]; [reflexivity|].
  cbn [flat_map]. rewrite opened_urls_app, IH. f_equal.
  unfold selected_events. destruct (assoc_get sel options) as [[platform url]|];
    [|reflexivity].
  destruct (webbrowser_open desk url); reflexivity.
Qed.

(** What the function does once the section is a dict whose texts hold no
    "[" and the user has answered. *)
Lemma open_urls_answered (desk : Desk) (results items : dict) (answer : pystr) :
  dict_get (lit "Social Media") results = Some (VDict items) ->
  plain_text desk items = true ->
  console_input desk menu_prompt = Return answer ->
  open_urls_interactively desk results =
  (Return tt,
   menu_shown desk items ++
   if Py.eqb (upper desk answer) (lit "A") then
     flat_map (listed_events desk) items
       ++ [Printed (lit "[green]All links opened in your default browser[/]")]
   else if Py.eqb (upper desk answer) (lit "N") then []
   else flat_map (selected_events desk (numbered_links items))
          (findall_digits desk (upper desk answer))).
Proof.
  intros Hsec Hplain Hin. unfold open_urls_interactively. rewrite Hsec. cbn [py_items].
  rewrite menu_options_listed. fold (numbered_links items).
  rewrite (menu_prints desk items Hplain), Hin, numbered_links_items.
  rewrite (in_turn_all (open_listed desk) (listed_events desk) items).
  2:{ intros link Hl. apply open_listed_plain.
      now apply (plain_text_link desk items). }
  rewrite (in_turn_all (open_selected desk (numbered_links items))
             (selected_events desk (numbered_links items))).
  2:{ intros sel _. apply open_selected_plain. intros link Hget.
      destruct (assoc_get_listed _ _ _ Hget) as [num Hl].
      apply (plain_text_link desk items link Hplain).
      now apply (numbered_link_is_listed items num). }
  unfold menu_shown.
  destruct (Py.eqb (upper desk answer) (lit "A")); [reflexivity|].
  destruct (Py.eqb (upper desk answer) (lit "N")); [now rewrite app_nil_r|reflexivity].
Qed.

(** X15.  On a section whose platform names and links hold no "[", when
    the user answers "A" in either case, every link of the Social Media
    section is handed to the browser once, in the order of the section.
    A link the browser cannot open is reported with
    "Failed to open <platform>" and the remaining links are still opened;
    the closing line "All links opened in your default browser" is printed
    whether or not any failed. *)
Theorem answer_a_opens_every_link
    (desk : Desk) (results items : dict) (answer : pystr) :
  dict_get (lit "Social Media") results = Some (VDict items) ->
  plain_text desk items = true ->
  console_input desk menu_prompt = Return answer ->
  upper desk answer = lit "A" ->
  open_urls_interactively desk results =
    (Return tt,
     menu_shown desk items
       ++ flat_map
            (fun link =>
               Opened (snd link) ::
               match webbrowser_open desk (snd link) with
               | Return _ => []
               | Raise _ => [Printed (lit "[red]Failed to open " ++ fst link ++ lit "[/]")]
               end) items
       ++ [Printed (lit "[green]All links opened in your default browser[/]")]) /\
  opened_urls (snd (open_urls_interactively desk results)) = map snd items.
Proof.
  intros Hsec Hplain Hin Hup.
  rewrite (open_urls_answered desk results items answer Hsec Hplain Hin).
  rewrite Hup, eqb_refl. cbn [snd]. split; [reflexivity|].
  rewrite !opened_urls_app, menu_opens_nothing, listed_events_urls.
  cbn [opened_urls flat_map app]. now rewrite app_nil_r.
Qed.

Lemma answer_a_opens_every_link_witness :
  opened_urls
    (snd (open_urls_interactively
            (sample_desk (lit "a")
               (fun url => match url with
                           | VStr s => Py.starts_with (lit "viber:") s
                           | _ => false
                           end))
            [ (lit "Social Media",
               VDict [ (lit "💬 WhatsApp", VStr (lit "https://wa.me/33123456789"));
                       (lit "📱 Viber", VStr (lit "viber://add?number=33123456789"));
                       (lit "✈️ Telegram", VStr (lit "https://t.me/33123456789")) ]) ]))
  = [ VStr (lit "https://wa.me/33123456789");
      VStr (lit "viber://add?number=33123456789");
      VStr (lit "https://t.me/33123456789") ].
Proof.
  destruct (answer_a_opens_every_link
              (sample_desk (lit "a")
                 (fun url => match url with
                             | VStr s => Py.starts_with (lit "viber:") s
                             | _ => false
                             end))
              [ (lit "Social Media",
                 VDict [ (lit "💬 WhatsApp", VStr (lit "https://wa.me/33123456789"));
                         (lit "📱 Viber", VStr (lit "viber://add?number=33123456789"));
                         (lit "✈️ Telegram", VStr (lit "https://t.me/33123456789")) ]) ]
              [ (lit "💬 WhatsApp", VStr (lit "https://wa.me/33123456789"));
                (lit "📱 Viber", VStr (lit "viber://add?number=33123456789"));
                (lit "✈️ Telegram", VStr (lit "https://t.me/33123456789")) ]
              (lit "a")) as [_ H]; [vm_compute; reflexivity ..|].
  rewrite H. vm_compute; reflexivity.
Defined.

Lemma numbered_lookup (sel : pystr) (start : Z) (items : dict) :
  (forall k link, nth_error items k = Some link ->
     sel = Py.str_of_int (start + Z.of_nat k) ->
     assoc_get sel
       (map (fun numbered => (Py.str_of_int (fst numbered), snd numbered))
          (enumerate start items)) = Some link) /\
  ((forall k, (k < List.length items)%nat -> sel <> Py.str_of_int (start + Z.of_nat k)) ->
   assoc_get sel
     (map (fun numbered => (Py.str_of_int (fst numbered), snd numbered))
        (enumerate start items)) = None).
Proof.
  revert start; induction items as [|item items IH]; intros start; split.
  - intros [|k] link H; discriminate H.
  - reflexivity.
  - intros [|k] link H Hsel; cbn [enumerate map fst snd assoc_get].
    + injection H as <-. rewrite Hsel, Z.add_0_r, eqb_refl. reflexivity.
    + replace (Py.eqb sel (Py.str_of_int start)) with false.
      * apply (proj1 (IH (start + 1)%Z) k link H). rewrite Hsel. f_equal. lia.
      * symmetry. apply eqb_neq. rewrite Hsel. intros E.
        apply str_of_int_inj in E. lia.
  - intros Hnone. cbn [enumerate map fst snd assoc_get].
    replace (Py.eqb sel (Py.str_of_int start)) with false.
    + apply (proj2 (IH (start + 1)%Z)). intros k Hk.
      replace (start + 1 + Z.of_nat k)%Z with (start + Z.of_nat (S k))%Z by lia.
      apply Hnone. simpl. lia.
    + symmetry. apply eqb_neq. rewrite <- (Z.add_0_r start).
      apply (Hnone 0%nat). simpl. lia.
Qed.

(** X16.  In the menu the k-th link of the Social Media section, counted
    from 1, is found under the decimal text of k and under no other text:
    a number past the end, the number 0, and a number written with leading
    zeros select nothing. *)
Theorem menu_number_selects_link (items : dict) (sel : pystr) :
  (forall k link,
     nth_error items k = Some link ->
     sel = Py.str_of_int (Z.of_nat (S k)) ->
     assoc_get sel (menu_options items) = Some link) /\
  ((forall k, (k < List.length items)%nat -> sel <> Py.str_of_int (Z.of_nat (S k))) ->
   assoc_get sel (menu_options items) = None).
Proof.
  rewrite menu_options_listed. destruct (numbered_lookup sel 1 items) as [Hsome Hnone].
  split.
  - intros k link Hk Hsel. apply (Hsome k link Hk). rewrite Hsel. f_equal. lia.
  - intros H. apply Hnone. intros k Hk.
    replace (1 + Z.of_nat k)%Z with (Z.of_nat (S k)) by lia. now apply H.
Qed.

Lemma menu_number_selects_link_witness :
  assoc_get (lit "2")
    (menu_options [ (lit "💬 WhatsApp", VStr (lit "https://wa.me/33123456789"));
                    (lit "📱 Viber", VStr (lit "viber://add?number=33123456789")) ])
  = Some (lit "📱 Viber", VStr (lit "viber://add?number=33123456789")) /\
  assoc_get (lit "02")
    (menu_options [ (lit "💬 WhatsApp", VStr (lit "https://wa.me/33123456789"));
                    (lit "📱 Viber", VStr (lit "viber://add?number=33123456789")) ])
  = None.
Proof.
  split.
  - apply (proj1 (menu_number_selects_link
             [ (lit "💬 WhatsApp", VStr (lit "https://wa.me/33123456789"));
               (lit "📱 Viber", VStr (lit "viber://add?number=33123456789")) ]
             (lit "2")) 1%nat); vm_compute; reflexivity.
  - apply (proj2 (menu_number_selects_link
             [ (lit "💬 WhatsApp", VStr (lit "https://wa.me/33123456789"));
               (lit "📱 Viber", VStr (lit "viber://add?number=33123456789")) ]
             (lit "02"))).
    intros [|[|k]] Hk; [vm_compute; discriminate|vm_compute; discriminate|].
    simpl in Hk. lia.
Defined.

(** X17.  On a section whose platform names and links hold no "[", when
    the answer, in upper case, is neither "A" nor "N", the links opened
    are those of the numbers in the answer: for each maximal run of
    decimal digits, from left to right, the link the menu lists under
    exactly that text, and nothing for a run the menu does not list.  A
    number typed twice is opened twice.  After each link the browser
    accepted the tool prints "Opened <platform>" and waits one second;
    for one it refused it prints "Failed to open <platform>" and goes on. *)
Theorem numbers_open_their_links
    (desk : Desk) (results items : dict) (answer : pystr) :
  dict_get (lit "Social Media") results = Some (VDict items) ->
  plain_text desk items = true ->
  console_input desk menu_prompt = Return answer ->
  upper desk answer <> lit "A" ->
  upper desk answer <> lit "N" ->
  open_urls_interactively desk results =
    (Return tt,
     menu_shown desk items ++
     flat_map
       (fun sel =>
          match assoc_get sel (menu_options items) with
          | None => []
          | Some (platform, url) =>
            Opened url ::
            match webbrowser_open desk url with
            | Return _ =>
              [Printed (lit "[green]Opened " ++ platform ++ lit "[/]"); Slept 1]
            | Raise _ => [Printed (lit "[red]Failed to open " ++ platform ++ lit "[/]")]
            end
          end)
       (findall_digits desk (upper desk answer))) /\
  opened_urls (snd (open_urls_interactively desk results)) =
    flat_map (fun sel => match assoc_get sel (menu_options items) with
                         | Some link => [snd link]
                         | None => []
                         end)
      (findall_digits desk (upper desk answer)).
Proof.
  intros Hsec Hplain Hin HA HN.
  rewrite (open_urls_answered desk results items answer Hsec Hplain Hin).
  apply eqb_neq in HA, HN. rewrite HA, HN. cbn [snd].
  rewrite menu_options_listed. fold (numbered_links items). split; [reflexivity|].
  now rewrite opened_urls_app, menu_opens_nothing, selected_events_urls.
Qed.

Lemma numbers_open_their_links_witness :
  opened_urls
    (snd (open_urls_interactively (sample_desk (lit "2, 7 and 1") (fun _ => false))
            [ (lit "Social Media",
               VDict [ (lit "💬 WhatsApp", VStr (lit "https://wa.me/33123456789"));
                       (lit "📱 Viber", VStr (lit "viber://add?number=33123456789")) ]) ]))
  = [ VStr (lit "viber://add?number=33123456789"); VStr (lit "https://wa.me/33123456789") ].
Proof.
  destruct (numbers_open_their_links
              (sample_desk (lit "2, 7 and 1") (fun _ => false))
              [ (lit "Social Media",
                 VDict [ (lit "💬 WhatsApp", VStr (lit "https://wa.me/33123456789"));
                         (lit "📱 Viber", VStr (lit "viber://add?number=33123456789")) ]) ]
              [ (lit "💬 WhatsApp", VStr (lit "https://wa.me/33123456789"));
                (lit "📱 Viber", VStr (lit "viber://add?number=33123456789")) ]
              (lit "2, 7 and 1")) as [_ H];
    [vm_compute; reflexivity | vm_compute; reflexivity | vm_compute; reflexivity
    | vm_compute; discriminate | vm_compute; discriminate |].
  rewrite H. vm_compute; reflexivity.
Defined.

Lemma enumerate_app {A} (start : Z) (a b : list A) :
  enumerate start (a ++ b)
  = enumerate start a ++ enumerate (start + Z.of_nat (List.length a)) b.
Proof.
  revert start; induction a as [|x a IH]; intros start.
  - cbn [app enumerate List.length]. now rewrite Z.add_0_r.
  - cbn [app enumerate List.length]. rewrite IH. do 3 f_equal. lia.
Qed.

(** X18.  Whatever the user types, whatever the results hold and whatever
    the console makes of its lines, the tool hands to the browser only
    values of the Social Media section of those results.  Without such a
    section it shows nothing, asks nothing and opens nothing.  On a section
    whose platform names and links hold no "[", it opens nothing with the
    answer "N", and when the answer cannot be read the exception leaves the
    function before anything is opened.  When the console rejects a line
    of the menu, the first it rejects, the exception leaves the function
    after the lines before it: the user is not asked and nothing is
    opened. *)
Theorem only_section_links_are_opened (desk : Desk) (results : dict) :
  (forall url,
     In url (opened_urls (snd (open_urls_interactively desk results))) ->
     exists items platform,
       dict_get (lit "Social Media") results = Some (VDict items) /\
       In (platform, url) items) /\
  (dict_get (lit "Social Media") results = None ->
   open_urls_interactively desk results = (Return tt, [])) /\
  (forall items answer,
     dict_get (lit "Social Media") results = Some (VDict items) ->
     plain_text desk items = true ->
     console_input desk menu_prompt = Return answer ->
     upper desk answer = lit "N" ->
     open_urls_interactively desk results = (Return tt, menu_shown desk items)) /\
  (forall items e,
     dict_get (lit "Social Media") results = Some (VDict items) ->
     plain_text desk items = true ->
     console_input desk menu_prompt = Raise e ->
     open_urls_interactively desk results = (Raise e, menu_shown desk items)) /\
  (forall before platform url after e,
     dict_get (lit "Social Media") results
       = Some (VDict (before ++ (platform, url) :: after)) ->
     plain_text desk before = true ->
     has_bracket platform || has_bracket (text_of desk url) = true ->
     markup_error desk
       (Py.str_of_int (Z.of_nat (S (List.length before))) ++ lit ". " ++ platform
        ++ lit " - [link=" ++ text_of desk url ++ lit "]" ++ text_of desk url
        ++ lit "[/link]") = Some e ->
     open_urls_interactively desk results =
     (Raise e,
      [Printed (newline ++ lit "[bold]Would you like to open any links in your browser?[/]")]
        ++ map (option_line desk) (numbered_links before))).
Proof.
  repeat apply conj.
  - intros url.
    destruct (dict_get (lit "Social Media") results) as [social|] eqn:Hsec.
    2:{ unfold open_urls_interactively. rewrite Hsec. intros []. }
    destruct social as [| | | | | |items];
      try (unfold open_urls_interactively; rewrite Hsec;
           cbn [py_items snd opened_urls flat_map app In]; intros []).
    unfold open_urls_interactively. rewrite Hsec. cbn [py_items].
    rewrite menu_options_listed. fold (numbered_links items).
    pose proof (show_option_opens_nothing desk (numbered_links items)) as Hshown.
    destruct (in_turn (show_option desk) (numbered_links items)) as [shown [e|]].
    { cbn [fst snd] in *. rewrite opened_urls_app, Hshown. intros []. }
    cbn [fst] in Hshown.
    assert (Hmenu : opened_urls
              ([Printed (newline
                  ++ lit "[bold]Would you like to open any links in your browser?[/]")]
                 ++ shown
                 ++ [ Printed (lit "A. Open all links");
                      Printed (lit "N. None (continue)");
                      Asked menu_prompt ]) = []).
    { rewrite !opened_urls_app, Hshown. reflexivity. }
    cbv zeta.
    destruct (console_input desk menu_prompt) as [answer|e].
    2:{ cbn [snd]. rewrite Hmenu. intros []. }
    destruct (Py.eqb (upper desk answer) (lit "A"));
      [|destruct (Py.eqb (upper desk answer) (lit "N"))].
    + rewrite numbered_links_items.
      pose proof (in_turn_opened (open_listed desk) items url) as Hturn.
      destruct (in_turn (open_listed desk) items) as [opened [e|]]; cbn [fst snd] in *.
      * rewrite opened_urls_app, Hmenu. cbn [app]. intros Hurl.
        destruct (Hturn Hurl) as [[platform url'] [Hl Hopened]].
        rewrite open_listed_opened in Hopened. destruct Hopened as [<-|[]].
        exists items, platform. split; [reflexivity|exact Hl].
      * rewrite opened_urls_app, Hmenu, opened_urls_app. cbn [app opened_urls flat_map].
        rewrite app_nil_r. intros Hurl.
        destruct (Hturn Hurl) as [[platform url'] [Hl Hopened]].
        rewrite open_listed_opened in Hopened. destruct Hopened as [<-|[]].
        exists items, platform. split; [reflexivity|exact Hl].
    + cbn [snd]. rewrite Hmenu. intros [].
    + pose proof (in_turn_opened (open_selected desk (numbered_links items))
                    (findall_digits desk (upper desk answer)) url) as Hturn.
      destruct (in_turn (open_selected desk (numbered_links items))
                  (findall_digits desk (upper desk answer))) as [opened [e|]];
        cbn [fst snd] in *; rewrite opened_urls_app, Hmenu; cbn [app]; intros Hurl;
        destruct (Hturn Hurl) as [sel [_ Hopened]];
        rewrite open_selected_opened in Hopened;
        (destruct (assoc_get sel (numbered_links items)) as [[platform url']|] eqn:Hget;
           [|destruct Hopened]);
        destruct Hopened as [<-|[]];
        destruct (assoc_get_listed _ _ _ Hget) as [num Hl];
        exists items, platform; (split; [reflexivity|]);
        now apply (numbered_link_is_listed items num).
  - intros Hsec. unfold open_urls_interactively. now rewrite Hsec.
  - intros items answer Hsec Hplain Hin Hup.
    rewrite (open_urls_answered desk results items answer Hsec Hplain Hin), Hup.
    replace (Py.eqb (lit "N") (lit "A")) with false by (vm_compute; reflexivity).
    rewrite eqb_refl. now rewrite app_nil_r.
  - intros items e Hsec Hplain Hin. unfold open_urls_interactively. rewrite Hsec.
    cbn [py_items]. rewrite menu_options_listed. fold (numbered_links items).
    rewrite (menu_prints desk items Hplain), Hin. reflexivity.
  - intros before platform url after e Hsec Hplain Hbracket Hrejected.
    unfold open_urls_interactively. rewrite Hsec. cbn [py_items].
    rewrite menu_options_listed. rewrite enumerate_app, map_app.
    fold (numbered_links before). rewrite in_turn_app.
    rewrite (menu_prints desk before Hplain).
    cbn [enumerate map fst snd in_turn show_option].
    replace (1 + Z.of_nat (List.length before))%Z
      with (Z.of_nat (S (List.length before))) by lia.
    unfold print_markup. cbn [existsb]. rewrite orb_false_r, Hbracket, Hrejected.
    now rewrite app_nil_r.
Qed.

Lemma only_section_links_are_opened_witness :
  open_urls_interactively (sample_desk (lit "n") (fun _ => false))
    [ (lit "Social Media",
       VDict [(lit "💬 WhatsApp", VStr (lit "https://wa.me/33123456789"))]) ]
  = (Return tt,
     menu_shown (sample_desk (lit "n") (fun _ => false))
       [(lit "💬 WhatsApp", VStr (lit "https://wa.me/33123456789"))]) /\
  open_urls_interactively (sample_desk (lit "a") (fun _ => false))
    [ (lit "Social Media",
       VDict [ (lit "💬 WhatsApp", VStr (lit "https://wa.me/33123456789"));
               (lit "Site", VStr (lit "https://example.com/[/x]"));
               (lit "✈️ Telegram", VStr (lit "https://t.me/33123456789")) ]) ]
  = (Raise (mk_exn OtherException (lit "closing tag '[/x]' doesn't match any open tag")),
     [ Printed (newline ++ lit "[bold]Would you like to open any links in your browser?[/]");
       Printed (lit "1. 💬 WhatsApp - [link=https://wa.me/33123456789]https://wa.me/33123456789[/link]") ]).
Proof.
  split.
  - destruct (only_section_links_are_opened (sample_desk (lit "n") (fun _ => false))
                [ (lit "Social Media",
                   VDict [(lit "💬 WhatsApp", VStr (lit "https://wa.me/33123456789"))]) ])
      as [_ [_ [H _]]].
    apply (H [(lit "💬 WhatsApp", VStr (lit "https://wa.me/33123456789"))] (lit "n"));
      vm_compute; reflexivity.
  - destruct (only_section_links_are_opened (sample_desk (lit "a") (fun _ => false))
                [ (lit "Social Media",
                   VDict [ (lit "💬 WhatsApp", VStr (lit "https://wa.me/33123456789"));
                           (lit "Site", VStr (lit "https://example.com/[/x]"));
                           (lit "✈️ Telegram", VStr (lit "https://t.me/33123456789")) ]) ])
      as [_ [_ [_ [_ H]]]].
    rewrite (H [(lit "💬 WhatsApp", VStr (lit "https://wa.me/33123456789"))]
               (lit "Site") (VStr (lit "https://example.com/[/x]"))
               [(lit "✈️ Telegram", VStr (lit "https://t.me/33123456789"))]
               (mk_exn OtherException (lit "closing tag '[/x]' doesn't match any open tag")));
      vm_compute; reflexivity.
Defined.

Lemma unparsed_report_social
    (w : World) (hibp_api_key : option pystr) (google_results : Z) (m : machine)
    (report : dict) :
  parsed_number (self m) = None ->
  fst (run_all_checks w hibp_api_key google_results m) = Return report ->
  dict_get (lit "Social Media") report = Some (VDict invalid_number).
Proof.
  intros Hp. unfold run_all_checks. cbv beta iota delta [bind].
  rewrite (get_basic_info_unparsed w m Hp), (search_social_media_unparsed w m Hp).
  destruct (check_breaches w hibp_api_key m) as [[breach|e] m3]; [|discriminate].
  destruct (google_search_returns w google_results m3) as (found & m4 & E4). rewrite E4.
  destruct (reverse_lookup_returns w m4) as (lines & m5 & E5). rewrite E5.
  rewrite !now_strftime_run. cbv beta iota.
  match goal with
  | |- context [_get_network_info w ?m6] =>
    destruct (get_network_info_returns w m6) as (network & m7 & E7); rewrite E7
  end.
  cbv beta iota delta [get_self ret]. cbn [fst]. intros H. injection H as <-.
  rewrite dict_display_distinct.
  2:{ unfold dict_keys. cbn [map fst]. vm_compute.
      repeat (constructor; [simpl; intuition discriminate|]). constructor. }
  apply dict_get_listed.
  - unfold dict_keys. cbn [map fst]. vm_compute.
    repeat (constructor; [simpl; intuition discriminate|]). constructor.
  - right; left; reflexivity.
Qed.

(** X19.  After a run on an instance whose number did not parse, the
    Social Media section of the report is the entry
    "Error" : "Invalid phone number", and the link menu treats it as a link:
    it lists it under number 1, and when the user answers "A" the text
    "Invalid phone number" is what the browser is asked to open, and
    nothing else. *)
Theorem unparsed_report_opens_error_text
    (w : World) (hibp_api_key : option pystr) (google_results : Z) (m : machine)
    (report : dict) (desk : Desk) (answer : pystr) :
  parsed_number (self m) = None ->
  fst (run_all_checks w hibp_api_key google_results m) = Return report ->
  console_input desk menu_prompt = Return answer ->
  upper desk answer = lit "A" ->
  assoc_get (lit "1") (menu_options invalid_number)
    = Some (lit "Error", VStr (lit "Invalid phone number")) /\
  opened_urls (snd (open_urls_interactively desk report))
    = [VStr (lit "Invalid phone number")].
Proof.
  intros Hp Hrun Hin Hup.
  pose proof (unparsed_report_social w hibp_api_key google_results m report Hp Hrun)
    as Hsec.
  split; [vm_compute; reflexivity|].
  assert (Hplain : plain_text desk invalid_number = true) by (vm_compute; reflexivity).
  rewrite (open_urls_answered desk report invalid_number answer Hsec Hplain Hin).
  rewrite Hup, eqb_refl. cbn [snd].
  rewrite !opened_urls_app, menu_opens_nothing, listed_events_urls.
  cbn [opened_urls flat_map app]. rewrite app_nil_r. reflexivity.
Qed.

Lemma unparsed_report_opens_error_text_witness :
  exists report : dict,
    fst (run_all_checks (sample_world offline no_results) None 5
           (instance (sample_world offline no_results) (lit "abc"))) = Return report /\
    opened_urls (snd (open_urls_interactively (sample_desk (lit "A") (fun _ => false))
                        report))
      = [VStr (lit "Invalid phone number")].
Proof.
  destruct (run_all_checks_without_key (sample_world offline no_results) 5
              (instance (sample_world offline no_results) (lit "abc")))
    as [report [Hrun _]].
  exists report. split; [exact Hrun|].
  apply (unparsed_report_opens_error_text (sample_world offline no_results) None 5
           (instance (sample_world offline no_results) (lit "abc"))
           report (sample_desk (lit "A") (fun _ => false)) (lit "A"));
    [vm_compute; reflexivity | exact Hrun | reflexivity | vm_compute; reflexivity].
Defined.
